(** * A shallow embedding of the Hue bridge layer ([src/myapp/hue.py])

    The development follows the source file section by section: Python
    numbers and the JSON values [requests] hands back, the helpers
    ([load_config], [_raise_if_error], [_api_url]), pairing, lights, rooms
    and discovery.  Exceptions are values of [result]; the HTTP session, the
    configuration file and the environment are threaded through a state
    monad [M] over [world]. *)

From Stdlib Require Import ZArith QArith Qround Qabs Qpower Lia Lqa.
From Stdlib Require Import String Ascii List DecimalString.
From stdpp Require Import base option list sorting gmap strings.
Import ListNotations.

Local Open Scope Z_scope.

(** ** Exceptions *)

Inductive exn :=
| RuntimeError (msg : string)
| AttributeError
| TypeError
| ValueError
| KeyError
| OverflowError
| ZeroDivisionError
| OSError
| NameError
| TransportError.

Inductive result (A : Type) :=
| Ok (a : A)
| Raise (e : exn).
Arguments Ok {A} a.
Arguments Raise {A} e.

#[export] Instance result_ret : MRet result := fun _ a => Ok a.
#[export] Instance result_bind : MBind result := fun _ _ f m =>
  match m with
  | Ok a => f a
  | Raise e => Raise e
  end.

(** ** Python numbers

    An [int] is an unbounded integer.  A finite [float] is the rational it
    denotes; the result of every float operation is rounded to binary64 by
    [fl64] (round to nearest, ties to even, 53-bit significand, least
    exponent [-1074]).  A result too large for binary64 is reported as
    [OverflowError] at the operation: in this program a float is only ever
    fed to further arithmetic and then to [int(round(.))], which raises
    [OverflowError] on an infinity. *)

Inductive num :=
| NInt (z : Z)
| NFloat (q : Q).

Definition pow2 (e : Z) : Q :=
  if 0 <=? e then inject_Z (2 ^ e) else / inject_Z (2 ^ (- e)).

(** [round(x)] of a float: nearest integer, ties to the even one. *)
Definition round_half_even (x : Q) : Z :=
  let f := Qfloor x in
  match (x - inject_Z f ?= 1 # 2)%Q with
  | Lt => f
  | Gt => f + 1
  | Eq => if Z.even f then f else f + 1
  end.

(** [floor (log2 q)] for [q > 0]. *)
Definition ilog2 (q : Q) : Z :=
  let n := Qnum q in
  let d := Z.pos (Qden q) in
  let k := Z.log2 n - Z.log2 d in
  let below := if 0 <=? k then d * 2 ^ k <=? n else d <=? n * 2 ^ (- k) in
  if below then k else k - 1.

Definition fl64_pos (q : Q) : Q :=
  let ex := Z.max (ilog2 q - 52) (-1074) in
  (inject_Z (round_half_even (q * pow2 (- ex))) * pow2 ex)%Q.

Definition fl64 (q : Q) : Q :=
  match (q ?= 0)%Q with
  | Eq => 0%Q
  | Gt => fl64_pos q
  | Lt => (- fl64_pos (- q))%Q
  end.

Definition to_double (q : Q) : result Q :=
  let r := fl64 q in
  if Qle_bool (inject_Z (2 ^ 1024)) (Qabs r) then Raise OverflowError else Ok r.

Definition to_float (n : num) : result Q :=
  match n with
  | NInt z => to_double (inject_Z z)
  | NFloat q => Ok q
  end.

Definition num_is_zero (n : num) : bool :=
  match n with
  | NInt z => z =? 0
  | NFloat q => Qeq_bool q 0
  end.

(** [a * b] *)
Definition py_mul (a b : num) : result num :=
  match a, b with
  | NInt x, NInt y => Ok (NInt (x * y))
  | _, _ =>
      x ← to_float a; y ← to_float b;
      r ← to_double (x * y); Ok (NFloat r)
  end.

(** [a / b]: true division; two ints give the correctly rounded quotient. *)
Definition py_truediv (a b : num) : result num :=
  if num_is_zero b then Raise ZeroDivisionError else
  match a, b with
  | NInt x, NInt y => r ← to_double (inject_Z x / inject_Z y); Ok (NFloat r)
  | _, _ =>
      x ← to_float a; y ← to_float b;
      r ← to_double (x / y); Ok (NFloat r)
  end.

Definition Qneg_b (q : Q) : bool := negb (Qle_bool 0 q).

(** C's [fmod]: exact, with the sign of the dividend. *)
Definition fmod (x y : Q) : Q :=
  (x - inject_Z (Z.quot (Qnum (x / y)) (Z.pos (Qden (x / y)))) * y)%Q.

(** [a % b] ([float_rem] for floats, floor modulo for ints). *)
Definition py_mod (a b : num) : result num :=
  if num_is_zero b then Raise ZeroDivisionError else
  match a, b with
  | NInt x, NInt y => Ok (NInt (x mod y))
  | _, _ =>
      x ← to_float a; y ← to_float b;
      let m := fmod x y in
      if Qeq_bool m 0 then Ok (NFloat 0)
      else if negb (Bool.eqb (Qneg_b y) (Qneg_b m))
           then r ← to_double (m + y); Ok (NFloat r)
           else Ok (NFloat m)
  end.

(** The value of a number. *)
Definition num_val (n : num) : Q :=
  match n with
  | NInt z => inject_Z z
  | NFloat q => q
  end.

(** The value of [n] lies between the integers [lo] and [hi]. *)
Definition num_in (lo hi : Z) (n : num) : Prop :=
  (inject_Z lo <= num_val n)%Q /\ (num_val n <= inject_Z hi)%Q.

(** The number [b] is the constant [k], written as an int or as a float. *)
Definition is_const (k : Z) (b : num) : Prop :=
  b = NInt k \/ b = NFloat (inject_Z k).

(** [a < b] on numbers (exact, as Python compares an int with a float). *)
Definition py_lt (a b : num) : bool :=
  negb (Qle_bool (num_val b) (num_val a)).

(** [min(a, b)] and [max(a, b)] keep the first argument unless the second
    is strictly smaller (larger). *)
Definition py_min (a b : num) : num := if py_lt b a then b else a.
Definition py_max (a b : num) : num := if py_lt a b then b else a.

(** [round(x)] with one argument, and [int(x)]. *)
Definition py_round (n : num) : Z :=
  match n with
  | NInt z => z
  | NFloat q => round_half_even q
  end.

Definition py_int (n : num) : Z :=
  match n with
  | NInt z => z
  | NFloat q => Z.quot (Qnum q) (Z.pos (Qden q))
  end.

(** The integers [lo], [lo + 1], ..., [lo + n - 1]. *)
Definition zrange (lo : Z) (n : nat) : list Z :=
  List.map (fun i => lo + Z.of_nat i) (List.seq 0 n).

(** *** The StateNormalizer conversions, as they are written in the source *)

(** [int(round(bri_raw * 100 / 254))] *)
Definition bri_to_percent (bri_raw : num) : result Z :=
  a ← py_mul bri_raw (NInt 100);
  b ← py_truediv a (NInt 254);
  Ok (py_round b).

(** [max(0, min(100, int(percent)))] *)
Definition clamp_percent (percent : num) : Z :=
  Z.max 0 (Z.min 100 (py_int percent)).

(** [max(1, min(254, int(round(pct * 254 / 100))))] *)
Definition percent_to_bri (pct : Z) : result Z :=
  a ← py_mul (NInt pct) (NInt 254);
  b ← py_truediv a (NInt 100);
  Ok (Z.max 1 (Z.min 254 (py_round b))).

(** [int(round((hue_degrees % 360) * 65535 / 360.0))] *)
Definition hue_to_native (hue_degrees : num) : result Z :=
  m ← py_mod hue_degrees (NInt 360);
  a ← py_mul m (NInt 65535);
  b ← py_truediv a (NFloat 360);
  Ok (py_round b).

(** [int(round(max(0, min(100, sat_percent)) * 254 / 100.0))] *)
Definition sat_to_native (sat_percent : num) : result Z :=
  a ← py_mul (py_max (NInt 0) (py_min (NInt 100) sat_percent)) (NInt 254);
  b ← py_truediv a (NFloat 100);
  Ok (py_round b).

(** ** JSON values, as [response.json()] returns them

    A JSON object is its list of members in document order; [dict_lookup]
    finds the value of a key.  Python's [bool] is a subclass of [int], so
    [isinstance(x, (int, float))] accepts [True] and [False] as the numbers
    one and zero ([as_num]). *)

Local Set Warnings "-register-all".

Inductive json :=
| JNull
| JBool (b : bool)
| JNum (n : num)
| JStr (s : string)
| JList (l : list json)
| JDict (d : list (string * json)).

Fixpoint dict_lookup (k : string) (d : list (string * json)) : option json :=
  match d with
  | [] => None
  | (k', v) :: d' => if String.eqb k k' then Some v else dict_lookup k d'
  end.

Definition dict_mem (k : string) (d : list (string * json)) : bool :=
  match dict_lookup k d with Some _ => true | None => false end.

(** [bool(x)] *)
Definition py_bool (j : json) : bool :=
  match j with
  | JNull => false
  | JBool b => b
  | JNum n => negb (num_is_zero n)
  | JStr s => negb (String.eqb s EmptyString)
  | JList l => match l with [] => false | _ => true end
  | JDict d => match d with [] => false | _ => true end
  end.

(** [x.get(key, default)]: only a [dict] has the method. *)
Definition py_get (j : json) (key : string) (dflt : json) : result json :=
  match j with
  | JDict d => Ok (default dflt (dict_lookup key d))
  | _ => Raise AttributeError
  end.

(** [needle in s] for two strings. *)
Fixpoint is_infix (needle s : string) : bool :=
  String.prefix needle s ||
  match s with
  | EmptyString => false
  | String _ s' => is_infix needle s'
  end.

(** [key in x]: membership of a string in a dict (its keys), a list (its
    elements) or a string (its substrings). *)
Definition py_contains (key : string) (j : json) : result bool :=
  match j with
  | JDict d => Ok (dict_mem key d)
  | JList l =>
      Ok (existsb (fun x => match x with JStr s => String.eqb s key | _ => false end) l)
  | JStr s => Ok (is_infix key s)
  | _ => Raise TypeError
  end.

(** [x[key]] with a string key. *)
Definition py_getitem (j : json) (key : string) : result json :=
  match j with
  | JDict d =>
      match dict_lookup key d with
      | Some v => Ok v
      | None => Raise KeyError
      end
  | _ => Raise TypeError
  end.

(** [isinstance(x, (int, float))], with the number [x] stands for. *)
Definition as_num (j : json) : option num :=
  match j with
  | JNum n => Some n
  | JBool b => Some (NInt (if b then 1 else 0))
  | _ => None
  end.

(** [x in ("hs", "xy")] *)
Definition is_color_mode (j : json) : bool :=
  match j with
  | JStr s => String.eqb s "hs" || String.eqb s "xy"
  | _ => false
  end.

(** *** Text: [str(x)], [int(s)], [s.strip()], [s.lower()], [s.split(".")] *)

Definition string_of_Z (z : Z) : string := NilZero.string_of_int (Z.to_int z).

Definition is_space (c : ascii) : bool :=
  let n := nat_of_ascii c in
  ((9 <=? n) && (n <=? 13) || (28 <=? n) && (n <=? 32) || (n =? 133) || (n =? 160))%nat.

Fixpoint lstrip (s : string) : string :=
  match s with
  | String c s' => if is_space c then lstrip s' else s
  | EmptyString => EmptyString
  end.

Fixpoint rstrip (s : string) : string :=
  match s with
  | EmptyString => EmptyString
  | String c s' =>
      match rstrip s' with
      | EmptyString => if is_space c then EmptyString else String c EmptyString
      | r => String c r
      end
  end.

Definition strip (s : string) : string := rstrip (lstrip s).

Definition digit_of (c : ascii) : option Z :=
  let n := nat_of_ascii c in
  if ((48 <=? n) && (n <=? 57))%nat then Some (Z.of_nat n - 48) else None.

(** The digits of an [int] literal: one underscore may stand between two
    digits.  [acc] is the value read so far, [after_digit] tells that the
    last character was a digit. *)
Fixpoint parse_digits (s : string) (acc : Z) (after_digit : bool) : option Z :=
  match s with
  | EmptyString => if after_digit then Some acc else None
  | String c s' =>
      match digit_of c with
      | Some d => parse_digits s' (acc * 10 + d) true
      | None =>
          if (Ascii.eqb c "_" && after_digit)%bool
          then parse_digits s' acc false
          else None
      end
  end.

(** The white space [int] accepts around the digits: the ASCII white space
    of C, and the two spaces of Latin-1 above 127, which [int] turns into
    blanks first.  Unlike [str.strip] it does not take the separators
    28..31. *)
Definition int_space (c : ascii) : bool :=
  let n := nat_of_ascii c in
  ((9 <=? n) && (n <=? 13) || (n =? 32) || (n =? 133) || (n =? 160))%nat.

Fixpoint int_lstrip (s : string) : string :=
  match s with
  | String c s' => if int_space c then int_lstrip s' else s
  | EmptyString => EmptyString
  end.

Fixpoint int_rstrip (s : string) : string :=
  match s with
  | EmptyString => EmptyString
  | String c s' =>
      match int_rstrip s' with
      | EmptyString => if int_space c then EmptyString else String c EmptyString
      | r => String c r
      end
  end.

(** The number of digits of a literal. *)
Fixpoint digit_count (s : string) : Z :=
  match s with
  | EmptyString => 0
  | String c s' =>
      match digit_of c with
      | Some _ => 1 + digit_count s'
      | None => digit_count s'
      end
  end.

(** [int(s)] for a string in base ten.  A literal of more than 4300
    digits is refused ([sys.int_max_str_digits], as CPython sets it). *)
Definition int_of_string (s : string) : result Z :=
  let body := int_rstrip (int_lstrip s) in
  let parsed :=
    match body with
    | String "-" s' => z ← parse_digits s' 0 false; Some (- z)
    | String "+" s' => parse_digits s' 0 false
    | _ => parse_digits body 0 false
    end in
  match parsed with
  | Some z => if digit_count body <=? 4300 then Ok z else Raise ValueError
  | None => Raise ValueError
  end.

(** [c.lower()] for a character below 256: the capitals A-Z, and the
    accented capitals of Latin-1 (all of 192..222 but the sign 215). *)
Definition lower_ascii (c : ascii) : ascii :=
  let n := nat_of_ascii c in
  if ((65 <=? n) && (n <=? 90) || (192 <=? n) && (n <=? 222) && negb (n =? 215))%nat
  then ascii_of_nat (n + 32) else c.

Fixpoint lower (s : string) : string :=
  match s with
  | EmptyString => EmptyString
  | String c s' => String (lower_ascii c) (lower s')
  end.

(** [s.split(sep)] for a one-character separator. *)
Fixpoint split_on (sep : ascii) (s : string) : list string :=
  match s with
  | EmptyString => [EmptyString]
  | String c s' =>
      if Ascii.eqb c sep then EmptyString :: split_on sep s'
      else match split_on sep s' with
           | [] => [String c EmptyString]
           | w :: ws => String c w :: ws
           end
  end.

(** [sep.join(parts)] *)
Fixpoint join (sep : string) (parts : list string) : string :=
  match parts with
  | [] => EmptyString
  | [p] => p
  | p :: rest => p +:+ sep +:+ join sep rest
  end.

(** [for x in value]: a list yields its elements, a string its characters,
    a dict its keys; nothing else is iterable. *)
Definition py_iter (j : json) : result (list json) :=
  match j with
  | JList l => Ok l
  | JStr s => Ok (List.map (fun c => JStr (String c EmptyString)) (list_ascii_of_string s))
  | JDict d => Ok (List.map (fun kv => JStr (fst kv)) d)
  | _ => Raise TypeError
  end.

(** [int(x)] for a JSON value. *)
Definition py_int_of (j : json) : result Z :=
  match j with
  | JNum n => Ok (py_int n)
  | JBool b => Ok (if b then 1 else 0)
  | JStr s => int_of_string s
  | _ => Raise TypeError
  end.

(** ** Python dicts built by the program

    Keys are hashable values compared with [==] ([True == 1 == 1.0]); an
    assignment to a key that is present replaces its value in place, a new
    key goes to the end. *)

Definition hashable (j : json) : bool :=
  match j with
  | JList _ | JDict _ => false
  | _ => true
  end.

Definition key_eqb (a b : json) : bool :=
  match a, b with
  | JNull, JNull => true
  | JStr s, JStr t => String.eqb s t
  | _, _ =>
      match as_num a, as_num b with
      | Some x, Some y => Qeq_bool (num_val x) (num_val y)
      | _, _ => false
      end
  end.

Definition pydict := list (json * json).

Fixpoint pydict_get (k : json) (d : pydict) : option json :=
  match d with
  | [] => None
  | (k', v) :: d' => if key_eqb k k' then Some v else pydict_get k d'
  end.

Fixpoint pydict_set (k v : json) (d : pydict) : pydict :=
  match d with
  | [] => [(k, v)]
  | (k', v') :: d' =>
      if key_eqb k k' then (k', v) :: d' else (k', v') :: pydict_set k v d'
  end.

(** [d.update(seq)] over a sequence of pairs: the dict keeps what was
    written before the element that raises. *)
Fixpoint update_from_pairs (items : list json) (d : pydict) : pydict * result unit :=
  match items with
  | [] => (d, Ok ())
  | item :: rest =>
      match py_iter item with
      | Raise _ => (d, Raise TypeError)
      | Ok [k; v] =>
          if hashable k then update_from_pairs rest (pydict_set k v d)
          else (d, Raise TypeError)
      | Ok _ => (d, Raise ValueError)
      end
  end.

(** [d.update(other)] *)
Definition pydict_update (d : pydict) (other : json) : pydict * result unit :=
  match other with
  | JDict members =>
      (fold_left (fun acc kv => pydict_set (JStr (fst kv)) (snd kv) acc) members d, Ok ())
  | _ =>
      match py_iter other with
      | Ok items => update_from_pairs items d
      | Raise e => (d, Raise e)
      end
  end.

(** ** The world: configuration file, environment, HTTP session *)

Inductive method := GET | PUT | POST.

Record request := Request {
  rq_method : method;
  rq_url : string;
  rq_json : option json
}.

(** The configuration file: absent; present but [read_text] or
    [json.loads] raises; or present with the value [json.loads] returns. *)
Inductive config_file :=
| NoFile
| BadFile
| JsonFile (content : json).

(** What a write of the configuration file meets: it succeeds; [mkdir] or
    the [open] of [write_text] fails, and the file is as it was; or the file
    is opened, which empties it, and the write fails, which leaves a file
    that holds no JSON document. *)
Inductive write_outcome := Writes | Refuses | Breaks.

(** [bridge] answers a request given the requests sent before it: [Some j]
    is the decoded body, [None] a failure of the transport or of decoding. *)
Record world := World {
  file : config_file;
  disk : write_outcome;
  environ : string -> option string;
  bridge : list request -> request -> option json;
  sent : list request
}.

(** The configuration file can be written. *)
Definition fs_writable (w : world) : bool :=
  match disk w with
  | Writes => true
  | _ => false
  end.

Definition M (A : Type) : Type := world -> result A * world.

#[export] Instance M_ret : MRet M := fun _ a w => (Ok a, w).
#[export] Instance M_bind : MBind M := fun _ _ f m w =>
  match m w with
  | (Ok a, w') => f a w'
  | (Raise e, w') => (Raise e, w')
  end.

Definition lift {A} (r : result A) : M A := fun w => (r, w).

(** [_session.<method>(url, json=body, timeout=...).json()] *)
Definition http (m : method) (url : string) (body : option json) : M json :=
  fun w =>
    let rq := Request m url body in
    let w' := World (file w) (disk w) (environ w) (bridge w) (sent w ++ [rq]) in
    match bridge w (sent w) rq with
    | Some j => (Ok j, w')
    | None => (Raise TransportError, w')
    end.

(** [os.environ.get(name, default)] with the empty string as default. *)
Definition getenv (w : world) (name : string) : json :=
  JStr (default EmptyString (environ w name)).

Definition env_fallback (w : world) (cfg : pydict) : pydict :=
  pydict_set (JStr "username") (getenv w "HUE_USERNAME")
    (pydict_set (JStr "bridge_ip") (getenv w "HUE_BRIDGE_IP") cfg).

(** The body of the [try] in [load_config], with the dict it leaves. *)
Definition load_config_try (w : world) (cfg : pydict) : pydict * result unit :=
  match file w with
  | JsonFile content => pydict_update cfg content
  | BadFile => (cfg, Raise ValueError)
  | NoFile => (env_fallback w cfg, Ok ())
  end.

Definition load_config : M pydict := fun w =>
  let cfg := [(JStr "bridge_ip", JStr EmptyString); (JStr "username", JStr EmptyString)] in
  match load_config_try w cfg with
  | (cfg', Ok _) => (Ok cfg', w)
  | (cfg', Raise _) => (Ok (env_fallback w cfg'), w)
  end.

Definition save_config (bridge_ip username : json) : M unit := fun w =>
  match disk w with
  | Writes =>
      (Ok (),
       World (JsonFile (JDict [("bridge_ip"%string, bridge_ip); ("username"%string, username)]))
             (disk w) (environ w) (bridge w) (sent w))
  | Refuses => (Raise OSError, w)
  | Breaks => (Raise OSError, World BadFile (disk w) (environ w) (bridge w) (sent w))
  end.

(** ** The bridge client

    [str(x)] of [None], a bool, an int and a string is defined below; what
    Python prints for a float or a container is left to [py_repr], a
    parameter of the whole client. *)

Section Client.

Variable py_repr : json -> string.

Definition py_str (j : json) : string :=
  match j with
  | JNull => "None"
  | JBool true => "True"
  | JBool false => "False"
  | JNum (NInt z) => string_of_Z z
  | JStr s => s
  | _ => py_repr j
  end.

(** The [raise RuntimeError(f"Hue error ...")] statement. *)
Definition hue_error_message (ty description address : json) : string :=
  "Hue error " +:+ py_str ty +:+ ": " +:+ py_str description
    +:+ " (" +:+ py_str address +:+ ")".

Definition raise_hue_error {A} (err : json) : result A :=
  ty ← py_get err "type" JNull;
  description ← py_get err "description" JNull;
  address ← py_get err "address" JNull;
  Raise (RuntimeError (hue_error_message ty description address)).

(** The [for item in resp_json] loop of [_raise_if_error]. *)
Fixpoint raise_if_error_in (items : list json) : result unit :=
  match items with
  | [] => Ok ()
  | item :: rest =>
      match item with
      | JDict d =>
          match dict_lookup "error" d with
          | Some err => raise_hue_error err
          | None => raise_if_error_in rest
          end
      | _ => raise_if_error_in rest
      end
  end.

Definition _raise_if_error (resp_json : json) : result json :=
  match resp_json with
  | JList items => _ ← raise_if_error_in items; Ok resp_json
  | JDict d =>
      match dict_lookup "error" d with
      | Some err => raise_hue_error err
      | None => Ok resp_json
      end
  | _ => Ok resp_json
  end.

Definition _api_url (parts : list json) : M string :=
  cfg ← load_config;
  bridge_ip ← lift (match pydict_get (JStr "bridge_ip") cfg with
                    | Some v => Ok v | None => Raise KeyError end);
  username ← lift (match pydict_get (JStr "username") cfg with
                   | Some v => Ok v | None => Raise KeyError end);
  mret ("http://" +:+ py_str bridge_ip +:+ "/api/" +:+ py_str username +:+ "/"
          +:+ join "/" (List.map py_str parts)).

(** *** Pairing *)

(** The [for item in resp] loop of [create_user]; [None] when it ends
    without a [return]. *)
Fixpoint find_username (items : list json) : result (option json) :=
  match items with
  | [] => Ok None
  | item :: rest =>
      succ ← py_get item "success" JNull;
      if py_bool succ then
        has ← py_contains "username" succ;
        if has : bool then u ← py_getitem succ "username"; Ok (Some u)
        else find_username rest
      else find_username rest
  end.

Definition unexpected_response : exn :=
  RuntimeError "Unexpected Hue response creating user.".

(** What [create_user] does with the decoded response. *)
Definition extract_username (resp : json) : result json :=
  _ ← _raise_if_error resp;
  match resp with
  | JList items =>
      found ← find_username items;
      match found with
      | Some u => Ok u
      | None => Raise unexpected_response
      end
  | _ => Raise unexpected_response
  end.

Definition create_user (bridge_ip devicetype : string) : M json :=
  resp ← http POST ("http://" +:+ bridge_ip +:+ "/api")
            (Some (JDict [("devicetype"%string, JStr devicetype)]));
  lift (extract_username resp).

(** *** Lights *)

Record entry := Entry {
  name : json;
  on : bool;
  bri : Z;
  supports_color : bool
}.

Definition outdict := list (Z * entry).

(** [out[k] = e] *)
Fixpoint out_set (k : Z) (e : entry) (out : outdict) : outdict :=
  match out with
  | [] => [(k, e)]
  | (k', e') :: out' =>
      if k =? k' then (k', e) :: out' else (k', e') :: out_set k e out'
  end.

(** The brightness percentage of a read: [bri_raw] converted when it is a
    number, else 100 or 0 by [on]. *)
Definition read_bri (bri_raw : json) (on : bool) : result Z :=
  match as_num bri_raw with
  | Some n => bri_to_percent n
  | None => Ok (if on then 100 else 0)
  end.

(** [("hue" in obj) or (obj.get("colormode") in ("hs", "xy"))] *)
Definition read_supports (obj : json) : result bool :=
  has_hue ← py_contains "hue" obj;
  if has_hue : bool then Ok true
  else cm ← py_get obj "colormode" JNull; Ok (is_color_mode cm).

(** The body of the loop over lights ([list_lights_detailed] and
    [list_lights_detailed_for_room] have the same one); [label] is the
    light id as the f-string prints it. *)
Definition light_entry (label : string) (info : json) : result entry :=
  state ← py_get info "state" (JDict []);
  on_raw ← py_get state "on" (JBool false);
  let on := py_bool on_raw in
  bri_raw ← py_get state "bri" (JNum (NInt 254));
  bri ← read_bri bri_raw on;
  supports ← read_supports state;
  name ← py_get info "name" (JStr ("Light " +:+ label));
  Ok (Entry name on bri supports).

Fixpoint lights_loop (items : list (string * json)) (out : outdict) : result outdict :=
  match items with
  | [] => Ok out
  | (lid, info) :: rest =>
      e ← light_entry lid info;
      k ← int_of_string lid;
      lights_loop rest (out_set k e out)
  end.

(** [data.items()] *)
Definition py_items (j : json) : result (list (string * json)) :=
  match j with
  | JDict d => Ok d
  | _ => Raise AttributeError
  end.

(** [list_lights_detailed] after the request: the decoded payload to the
    returned dict. *)
Definition lights_of_payload (data : json) : result outdict :=
  _ ← _raise_if_error data;
  items ← py_items data;
  lights_loop items [].

Definition list_lights_detailed : M outdict :=
  url ← _api_url [JStr "lights"];
  data ← http GET url None;
  lift (lights_of_payload data).

Definition light_is_on (light_id : Z) : M bool :=
  url ← _api_url [JStr "lights"; JNum (NInt light_id)];
  data ← http GET url None;
  lift (_ ← _raise_if_error data;
        state ← py_get data "state" (JDict []);
        on_raw ← py_get state "on" (JBool false);
        Ok (py_bool on_raw)).

Definition on_body (on : bool) : json := JDict [("on"%string, JBool on)].

Definition bri_body (bri : Z) : json :=
  JDict [("on"%string, JBool true); ("bri"%string, JNum (NInt bri))].

Definition hs_body (hue sat : Z) : json :=
  JDict [("on"%string, JBool true); ("hue"%string, JNum (NInt hue));
         ("sat"%string, JNum (NInt sat))].

Definition set_on (light_id : Z) (on : bool) : M json :=
  url ← _api_url [JStr "lights"; JNum (NInt light_id); JStr "state"];
  data ← http PUT url (Some (on_body on));
  lift (_raise_if_error data).

Definition set_brightness (light_id : Z) (percent : num) : M json :=
  let pct := clamp_percent percent in
  if pct <=? 0 then set_on light_id false
  else
    bri ← lift (percent_to_bri pct);
    url ← _api_url [JStr "lights"; JNum (NInt light_id); JStr "state"];
    data ← http PUT url (Some (bri_body bri));
    lift (_raise_if_error data).

Definition set_color_hs (light_id : Z) (hue_degrees sat_percent : num) : M json :=
  hue ← lift (hue_to_native hue_degrees);
  sat ← lift (sat_to_native sat_percent);
  url ← _api_url [JStr "lights"; JNum (NInt light_id); JStr "state"];
  data ← http PUT url (Some (hs_body hue sat));
  lift (_raise_if_error data).

(** *** Rooms *)

(** [info.get("type") != "Room"] *)
Definition is_room (info : json) : result bool :=
  ty ← py_get info "type" JNull;
  Ok (match ty with JStr s => String.eqb s "Room" | _ => false end).

(** [bool(st.get("any_on", act.get("on", False)))] *)
Definition room_on (st act : json) : result bool :=
  match st with
  | JDict _ =>
      act_on ← py_get act "on" (JBool false);
      any_on ← py_get st "any_on" act_on;
      Ok (py_bool any_on)
  | _ => Raise AttributeError
  end.

(** The body of the loop of [list_rooms_detailed] for a group of type Room. *)
Definition room_entry (gid : string) (info : json) : result entry :=
  st ← py_get info "state" (JDict []);
  act ← py_get info "action" (JDict []);
  on ← room_on st act;
  bri_raw ← py_get act "bri" (JNum (NInt 254));
  bri ← read_bri bri_raw on;
  supports ← read_supports act;
  name ← py_get info "name" (JStr ("Room " +:+ gid));
  Ok (Entry name on bri supports).

Fixpoint rooms_loop (items : list (string * json)) (out : outdict) : result outdict :=
  match items with
  | [] => Ok out
  | (gid, info) :: rest =>
      room ← is_room info;
      if room : bool then
        e ← room_entry gid info;
        k ← int_of_string gid;
        rooms_loop rest (out_set k e out)
      else rooms_loop rest out
  end.

Definition rooms_of_payload (groups : json) : result outdict :=
  _ ← _raise_if_error groups;
  items ← py_items groups;
  rooms_loop items [].

Definition list_rooms_detailed : M outdict :=
  url ← _api_url [JStr "groups"];
  groups ← http GET url None;
  lift (rooms_of_payload groups).

(** [room_is_on] after the request. *)
Definition room_is_on_of_payload (data : json) : result bool :=
  _ ← _raise_if_error data;
  st ← py_get data "state" (JDict []);
  has ← py_contains "any_on" st;
  if has : bool then
    v ← py_getitem st "any_on"; Ok (py_bool v)
  else
    act ← py_get data "action" (JDict []);
    act_on ← py_get act "on" (JBool false);
    Ok (py_bool act_on).

Definition room_is_on (group_id : Z) : M bool :=
  url ← _api_url [JStr "groups"; JNum (NInt group_id)];
  data ← http GET url None;
  lift (room_is_on_of_payload data).

(** [[int(x) for x in group.get("lights", [])]] *)
Fixpoint ints_of (xs : list json) : result (list Z) :=
  match xs with
  | [] => Ok []
  | x :: rest => z ← py_int_of x; zs ← ints_of rest; Ok (z :: zs)
  end.

Definition room_light_ids (group : json) : result (list Z) :=
  _ ← _raise_if_error group;
  members ← py_get group "lights" (JList []);
  xs ← py_iter members;
  ints_of xs.

Fixpoint room_lights_loop (all_lights : json) (light_ids : list Z) (out : outdict)
  : result outdict :=
  match light_ids with
  | [] => Ok out
  | lid :: rest =>
      info ← py_get all_lights (string_of_Z lid) JNull;
      if py_bool info then
        e ← light_entry (string_of_Z lid) info;
        room_lights_loop all_lights rest (out_set lid e out)
      else room_lights_loop all_lights rest out
  end.

Definition room_lights_of_payload (all_lights : json) (light_ids : list Z)
  : result outdict :=
  _ ← _raise_if_error all_lights;
  room_lights_loop all_lights light_ids [].

Definition list_lights_detailed_for_room (room_id : Z) : M outdict :=
  url ← _api_url [JStr "groups"; JNum (NInt room_id)];
  group ← http GET url None;
  light_ids ← lift (room_light_ids group);
  match light_ids with
  | [] => mret []
  | _ =>
      url' ← _api_url [JStr "lights"];
      all_lights ← http GET url' None;
      lift (room_lights_of_payload all_lights light_ids)
  end.

Definition set_room_on (group_id : Z) (on : bool) : M json :=
  url ← _api_url [JStr "groups"; JNum (NInt group_id); JStr "action"];
  data ← http PUT url (Some (on_body on));
  lift (_raise_if_error data).

Definition set_room_brightness (group_id : Z) (percent : num) : M json :=
  let pct := clamp_percent percent in
  if pct <=? 0 then set_room_on group_id false
  else
    bri ← lift (percent_to_bri pct);
    url ← _api_url [JStr "groups"; JNum (NInt group_id); JStr "action"];
    data ← http PUT url (Some (bri_body bri));
    lift (_raise_if_error data).

Definition set_room_color_hs (group_id : Z) (hue_degrees sat_percent : num) : M json :=
  hue ← lift (hue_to_native hue_degrees);
  sat ← lift (sat_to_native sat_percent);
  url ← _api_url [JStr "groups"; JNum (NInt group_id); JStr "action"];
  data ← http PUT url (Some (hs_body hue sat));
  lift (_raise_if_error data).

(** *** The pairing flow of the settings screen ([SettingsScreen.save] in
    [app.py])

    Only what reaches this layer is kept: the two text fields, the call of
    [create_user] when no username is stored, [save_config], and the
    [except Exception] around them.  [username] is a Kivy [StringProperty]:
    assigning a value that is not a string raises [ValueError].

    The outcome tells how [work] ended: [Caught e] when it raised [e] and
    the [except] clause caught it. *)

Inductive save_outcome :=
| IpRequired
| Saved
| Caught (e : exn).

Definition save_work (ip user : string) : M unit :=
  user_to_save ←
    (if String.eqb user EmptyString then
       new_user ← create_user ip "kivy-warmup#pi";
       match new_user with
       | JStr _ => mret new_user
       | _ => lift (Raise ValueError)
       end
     else mret (JStr user));
  save_config (JStr ip) user_to_save.

Definition settings_save (bridge_ip username : string) : M save_outcome :=
  let ip := strip bridge_ip in
  let user := strip username in
  if String.eqb ip EmptyString then mret IpRequired
  else fun w =>
    match save_work ip user w with
    | (Ok _, w') => (Ok Saved, w')
    | (Raise e, w') => (Ok (Caught e), w')
    end.

(** What the last callback that [save] schedules for the status label
    does, the text it writes or the error it raises.  The callback of the
    [except] clause, [lambda *_: setattr(lbl, "text", f"Save error: {e}")],
    reads [e] when the clock runs it: by then the clause has ended and
    Python has unbound the name, so that it raises [NameError] and the
    label keeps the text it had. *)
Definition save_label (o : save_outcome) : result string :=
  match o with
  | IpRequired => Ok "Bridge IP is required"%string
  | Saved => Ok "Saved. Returning…"%string
  | Caught _ => Raise NameError
  end.

End Client.

(** ** Discovery *)

(** What [_session.get(".../description.xml")] gives for a probe. *)
Record response := Response {
  ok : bool;
  text : string;
  server : option string
}.

(** [net url] is the response to a probe of [url], [None] when the request
    raises (refused, timed out, unreachable). *)
Definition probe (net : string -> option response) (ip : string) : option string :=
  match net ("http://" +:+ ip +:+ "/description.xml") with
  | Some r =>
      if ok r then
        let txt := lower (text r) in
        if is_infix "philip" txt && is_infix "bridge" txt then Some ip
        else if is_infix "ipbridge" (lower (default EmptyString (server r))) then Some ip
        else None
      else None
  | None => None
  end.

(** [sock] is the address [getsockname()] reports, [None] when the socket
    calls raise. *)
Definition _primary_lan_prefixes (sock : option string) : list string :=
  let prefixes :=
    match sock with
    | Some ip =>
        let parts := split_on "." ip in
        if (length parts =? 4)%nat then [join "." (firstn 3 parts) +:+ "."] else []
    | None => []
    end in
  match prefixes with
  | [] => ["192.168.1."; "192.168.0."; "10.0.0."]
  | _ => prefixes
  end.

(** [[f"{p}{i}" for i in range(1, 255)]] *)
Definition candidates (p : string) : list string :=
  List.map (fun i => p +:+ string_of_Z i) (zrange 1 254).

(** [sorted(hits)]: ascending in Python's order on strings. *)
Fixpoint insert_sorted (x : string) (l : list string) : list string :=
  match l with
  | [] => [x]
  | y :: l' => if String.leb x y then x :: l else y :: insert_sorted x l'
  end.

Definition py_sorted (l : list string) : list string :=
  fold_right insert_sorted [] l.

(** [hits.add(ip)] for each completed future whose result is truthy. *)
Definition collect (hits : gset string) (results : list (option string)) : gset string :=
  fold_left
    (fun h r =>
       match r with
       | Some ip => if negb (String.eqb ip EmptyString) then {[ ip ]} ∪ h else h
       | None => h
       end)
    results hits.

(** One round of the outer loop: the probes of a prefix are submitted in
    the order of [candidates]; [order] is the order in which
    [as_completed] hands the futures back. *)
Definition sweep (net : string -> option response)
    (order : list (option string) -> list (option string))
    (hits : gset string) (p : string) : gset string :=
  collect hits (order (List.map (probe net) (candidates p))).

Fixpoint sweep_all (net : string -> option response)
    (sched : nat -> list (option string) -> list (option string))
    (round : nat) (prefixes : list string) (hits : gset string) : gset string :=
  match prefixes with
  | [] => hits
  | p :: rest => sweep_all net sched (S round) rest (sweep net (sched round) hits p)
  end.

Definition discover_bridges (sock : option string) (net : string -> option response)
    (sched : nat -> list (option string) -> list (option string))
    (skip_cloud : bool) : list string :=
  py_sorted (elements (sweep_all net sched 0 (_primary_lan_prefixes sock) ∅)).

(** ** Vocabulary of the properties *)

(** The write conversion succeeds on [p] with a native value from 1 to 254,
    and the read conversion brings it back within one of [p]. *)
Definition roundtrip_ok (p : Z) : bool :=
  match percent_to_bri p with
  | Ok bri =>
      match bri_to_percent (NInt bri) with
      | Ok p' => (1 <=? bri) && (bri <=? 254) && (Z.abs (p' - p) <=? 1)
      | Raise _ => false
      end
  | Raise _ => false
  end.

(** The dict [d] has the key [k]. *)
Definition has_key (k : json) (d : pydict) : Prop :=
  exists v, pydict_get k d = Some v.

(** The payload carries a vendor error: it is a list that contains an
    object with an [error] key, or it is itself an object with one. *)
Definition has_error (payload : json) : Prop :=
  (exists items d err,
      payload = JList items /\ In (JDict d) items /\ dict_lookup "error" d = Some err)
  \/ (exists d err, payload = JDict d /\ dict_lookup "error" d = Some err).

Definition error_of (item : json) : option json :=
  match item with
  | JDict d => dict_lookup "error" d
  | _ => None
  end.

Fixpoint first_error (items : list json) : option json :=
  match items with
  | [] => None
  | item :: rest =>
      match error_of item with
      | Some err => Some err
      | None => first_error rest
      end
  end.

(** The vendor error of a payload: in a list, that of the first item which
    has one. *)
Definition vendor_error (payload : json) : option json :=
  match payload with
  | JList items => first_error items
  | JDict d => dict_lookup "error" d
  | _ => None
  end.

(** [obj.get(key)] on the members of an object. *)
Definition field (o : list (string * json)) (key : string) : json :=
  default JNull (dict_lookup key o).

(** [part in msg] *)
Definition mentions (msg part : string) : Prop := is_infix part msg = true.

(** [action.on] of a group, [False] when [action] or its [on] is absent. *)
Definition action_on (g : list (string * json)) : json :=
  match dict_lookup "action" g with
  | Some (JDict a) => default (JBool false) (dict_lookup "on" a)
  | _ => JBool false
  end.

(** The [action] of the group is absent or an object, so that [action.on]
    can be read. *)
Definition action_object (g : list (string * json)) : Prop :=
  dict_lookup "action" g = None \/ exists a, dict_lookup "action" g = Some (JDict a).

(** The groups payload [items] lists the group [g], a Room, under the key
    [gid], and no Room that comes after it has a key that denotes the same
    id [k]. *)
Definition listed_room (items : list (string * json)) (gid : string)
    (g : list (string * json)) (k : Z) : Prop :=
  exists pre post,
    items = pre ++ (gid, JDict g) :: post
    /\ dict_lookup "type" g = Some (JStr "Room")
    /\ int_of_string gid = Ok k
    /\ forall key info,
         In (key, info) post -> is_room info = Ok true -> int_of_string key <> Ok k.

(** Both reads report [b] as the [on] state of the group [g].  Whenever
    [list_rooms_detailed] returns and the payload it got lists [g] under
    the key [gid], the returned dict has an entry for the id of [gid] and
    the [on] field of that entry is [b]; and whenever the bridge answers the
    request of [room_is_on] with [g] (which [room_is_on] first passes
    through [_raise_if_error], hence the [error] key), [room_is_on] returns
    [b]. *)
Definition reports_on (py_repr : json -> string) (gid : string)
    (g : list (string * json)) (b : bool) : Prop :=
  (forall w url items k out w',
      _api_url py_repr [JStr "groups"] w = (Ok url, w) ->
      bridge w (sent w) (Request GET url None) = Some (JDict items) ->
      listed_room items gid g k ->
      list_rooms_detailed py_repr w = (Ok out, w') ->
      exists e, In (k, e) out /\ on e = b)
  /\ (forall w group_id url,
        _api_url py_repr [JStr "groups"; JNum (NInt group_id)] w = (Ok url, w) ->
        bridge w (sent w) (Request GET url None) = Some (JDict g) ->
        dict_lookup "error" g = None ->
        fst (room_is_on py_repr group_id w) = Ok b).

(** The [on] expression of [list_rooms_detailed] on the group [g]. *)
Definition room_on_of (g : list (string * json)) : result bool :=
  room_on (default (JDict []) (dict_lookup "state" g))
          (default (JDict []) (dict_lookup "action" g)).

(** The [bri] member of a state or action object, when it is a number,
    lies in the vendor's native range. *)
Definition bri_native (obj : json) : Prop :=
  forall d v n,
    obj = JDict d -> dict_lookup "bri" d = Some v -> as_num v = Some n ->
    num_in 0 254 n.

(** A light or group object whose [state] and [action] are so. *)
Definition member_native (info : json) : Prop :=
  forall d obj,
    info = JDict d ->
    dict_lookup "state" d = Some obj \/ dict_lookup "action" d = Some obj ->
    bri_native obj.

Definition payload_native (data : json) : Prop :=
  forall d k info, data = JDict d -> In (k, info) d -> member_native info.

(** Every payload the bridge answers with is so. *)
Definition bridge_native (w : world) : Prop :=
  forall hist rq data, bridge w hist rq = Some data -> payload_native data.

(** Every entry of a returned dict has a percentage from 0 to 100. *)
Definition percent_entries (out : outdict) : Prop :=
  Forall (fun ke => 0 <= bri (snd ke) <= 100) out.

(** An item the loop of [create_user] passes over: an object whose
    [success] is absent or falsy, or is a dict, list or string that does not
    hold ["username"]. *)
Definition skipped (item : json) : Prop :=
  exists d, item = JDict d
    /\ (py_bool (field d "success") = false
        \/ py_contains "username" (field d "success") = Ok false).

(** The request [create_user] sends. *)
Definition pairing_request (bridge_ip devicetype : string) : request :=
  Request POST ("http://" +:+ bridge_ip +:+ "/api")
    (Some (JDict [("devicetype"%string, JStr devicetype)])).

(** ** Worlds and values for the examples *)

(** A world that is configured for the bridge [10.0.0.5] and the user [u1]
    and whose bridge answers every request with [resp]. *)
Definition paired_world (resp : json) : world :=
  World (JsonFile (JDict [("bridge_ip"%string, JStr "10.0.0.5"); ("username"%string, JStr "u1")]))
        Writes (fun _ => None) (fun _ _ => Some resp) [].

(** The examples format no float and no container. *)
Definition no_repr (j : json) : string := EmptyString.

(** A completion order: whatever futures are submitted in a round, they
    come back as a permutation of what was submitted. *)
Definition completion_order (sched : nat -> list (option string) -> list (option string))
  : Prop :=
  forall round (futs : list (option string)), Permutation (sched round futs) futs.

(** [ip] is a candidate of one of the prefixes and its probe matched. *)
Definition matched (net : string -> option response) (prefixes : list string)
    (ip : string) : Prop :=
  exists p, In p prefixes /\ In ip (candidates p) /\ probe net ip = Some ip.

(** Strictly ascending in the order of Python strings. *)
Definition ascending (l : list string) : Prop :=
  StronglySorted (fun a b => String.ltb a b = true) l.

(** A lights payload with one light, on, of native brightness [b]. *)
Definition one_light (b : Z) : json :=
  JDict [("1"%string,
          JDict [("state"%string,
                  JDict [("on"%string, JBool true);
                         ("bri"%string, JNum (NInt b))])])].

(** The bridge answers "link button not pressed". *)
Definition link_button_error : json :=
  JDict [("type"%string, JNum (NInt 101));
         ("description"%string, JStr "link button not pressed");
         ("address"%string, JStr EmptyString)].

Definition success_abc : list (string * json) :=
  [("success"%string, JDict [("username"%string, JStr "abc")])].

(** A room that is lit although the last command switched it off. *)
Definition lit_room : list (string * json) :=
  [("name"%string, JStr "Kitchen"); ("type"%string, JStr "Room");
   ("state"%string, JDict [("all_on"%string, JBool false); ("any_on"%string, JBool true)]);
   ("action"%string, JDict [("on"%string, JBool false); ("bri"%string, JNum (NInt 127))])].

(** A bridge that is configured and lists that room as group 1. *)
Definition lit_room_world : world :=
  World (JsonFile (JDict [("bridge_ip"%string, JStr "10.0.0.5"); ("username"%string, JStr "u1")]))
    Writes (fun _ => None)
    (fun _ rq =>
       if String.eqb (rq_url rq) "http://10.0.0.5/api/u1/groups"
       then Some (JDict [("1"%string, JDict lit_room)])
       else if String.eqb (rq_url rq) "http://10.0.0.5/api/u1/groups/1"
       then Some (JDict lit_room)
       else None)
    [].

(** A network on which 10.0.0.5 and 10.0.0.9 answer as bridges, 10.0.0.7
    answers with an error status and nothing else answers. *)
Definition net_two_bridges (url : string) : option response :=
  if String.eqb url "http://10.0.0.5/description.xml"
  then Some (Response true "<modelName>Philips hue bridge 2015</modelName>" None)
  else if String.eqb url "http://10.0.0.9/description.xml"
  then Some (Response true EmptyString (Some "Linux/3.14.0 UPnP/1.0 IpBridge/1.56.0"))
  else if String.eqb url "http://10.0.0.7/description.xml"
  then Some (Response false "philips bridge" None)
  else None.

(** Two completion orders: as submitted, and last submitted first. *)
Definition in_order (round : nat) (futs : list (option string)) : list (option string) :=
  futs.

Definition reversed (round : nat) (futs : list (option string)) : list (option string) :=
  List.rev futs.

(** A bridge with room 5 = lights 3 and 7, of which only light 3 is known. *)
Definition room_with_missing_light : world :=
  World NoFile Writes
    (fun v => if String.eqb v "HUE_BRIDGE_IP" then Some "10.0.0.5"%string
              else if String.eqb v "HUE_USERNAME" then Some "u1"%string else None)
    (fun _ rq =>
       if String.eqb (rq_url rq) "http://10.0.0.5/api/u1/groups/5"
       then Some (JDict [("type"%string, JStr "Room");
                         ("lights"%string, JList [JStr "3"; JStr "7"])])
       else if String.eqb (rq_url rq) "http://10.0.0.5/api/u1/lights"
       then Some (JDict [("3"%string,
                          JDict [("name"%string, JStr "Desk");
                                 ("state"%string,
                                  JDict [("on"%string, JBool false);
                                         ("bri"%string, JNum (NInt 254));
                                         ("colormode"%string, JStr "xy")])])])
       else None)
    [].

(** ** Vocabulary of the further properties *)

(** The configuration file holds the object
    [{"bridge_ip": ip, "username": user}], as [save_config] writes it. *)
Definition configured (w : world) (ip user : string) : Prop :=
  file w = JsonFile (JDict [("bridge_ip"%string, JStr ip); ("username"%string, JStr user)]).

(** [http://<ip>/api/<user>/<path>] *)
Definition api (ip user path : string) : string :=
  "http://" +:+ ip +:+ "/api/" +:+ user +:+ "/" +:+ path.

(** The keys of a JSON object are distinct. *)
Definition distinct_keys (d : list (string * json)) : Prop :=
  List.NoDup (List.map fst d).

(** A world whose environment names a bridge and a user and whose
    configuration file is the empty object. *)
Definition empty_file_with_env : world :=
  World (JsonFile (JDict [])) Writes
    (fun v => if String.eqb v "HUE_BRIDGE_IP" then Some "10.0.0.5"%string
              else if String.eqb v "HUE_USERNAME" then Some "u1"%string else None)
    (fun _ _ => None) [].

(** What a write does with the answer of the bridge. *)
Definition answer_of (py_repr : json -> string) (w : world) (rq : request) : result json :=
  match bridge w (sent w) rq with
  | Some j => _raise_if_error py_repr j
  | None => Raise TransportError
  end.


(** [state.on] of a light, [False] when [state] or its [on] is absent. *)
Definition state_on (d : list (string * json)) : json :=
  match dict_lookup "state" d with
  | Some (JDict s) => default (JBool false) (dict_lookup "on" s)
  | _ => JBool false
  end.

(** The member [key] of the object is absent or is itself an object. *)
Definition object_or_absent (key : string) (d : list (string * json)) : Prop :=
  dict_lookup key d = None \/ exists s, dict_lookup key d = Some (JDict s).

(** The ids of a returned dict. *)
Definition ids_of (out : outdict) : list Z := List.map fst out.

(** A light as the bridge documents it: an object whose [state] is absent
    or an object, with a [bri] in the native range when it is a number. *)
Definition well_formed_light (info : json) : Prop :=
  exists d, info = JDict d /\ object_or_absent "state" d /\ member_native info.

(** A group likewise, with [action] in the place of [state]; its [state]
    is absent or an object too. *)
Definition well_formed_group (info : json) : Prop :=
  exists d, info = JDict d /\ object_or_absent "state" d
            /\ object_or_absent "action" d /\ member_native info.

(** A payload of [GET lights] or [GET groups]: an object without an
    [error] key whose keys are decimal ids and whose members satisfy [P]. *)
Definition well_formed_payload (P : json -> Prop) (data : json)
    (items : list (string * json)) : Prop :=
  data = JDict items
  /\ dict_lookup "error" items = None
  /\ forall key info, In (key, info) items ->
       (exists k, int_of_string key = Ok k) /\ P info.

(** The id [k] is the key of a member of [items] that satisfies [sel]. *)
Definition id_in (sel : json -> Prop) (items : list (string * json)) (k : Z) : Prop :=
  exists key info, In (key, info) items /\ int_of_string key = Ok k /\ sel info.

(** The group is of type Room. *)
Definition typed_room (info : json) : Prop :=
  exists g, info = JDict g /\ dict_lookup "type" g = Some (JStr "Room").

(** [(key, info)] is the last member of [items] whose key denotes [k]. *)
Definition last_with_id (items : list (string * json)) (k : Z)
    (key : string) (info : json) : Prop :=
  exists pre post,
    items = pre ++ (key, info) :: post
    /\ int_of_string key = Ok k
    /\ forall key' info', In (key', info') post -> int_of_string key' <> Ok k.

(** Two keys of one payload that denote the same light. *)
Definition twice_light_one : json :=
  JDict [("1"%string, JDict [("name"%string, JStr "first")]);
         ("2"%string, JDict [("name"%string, JStr "other")]);
         (" 1"%string, JDict [("name"%string, JStr "second")])].

(** A groups payload with a room, a zone and a group without a type. *)
Definition room_and_zone : json :=
  JDict [("1"%string, JDict [("name"%string, JStr "Kitchen"); ("type"%string, JStr "Room")]);
         ("2"%string, JDict [("name"%string, JStr "Downstairs"); ("type"%string, JStr "Zone")]);
         ("x"%string, JDict [("name"%string, JStr "Custom")])].

(** [all_lights.get(str(k))] is present and truthy. *)
Definition known_light (all_lights : json) (k : Z) : Prop :=
  exists info,
    py_get all_lights (string_of_Z k) JNull = Ok info /\ py_bool info = true.

(** The entry of the light [k] in the payload [all_lights]. *)
Definition entry_in (all_lights : json) (k : Z) (e : entry) : Prop :=
  exists info,
    py_get all_lights (string_of_Z k) JNull = Ok info /\ py_bool info = true
    /\ light_entry (string_of_Z k) info = Ok e.

(** The world [w] after the requests [rqs]. *)
Definition after (w : world) (rqs : list request) : world :=
  World (file w) (disk w) (environ w) (bridge w) (sent w ++ rqs).

(** The write conversion of [p] followed by the read conversion gives [p]
    back, and the native value is at least 3. *)
Definition roundtrip_exact (p : Z) : bool :=
  match percent_to_bri p with
  | Ok b =>
      match bri_to_percent (NInt b) with
      | Ok p' => (3 <=? b) && (b <=? 254) && (p' =? p)
      | Raise _ => false
      end
  | Raise _ => false
  end.

(** From [p] to [p + 1] the write conversion grows by 2 or 3. *)
Definition write_step (p : Z) : bool :=
  match percent_to_bri p, percent_to_bri (p + 1) with
  | Ok b, Ok c => (b + 2 <=? c) && (c <=? b + 3)
  | _, _ => false
  end.

(** From [b] to [b + 1] the read conversion stays or grows by one. *)
Definition read_step (b : Z) : bool :=
  match bri_to_percent (NInt b), bri_to_percent (NInt (b + 1)) with
  | Ok p, Ok q => (p <=? q) && (q <=? p + 1)
  | _, _ => false
  end.

(** A part of an address that holds no dot. *)
Definition dotless (s : string) : Prop :=
  ~ In "."%char (list_ascii_of_string s).

(** * The screens ([src/myapp/app.py])

    What the screens compute is kept: the items built from a listing and
    their order, the pages of the room grid and its label, the generation
    counter of the room fetches, and the fields of the settings screen.
    Widgets are the data they show (a grid is the list of the items of its
    tiles); the geometry of the tiles, the clock and the timed status
    messages are left out.  Callbacks scheduled on the Kivy clock are
    functions applied by the caller, in whatever order it chooses. *)

(** [lst[start:stop]] *)
Definition slice_index (n i : Z) : Z :=
  if i <? 0 then Z.max 0 (i + n) else Z.min i n.

Definition py_slice {A} (l : list A) (start stop : Z) : list A :=
  let n := Z.of_nat (length l) in
  let a := slice_index n start in
  let b := slice_index n stop in
  firstn (Z.to_nat (b - a)) (skipn (Z.to_nat a) l).

(** The dict [{"id", "name", "on", "bri", "supports_color"}] built for
    every entry of a listing, which is also what a tile is made from
    ([item_id], [item_name], [is_on], [brightness], [supports_color]). *)
Record item := Item {
  item_id : Z;
  item_name : json;
  is_on : bool;
  brightness : Z;
  item_supports_color : bool
}.

(** [for rid, d in details.items(): items.append({...})]; every entry has
    the four keys, so that no default of a [d.get] is used. *)
Definition items_of (details : outdict) : list item :=
  List.map (fun kd => Item (fst kd) (name (snd kd)) (on (snd kd)) (bri (snd kd))
                        (supports_color (snd kd)))
    details.

(** [x["name"].lower()] *)
Definition sort_key (x : item) : result string :=
  match item_name x with
  | JStr s => Ok (lower s)
  | _ => Raise AttributeError
  end.

(** [list.sort(key=...)] computes the key of every element before it
    compares any two. *)
Fixpoint with_keys (items : list item) : result (list (string * item)) :=
  match items with
  | [] => Ok []
  | x :: rest => k ← sort_key x; ks ← with_keys rest; Ok ((k, x) :: ks)
  end.

(** The sort is stable: an element goes before the first one whose key is
    not smaller, and the elements are put in from the last to the first. *)
Fixpoint insert_keyed (kx : string * item) (l : list (string * item))
  : list (string * item) :=
  match l with
  | [] => [kx]
  | ky :: l' =>
      if String.leb (fst kx) (fst ky) then kx :: l else ky :: insert_keyed kx l'
  end.

(** [items.sort(key=lambda x: x["name"].lower())] *)
Definition sort_items (items : list item) : result (list item) :=
  keyed ← with_keys items;
  Ok (List.map snd (fold_right insert_keyed [] keyed)).

(** The key of an item whose name is a string. *)
Definition key_of (x : item) : string :=
  match item_name x with
  | JStr s => lower s
  | _ => EmptyString
  end.

(** The body of [work] in [MainScreen.fetch_rooms_async] and in
    [RoomLightsScreen.fetch_lights_async], up to the sorted items. *)
Definition rooms_work (py_repr : json -> string) : M (list item) :=
  details ← list_rooms_detailed py_repr;
  lift (sort_items (items_of details)).

Definition lights_work (py_repr : json -> string) (room_id : Z) : M (list item) :=
  details ← list_lights_detailed_for_room py_repr room_id;
  lift (sort_items (items_of details)).

Module MainScreen.

(** [rooms_grid] is the content of [ids["rooms_grid"]], [None] when the
    screen has no such widget. *)
Record t := Screen {
  rooms : list item;
  PAGE_SIZE : Z;
  rooms_page : Z;
  rooms_page_text : string;
  _gen_rooms : Z;
  loading_rooms : bool;
  rooms_grid : option (list item)
}.

(** [max(1, (len(self.rooms) + self.PAGE_SIZE - 1) // self.PAGE_SIZE)] *)
Definition total_pages (s : t) : result Z :=
  if PAGE_SIZE s =? 0 then Raise ZeroDivisionError
  else Ok (Z.max 1 ((Z.of_nat (length (rooms s)) + PAGE_SIZE s - 1) / PAGE_SIZE s)).

Definition _refresh_page_label (s : t) : result unit * t :=
  match total_pages s with
  | Ok total =>
      (Ok (),
       Screen (rooms s) (PAGE_SIZE s) (rooms_page s)
         (string_of_Z (Z.min (rooms_page s + 1) total) +:+ "/" +:+ string_of_Z total)
         (_gen_rooms s) (loading_rooms s) (rooms_grid s))
  | Raise e => (Raise e, s)
  end.

(** The rooms of the page [page]. *)
Definition page_of (s : t) (page : Z) : list item :=
  let start := page * PAGE_SIZE s in
  py_slice (rooms s) start (start + PAGE_SIZE s).

Definition update_rooms_view (s : t) : result unit * t :=
  match rooms_grid s with
  | None => (Ok (), s)
  | Some _ =>
      _refresh_page_label
        (Screen (rooms s) (PAGE_SIZE s) (rooms_page s) (rooms_page_text s)
           (_gen_rooms s) (loading_rooms s) (Some (page_of s (rooms_page s))))
  end.

Definition page_rooms (delta : Z) (s : t) : result unit * t :=
  match total_pages s with
  | Ok total =>
      update_rooms_view
        (Screen (rooms s) (PAGE_SIZE s) ((rooms_page s + delta) mod total)
           (rooms_page_text s) (_gen_rooms s) (loading_rooms s) (rooms_grid s))
  | Raise e => (Raise e, s)
  end.

(** The part of [_tune_for_small_screen] that sets the page size: two
    rows of three columns from a width of 760, of two below. *)
Definition _tune_for_small_screen (W : num) (s : t) : result unit * t :=
  let cols := if py_lt W (NInt 760) then 2 else 3 in
  let rows := 2 in
  _refresh_page_label
    (Screen (rooms s) (cols * rows) (rooms_page s) (rooms_page_text s)
       (_gen_rooms s) (loading_rooms s) (rooms_grid s)).

(** The start of [fetch_rooms_async]: the generation the thread keeps,
    and the screen. *)
Definition fetch_rooms_async (s : t) : Z * t :=
  let gen := _gen_rooms s + 1 in
  (gen, Screen (rooms s) (PAGE_SIZE s) (rooms_page s) (rooms_page_text s) gen true
          (rooms_grid s)).

(** The callback [assign] of a fetch of generation [gen]. *)
Definition assign (gen : Z) (items : list item) (s : t) : result unit * t :=
  if negb (gen =? _gen_rooms s) then (Ok (), s)
  else
    update_rooms_view
      (Screen items (PAGE_SIZE s) 0 (rooms_page_text s) (_gen_rooms s)
         (loading_rooms s) (rooms_grid s)).

End MainScreen.

Module SettingsScreen.

Record t := Screen {
  bridge_ip : string;
  username : string;
  status_lbl : string
}.

(** [on_pre_enter]: the two fields are Kivy [StringProperty]s, which
    refuse a value that is not a string with [ValueError]; the
    [except Exception] ends the method there. *)
Definition on_pre_enter (s : t) : M t := fun w =>
  match load_config w with
  | (Ok cfg, w') =>
      match default (JStr EmptyString) (pydict_get (JStr "bridge_ip") cfg) with
      | JStr b =>
          match default (JStr EmptyString) (pydict_get (JStr "username") cfg) with
          | JStr u => (Ok (Screen b u (status_lbl s)), w')
          | _ => (Ok (Screen b (username s) (status_lbl s)), w')
          end
      | _ => (Ok s, w')
      end
  | (Raise _, w') => (Ok s, w')
  end.

(** [discover], when its callback [assign] has run. *)
Definition discover (sock : option string) (net : string -> option response)
    (sched : nat -> list (option string) -> list (option string)) (s : t) : t :=
  let ips := discover_bridges sock net sched true in
  match ips with
  | [] => Screen (bridge_ip s) (username s) "No Hue bridges found"
  | ip :: _ => Screen ip (username s) ("Bridge: " +:+ join ", " ips)
  end.

End SettingsScreen.

(** A screen of five rooms on pages of four. *)
Definition five_rooms : MainScreen.t :=
  MainScreen.Screen
    (List.map (fun i => Item i (JStr (string_of_Z i)) false 0 false) (zrange 1 5))
    4 0 "1/1" 0 false (Some []).

(** The items shown for the listing [out]: its entries, each once, in the
    order of their lower-cased names. *)
Definition shown_sorted (out : outdict) (items : list item) : Prop :=
  Permutation items (items_of out)
  /\ List.NoDup (List.map item_id items)
  /\ StronglySorted (fun x y => String.leb (key_of x) (key_of y) = true) items.
(* ================================================================= *)
(** * Properties *)

(** ** Rounding *)

Lemma round_half_even_le (x : Q) (z : Z) :
  (x <= inject_Z z)%Q -> round_half_even x <= z.
Proof.
  intros Hx. unfold round_half_even.
  pose proof (Qfloor_le x) as Hf.
  assert (Hfz : Qfloor x <= z).
  { rewrite Zle_Qle. lra. }
  destruct (x - inject_Z (Qfloor x) ?= 1 # 2)%Q eqn:Hc.
  - apply Qeq_alt in Hc.
    assert (Qfloor x < z); [| destruct (Z.even _); lia].
    rewrite Zlt_Qlt. lra.
  - lia.
  - apply Qgt_alt in Hc.
    assert (Qfloor x < z); [| lia].
    rewrite Zlt_Qlt. lra.
Qed.

Lemma round_half_even_ge (x : Q) (z : Z) :
  (inject_Z z <= x)%Q -> z <= round_half_even x.
Proof.
  intros Hx. unfold round_half_even.
  pose proof (Qlt_floor x) as Hf.
  assert (Hfz : z <= Qfloor x).
  { assert (z < Qfloor x + 1); [| lia]. rewrite Zlt_Qlt. lra. }
  destruct (x - inject_Z (Qfloor x) ?= 1 # 2)%Q; [destruct (Z.even _) | |]; lia.
Qed.

Lemma ilog2_small (q : Q) :
  (0 < q)%Q -> (q < inject_Z (2 ^ 53))%Q -> ilog2 q <= 52.
Proof.
  destruct q as [n d]. unfold Qlt, ilog2. cbn [Qnum Qden inject_Z].
  intros Hn Hq.
  assert (Hn' : 0 < n) by lia.
  assert (Hq' : n < 2 ^ 53 * Z.pos d) by lia.
  clear Hn Hq.
  assert (Hk : Z.log2 n - Z.log2 (Z.pos d) <= 53).
  { assert (Z.log2 n <= Z.log2 (Z.pos d * 2 ^ 53)) by (apply Z.log2_le_mono; lia).
    rewrite Z.log2_mul_pow2 in H by lia. lia. }
  set (k := Z.log2 n - Z.log2 (Z.pos d)) in *.
  destruct (0 <=? k) eqn:Hk0.
  - destruct (Z.pos d * 2 ^ k <=? n) eqn:Hb; [| lia].
    apply Z.leb_le in Hb, Hk0.
    destruct (Z_le_gt_dec k 52) as [|Hgt]; [lia|].
    assert (2 ^ 53 <= 2 ^ k) by (apply Z.pow_le_mono_r; lia).
    nia.
  - apply Z.leb_gt in Hk0. destruct (_ <=? _); lia.
Qed.

Lemma pow2_nonpos (e : Z) : e <= 0 -> (pow2 e == / inject_Z (2 ^ (- e)))%Q.
Proof.
  intros He. unfold pow2. destruct (0 <=? e) eqn:H0; [| reflexivity].
  apply Z.leb_le in H0. assert (e = 0) by lia. subst. reflexivity.
Qed.

Lemma inject_Z_nonneg (z : Z) : 0 <= z -> (0 <= inject_Z z)%Q.
Proof. intros Hz. unfold Qle. simpl. lia. Qed.

Lemma inject_Z_pos (z : Z) : 0 < z -> (0 < inject_Z z)%Q.
Proof. intros Hz. unfold Qlt. simpl. lia. Qed.

(** A value between two integers below [2^53] stays between them when it is
    rounded to binary64. *)
Lemma fl64_between (q : Q) (lo hi : Z) :
  0 <= lo -> hi < 2 ^ 53 ->
  (inject_Z lo <= q)%Q -> (q <= inject_Z hi)%Q ->
  (inject_Z lo <= fl64 q)%Q /\ (fl64 q <= inject_Z hi)%Q.
Proof.
  intros Hlo Hhi Hq1 Hq2.
  assert (H0lo : (0 <= inject_Z lo)%Q) by (apply inject_Z_nonneg; exact Hlo).
  unfold fl64. destruct (q ?= 0)%Q eqn:Hc.
  - apply Qeq_alt in Hc. split; lra.
  - apply Qlt_alt in Hc. lra.
  - apply Qgt_alt in Hc. unfold fl64_pos.
    assert (Hex : Z.max (ilog2 q - 52) (-1074) <= 0).
    { assert (ilog2 q <= 52); [| lia].
      apply ilog2_small; [lra|].
      assert (inject_Z hi < inject_Z (2 ^ 53))%Q by (rewrite <- Zlt_Qlt; exact Hhi).
      lra. }
    set (ex := Z.max _ _) in *.
    rewrite (pow2_nonpos ex Hex).
    unfold pow2. replace (0 <=? - ex) with true by (symmetry; apply Z.leb_le; lia).
    set (K := 2 ^ (- ex)).
    assert (HK : 0 < K) by (apply Z.pow_pos_nonneg; lia).
    assert (HKq : (0 < inject_Z K)%Q) by (apply inject_Z_pos; exact HK).
    assert (H1 : lo * K <= round_half_even (q * inject_Z K)).
    { apply round_half_even_ge. rewrite inject_Z_mult. nra. }
    assert (H2 : round_half_even (q * inject_Z K) <= hi * K).
    { apply round_half_even_le. rewrite inject_Z_mult. nra. }
    set (r := round_half_even _) in *.
    rewrite Zle_Qle, inject_Z_mult in H1, H2.
    split.
    + apply Qle_shift_div_l; assumption.
    + apply Qle_shift_div_r; assumption.
Qed.

Lemma to_double_between (q : Q) (lo hi : Z) :
  0 <= lo -> hi < 2 ^ 53 ->
  (inject_Z lo <= q)%Q -> (q <= inject_Z hi)%Q ->
  exists r, to_double q = Ok r /\ (inject_Z lo <= r)%Q /\ (r <= inject_Z hi)%Q.
Proof.
  intros Hlo Hhi Hq1 Hq2.
  destruct (fl64_between q lo hi Hlo Hhi Hq1 Hq2) as [H1 H2].
  exists (fl64 q). split; [| split; assumption].
  unfold to_double.
  destruct (Qle_bool _ _) eqn:Hb; [| reflexivity].
  apply Qle_bool_iff in Hb.
  assert (H0 : (0 <= fl64 q)%Q).
  { pose proof (inject_Z_nonneg lo Hlo). lra. }
  rewrite Qabs_pos in Hb by exact H0.
  assert (inject_Z hi < inject_Z (2 ^ 1024))%Q.
  { rewrite <- Zlt_Qlt. assert (2 ^ 53 < 2 ^ 1024) by (apply Z.pow_lt_mono_r; lia). lia. }
  lra.
Qed.

(** ** The rounding is that of binary64 *)

Lemma pow2_Qpower (e : Z) : (pow2 e == 2 ^ e)%Q.
Proof.
  unfold pow2. destruct (0 <=? e) eqn:He.
  - apply Z.leb_le in He. apply (Zpower_Qpower 2 e He).
  - apply Z.leb_gt in He.
    rewrite (Zpower_Qpower 2 (- e)) by lia.
    rewrite <- Qpower_opp. rewrite Z.opp_involutive. reflexivity.
Qed.

Lemma pow2_pos (e : Z) : (0 < pow2 e)%Q.
Proof. rewrite pow2_Qpower. apply Qpower_0_lt. reflexivity. Qed.

Lemma pow2_add (a b : Z) : (pow2 (a + b) == pow2 a * pow2 b)%Q.
Proof. rewrite !pow2_Qpower. apply Qpower_plus. discriminate. Qed.

Lemma pow2_le (a b : Z) : a <= b -> (pow2 a <= pow2 b)%Q.
Proof.
  intros H. rewrite !pow2_Qpower. apply Qpower_le_compat_l; [exact H | discriminate].
Qed.

Lemma pow2_cancel (e : Z) : (pow2 (- e) * pow2 e == 1)%Q.
Proof. rewrite <- pow2_add. replace (- e + e) with 0 by lia. reflexivity. Qed.

(** A fraction against a power of two, by cross multiplication. *)
Lemma pow2_le_frac (k n : Z) (d : positive) :
  (if 0 <=? k then Z.pos d * 2 ^ k <= n else Z.pos d <= n * 2 ^ (- k)) ->
  (pow2 k <= n # d)%Q.
Proof.
  unfold pow2. destruct (0 <=? k) eqn:Hk; intros H.
  - unfold Qle. simpl. lia.
  - apply Z.leb_gt in Hk.
    assert (Hp : 0 < 2 ^ (- k)) by (apply Z.pow_pos_nonneg; lia).
    apply Qle_shift_inv_r; [apply inject_Z_pos; exact Hp|].
    unfold Qle. simpl. lia.
Qed.

Lemma frac_lt_pow2 (k n : Z) (d : positive) :
  (if 0 <=? k then n < Z.pos d * 2 ^ k else n * 2 ^ (- k) < Z.pos d) ->
  (n # d < pow2 k)%Q.
Proof.
  unfold pow2. destruct (0 <=? k) eqn:Hk; intros H.
  - unfold Qlt. simpl. lia.
  - apply Z.leb_gt in Hk.
    assert (Hp : 0 < 2 ^ (- k)) by (apply Z.pow_pos_nonneg; lia).
    apply Qlt_shift_inv_l; [apply inject_Z_pos; exact Hp|].
    unfold Qlt. simpl. lia.
Qed.

Lemma ilog2_spec (q : Q) :
  (0 < q)%Q -> (pow2 (ilog2 q) <= q)%Q /\ (q < pow2 (ilog2 q + 1))%Q.
Proof.
  destruct q as [n d]. intros Hq.
  assert (Hn : 0 < n) by (unfold Qlt in Hq; simpl in Hq; lia).
  unfold ilog2. cbn [Qnum Qden].
  destruct (Z.log2_spec n Hn) as [Ha1 Ha2].
  destruct (Z.log2_spec (Z.pos d) (Pos2Z.is_pos d)) as [Hb1 Hb2].
  pose proof (Z.log2_nonneg n) as Ha0.
  pose proof (Z.log2_nonneg (Z.pos d)) as Hb0.
  set (a := Z.log2 n) in *. set (b := Z.log2 (Z.pos d)) in *.
  assert (Hpos : forall x, 0 <= x -> 0 < 2 ^ x)
    by (intros; apply Z.pow_pos_nonneg; lia).
  destruct (if 0 <=? a - b then Z.pos d * 2 ^ (a - b) <=? n
            else Z.pos d <=? n * 2 ^ (- (a - b))) eqn:Hbelow.
  - split.
    + apply pow2_le_frac. destruct (0 <=? a - b); apply Z.leb_le; exact Hbelow.
    + apply frac_lt_pow2. destruct (0 <=? a - b + 1) eqn:Hk.
      * apply Z.leb_le in Hk.
        assert (E : 2 ^ Z.succ a = 2 ^ b * 2 ^ (a - b + 1))
          by (rewrite <- Z.pow_add_r by lia; f_equal; lia).
        pose proof (Hpos (a - b + 1) Hk). nia.
      * apply Z.leb_gt in Hk.
        assert (E : 2 ^ b = 2 ^ Z.succ a * 2 ^ (- (a - b + 1)))
          by (rewrite <- Z.pow_add_r by lia; f_equal; lia).
        pose proof (Hpos (- (a - b + 1)) ltac:(lia)). nia.
  - split.
    + apply pow2_le_frac. destruct (0 <=? a - b - 1) eqn:Hk.
      * apply Z.leb_le in Hk.
        assert (E : 2 ^ a = 2 ^ Z.succ b * 2 ^ (a - b - 1))
          by (rewrite <- Z.pow_add_r by lia; f_equal; lia).
        pose proof (Hpos (a - b - 1) Hk). nia.
      * apply Z.leb_gt in Hk.
        assert (E : 2 ^ Z.succ b = 2 ^ a * 2 ^ (- (a - b - 1)))
          by (rewrite <- Z.pow_add_r by lia; f_equal; lia).
        pose proof (Hpos (- (a - b - 1)) ltac:(lia)). nia.
    + replace (a - b - 1 + 1) with (a - b) by lia.
      apply frac_lt_pow2. destruct (0 <=? a - b); apply Z.leb_gt in Hbelow; exact Hbelow.
Qed.

Lemma round_half_even_near (x : Q) :
  (Qabs (inject_Z (round_half_even x) - x) <= 1 # 2)%Q.
Proof.
  unfold round_half_even.
  pose proof (Qfloor_le x) as H1. pose proof (Qlt_floor x) as H2.
  rewrite inject_Z_plus in H2. change (inject_Z 1) with 1%Q in H2.
  apply Qabs_Qle_condition.
  destruct (x - inject_Z (Qfloor x) ?= 1 # 2)%Q eqn:Hc.
  - apply Qeq_alt in Hc.
    destruct (Z.even (Qfloor x)); [| rewrite inject_Z_plus; change (inject_Z 1) with 1%Q];
      split; lra.
  - apply Qlt_alt in Hc. split; lra.
  - apply Qgt_alt in Hc. rewrite inject_Z_plus. change (inject_Z 1) with 1%Q. split; lra.
Qed.

(** [fl64 q], for a positive [q], is a significand of at most 53 bits times
    a power of two that is at least [2^-1074]; the significand has its 53
    bits unless the exponent is the least one; the result is within half a
    unit in the last place of [q]. *)
Lemma fl64_is_nearest (q : Q) :
  (0 < q)%Q ->
  let ex := Z.max (ilog2 q - 52) (-1074) in
  exists m : Z,
    fl64 q = (inject_Z m * pow2 ex)%Q
    /\ 0 <= m <= 2 ^ 53
    /\ (-1074 < ex -> 2 ^ 52 <= m)
    /\ (Qabs (fl64 q - q) <= (1 # 2) * pow2 ex)%Q.
Proof.
  intros Hq ex.
  destruct (ilog2_spec q Hq) as [Hlo Hhi].
  pose proof (pow2_pos ex) as Hex. pose proof (pow2_pos (- ex)) as Hnex.
  pose proof (pow2_cancel ex) as Hcancel.
  set (x := (q * pow2 (- ex))%Q).
  exists (round_half_even x).
  split.
  { unfold fl64. destruct (q ?= 0)%Q eqn:Hc.
    - apply Qeq_alt in Hc. lra.
    - apply Qlt_alt in Hc. lra.
    - reflexivity. }
  assert (Hx0 : (0 <= x)%Q) by (unfold x; nra).
  assert (Hx53 : (x <= inject_Z (2 ^ 53))%Q).
  { assert (H : (q < pow2 (53 + ex))%Q).
    { eapply Qlt_le_trans; [exact Hhi|]. apply pow2_le. unfold ex. lia. }
    rewrite pow2_add in H. change (pow2 53) with (inject_Z (2 ^ 53)) in H.
    unfold x. set (P := inject_Z (2 ^ 53)) in *.
    assert (HP : (0 < P)%Q) by (apply inject_Z_pos; lia).
    nra. }
  split; [split; [apply round_half_even_ge, Hx0 | apply round_half_even_le, Hx53]|].
  split.
  { intros Hnorm. apply round_half_even_ge.
    assert (Hexeq : ilog2 q = 52 + ex) by (unfold ex in *; lia).
    rewrite Hexeq, pow2_add in Hlo. change (pow2 52) with (inject_Z (2 ^ 52)) in Hlo.
    unfold x. set (P := inject_Z (2 ^ 52)) in *.
    assert (HP : (0 < P)%Q) by (apply inject_Z_pos; lia).
    nra. }
  pose proof (round_half_even_near x) as Hnear.
  apply Qabs_Qle_condition in Hnear. apply Qabs_Qle_condition.
  unfold fl64. destruct (q ?= 0)%Q eqn:Hc.
  - apply Qeq_alt in Hc. lra.
  - apply Qlt_alt in Hc. lra.
  - unfold fl64_pos. fold ex. fold x.
    assert (Hqx : (q == x * pow2 ex)%Q).
    { unfold x. rewrite <- Qmult_assoc, Hcancel. ring. }
    set (r := inject_Z (round_half_even x)) in *.
    set (E := pow2 ex) in *.
    split; nra.
Qed.

(** The rounding agrees with binary64 on familiar values: 0.1 and 1/3, the
    first integer that has no double, the largest double, the ties of
    [round]. *)
Example fl64_values :
  Qeq_bool (fl64 (1 # 10)) (3602879701896397 # 36028797018963968) = true
  /\ Qeq_bool (fl64 (1 # 3)) (6004799503160661 # 18014398509481984) = true
  /\ Qeq_bool (fl64 (inject_Z (2 ^ 53 + 1))) (inject_Z (2 ^ 53)) = true
  /\ Qeq_bool (fl64 (inject_Z (2 ^ 53 + 3))) (inject_Z (2 ^ 53 + 4)) = true
  /\ to_double (inject_Z (2 ^ 1024 - 2 ^ 970)) = Raise OverflowError
  /\ (exists r, to_double (inject_Z (2 ^ 1024 - 2 ^ 970 - 1)) = Ok r
               /\ Qeq_bool r (inject_Z (2 ^ 1024 - 2 ^ 971)) = true)
  /\ List.map round_half_even [1 # 2; 3 # 2; 5 # 2; - (1 # 2); 127 # 2; 381 # 2]%Q
     = [0; 2; 2; 0; 64; 190].
Proof.
  repeat split; try (vm_compute; reflexivity).
  eexists. split; vm_compute; reflexivity.
Qed.

(** ** Interval reasoning on the arithmetic operators *)

Lemma to_float_between (n : num) (lo hi : Z) :
  0 <= lo -> hi < 2 ^ 53 -> num_in lo hi n ->
  exists r, to_float n = Ok r /\ (inject_Z lo <= r)%Q /\ (r <= inject_Z hi)%Q.
Proof.
  intros Hlo Hhi [H1 H2]. destruct n as [z|q]; simpl in *.
  - apply to_double_between; assumption.
  - exists q. auto.
Qed.

Lemma to_float_const (k : Z) (b : num) :
  0 <= k < 2 ^ 53 -> is_const k b ->
  exists r, to_float b = Ok r /\ (r == inject_Z k)%Q.
Proof.
  intros Hk Hb.
  destruct (to_float_between b k k) as (r & Hr & H1 & H2); try lia.
  { destruct Hb as [-> | ->]; split; simpl; lra. }
  exists r. split; [exact Hr | lra].
Qed.

Lemma is_const_nonzero (k : Z) (b : num) :
  0 < k -> is_const k b -> num_is_zero b = false.
Proof.
  intros Hk [-> | ->]; simpl.
  - apply Z.eqb_neq. lia.
  - destruct (Qeq_bool _ _) eqn:E; [| reflexivity].
    apply Qeq_bool_iff in E. pose proof (inject_Z_pos k Hk). lra.
Qed.

Lemma py_mul_between (a b : num) (lo hi k : Z) :
  0 <= lo -> 0 < k -> k < 2 ^ 53 -> hi < 2 ^ 53 -> hi * k < 2 ^ 53 ->
  num_in lo hi a -> is_const k b ->
  exists c, py_mul a b = Ok c /\ num_in (lo * k) (hi * k) c.
Proof.
  intros Hlo Hk Hk' Hhi Hhik Ha Hb.
  pose proof (inject_Z_pos k Hk) as Hkq.
  destruct (to_float_between a lo hi Hlo Hhi Ha) as (x & Hx & Hx1 & Hx2).
  destruct (to_float_const k b) as (y & Hy & Hyk); [lia | exact Hb |].
  assert (Hprod : (inject_Z (lo * k) <= x * y)%Q /\ (x * y <= inject_Z (hi * k))%Q).
  { rewrite Hyk, !inject_Z_mult. split; nra. }
  destruct (to_double_between (x * y) (lo * k) (hi * k)) as (r & Hr & Hr1 & Hr2);
    try tauto; try nia.
  assert (Hgen : (x' ← to_float a; y' ← to_float b;
                  r' ← to_double (x' * y'); Ok (NFloat r')) = Ok (NFloat r)).
  { rewrite Hx. simpl. rewrite Hy. simpl. rewrite Hr. reflexivity. }
  destruct a as [z|q]; destruct Hb as [-> | ->];
    try (exists (NFloat r); split; [exact Hgen | split; simpl; assumption]).
  exists (NInt (z * k)). split; [reflexivity|].
  destruct Ha as [Ha1 Ha2]. simpl in Ha1, Ha2.
  split; simpl; rewrite !inject_Z_mult; nra.
Qed.

Lemma py_truediv_between (a b : num) (lo hi lo' hi' k : Z) :
  0 <= lo' -> 0 < k -> k < 2 ^ 53 -> hi < 2 ^ 53 -> hi' < 2 ^ 53 ->
  lo' * k <= lo -> hi <= hi' * k ->
  num_in lo hi a -> is_const k b ->
  exists q, py_truediv a b = Ok (NFloat q) /\ num_in lo' hi' (NFloat q).
Proof.
  intros Hlo' Hk Hk' Hhi Hhi' Hl Hh Ha Hb.
  pose proof (inject_Z_pos k Hk) as Hkq.
  assert (Hlo : 0 <= lo) by nia.
  assert (Hlq : (inject_Z lo' * inject_Z k <= inject_Z lo)%Q)
    by (rewrite <- inject_Z_mult, <- Zle_Qle; exact Hl).
  assert (Hhq : (inject_Z hi <= inject_Z hi' * inject_Z k)%Q)
    by (rewrite <- inject_Z_mult, <- Zle_Qle; exact Hh).
  assert (Hdiv : forall x y : Q, (inject_Z lo <= x)%Q -> (x <= inject_Z hi)%Q ->
            (y == inject_Z k)%Q ->
            exists r, to_double (x / y) = Ok r /\
                      (inject_Z lo' <= r)%Q /\ (r <= inject_Z hi')%Q).
  { intros x y Hx1 Hx2 Hyk.
    apply to_double_between; try assumption; rewrite Hyk.
    - apply Qle_shift_div_l; [exact Hkq | lra].
    - apply Qle_shift_div_r; [exact Hkq | lra]. }
  unfold py_truediv. rewrite (is_const_nonzero k b Hk Hb).
  destruct (to_float_between a lo hi Hlo Hhi Ha) as (x & Hx & Hx1 & Hx2).
  destruct (to_float_const k b) as (y & Hy & Hyk); [lia | exact Hb |].
  destruct (Hdiv x y Hx1 Hx2 Hyk) as (r & Hr & Hr1 & Hr2).
  assert (Hgen : (x' ← to_float a; y' ← to_float b;
                  r' ← to_double (x' / y'); Ok (NFloat r')) = Ok (NFloat r)).
  { rewrite Hx. simpl. rewrite Hy. simpl. rewrite Hr. reflexivity. }
  destruct a as [z|q]; destruct Hb as [-> | ->];
    try (exists r; split; [exact Hgen | split; simpl; assumption]).
  destruct Ha as [Ha1 Ha2]. simpl in Ha1, Ha2.
  destruct (Hdiv (inject_Z z) (inject_Z k) Ha1 Ha2 (Qeq_refl _)) as (r0 & Hr0 & H1 & H2).
  exists r0. rewrite Hr0. split; [reflexivity | split; simpl; assumption].
Qed.

Lemma py_round_between (n : num) (lo hi : Z) :
  num_in lo hi n -> lo <= py_round n <= hi.
Proof.
  intros [H1 H2]. destruct n as [z|q]; simpl in *.
  - rewrite !Zle_Qle. split; assumption.
  - split; [apply round_half_even_ge | apply round_half_even_le]; assumption.
Qed.

(** [fmod x y] for a positive [y]: the remainder has the sign of [x] and is
    smaller than [y] in absolute value. *)
Lemma fmod_range (x y : Q) :
  (0 < y)%Q ->
  ((0 <= x)%Q -> (0 <= fmod x y)%Q /\ (fmod x y < y)%Q) /\
  ((x <= 0)%Q -> (- y < fmod x y)%Q /\ (fmod x y <= 0)%Q).
Proof.
  intros Hy. unfold fmod.
  set (w := (x / y)%Q).
  assert (Hx : (x == w * y)%Q) by (unfold w; field; lra).
  assert (Hfl : forall v : Q, (0 <= v)%Q ->
            Z.quot (Qnum v) (Z.pos (Qden v)) = Qfloor v).
  { intros [n d] Hv. unfold Qle in Hv. simpl in *.
    apply Z.quot_div_nonneg; lia. }
  split; intros Hx0.
  - assert (Hw : (0 <= w)%Q).
    { unfold w. apply Qle_shift_div_l; [exact Hy | lra]. }
    rewrite (Hfl w Hw).
    pose proof (Qfloor_le w). pose proof (Qlt_floor w).
    rewrite inject_Z_plus in H0. change (inject_Z 1) with 1%Q in H0.
    split; nra.
  - assert (Hw : (0 <= - w)%Q).
    { assert (w <= 0)%Q; [| lra].
      unfold w. apply Qle_shift_div_r; [exact Hy | lra]. }
    assert (Hq : Z.quot (Qnum w) (Z.pos (Qden w)) = - Qfloor (- w)).
    { rewrite <- (Hfl (- w)%Q Hw). destruct w as [n d]. simpl.
      rewrite Z.quot_opp_l by lia. lia. }
    rewrite Hq, inject_Z_opp.
    pose proof (Qfloor_le (- w)). pose proof (Qlt_floor (- w)).
    rewrite inject_Z_plus in H0. change (inject_Z 1) with 1%Q in H0.
    split; nra.
Qed.

Lemma py_mod_between (a : num) (k : Z) :
  0 < k < 2 ^ 53 ->
  exists m, py_mod a (NInt k) = Ok m /\ num_in 0 k m.
Proof.
  intros Hk.
  pose proof (inject_Z_pos k (proj1 Hk)) as Hkq.
  assert (Hb : is_const k (NInt k)) by (left; reflexivity).
  unfold py_mod. rewrite (is_const_nonzero k _ (proj1 Hk) Hb).
  unfold num_in. change (inject_Z 0) with 0%Q.
  destruct a as [z|x].
  - exists (NInt (z mod k)). split; [reflexivity|].
    pose proof (Z.mod_pos_bound z k (proj1 Hk)).
    split; simpl; [apply inject_Z_nonneg | rewrite <- Zle_Qle]; lia.
  - simpl.
    destruct (to_float_const k _ ltac:(lia) Hb) as (y & Hy & Hyk).
    simpl in Hy. rewrite Hy. simpl.
    assert (Hy0 : (0 < y)%Q) by lra.
    destruct (fmod_range x y Hy0) as [Hpos Hneg].
    destruct (Qeq_bool (fmod x y) 0) eqn:Hz.
    { exists (NFloat 0). split; [reflexivity | split; simpl; lra]. }
    assert (Hny : Qneg_b y = false).
    { unfold Qneg_b. apply negb_false_iff, Qle_bool_iff. lra. }
    rewrite Hny.
    destruct (Qneg_b (fmod x y)) eqn:Hnm; simpl.
    + unfold Qneg_b in Hnm. apply negb_true_iff in Hnm.
      assert (Hm : (fmod x y < 0)%Q).
      { apply Qnot_le_lt. intros Hle. apply Qle_bool_iff in Hle. congruence. }
      assert (Hxneg : (x <= 0)%Q).
      { apply Qnot_lt_le. intros Hlt. apply Qlt_le_weak in Hlt.
        destruct (Hpos Hlt). lra. }
      destruct (Hneg Hxneg) as [Hm1 Hm2].
      destruct (to_double_between (fmod x y + y) 0 k) as (r & Hr & Hr1 & Hr2);
        try lia; try (change (inject_Z 0) with 0%Q; lra).
      rewrite Hr. exists (NFloat r). split; [reflexivity | split; assumption].
    + unfold Qneg_b in Hnm. apply negb_false_iff, Qle_bool_iff in Hnm.
      assert (Hxpos : (0 <= x)%Q).
      { apply Qnot_lt_le. intros Hlt. apply Qlt_le_weak in Hlt.
        destruct (Hneg Hlt) as [_ Hle].
        assert (E : (fmod x y == 0)%Q) by lra.
        apply Qeq_bool_iff in E. congruence. }
      destruct (Hpos Hxpos) as [Hm1 Hm2].
      exists (NFloat (fmod x y)). split; [reflexivity | split; simpl; lra].
Qed.

(** ** Hue and saturation stay in the native range *)

Lemma hue_to_native_range (hue_degrees : num) :
  exists h, hue_to_native hue_degrees = Ok h /\ 0 <= h <= 65535.
Proof.
  unfold hue_to_native.
  destruct (py_mod_between hue_degrees 360) as (m & Hm & Hmr); [lia|].
  rewrite Hm. simpl.
  destruct (py_mul_between m (NInt 65535) 0 360 65535) as (a & Ha & Har);
    try lia; [exact Hmr | left; reflexivity |].
  rewrite Ha. simpl.
  destruct (py_truediv_between a (NFloat 360) (0 * 65535) (360 * 65535) 0 65535 360)
    as (b & Hb & Hbr); try lia; [exact Har | right; reflexivity |].
  rewrite Hb. simpl.
  exists (round_half_even b). split; [reflexivity|].
  exact (py_round_between (NFloat b) 0 65535 Hbr).
Qed.

Lemma py_lt_true (a b : num) : py_lt a b = true -> (num_val a < num_val b)%Q.
Proof.
  unfold py_lt. intros H. apply negb_true_iff in H.
  apply Qnot_le_lt. intros Hle. apply Qle_bool_iff in Hle. congruence.
Qed.

Lemma clamp_0_100_in (s : num) :
  num_in 0 100 (py_max (NInt 0) (py_min (NInt 100) s)).
Proof.
  unfold py_max, py_min, num_in.
  change (inject_Z 0) with 0%Q. change (inject_Z 100) with 100%Q.
  destruct (py_lt s (NInt 100)) eqn:H1.
  - apply py_lt_true in H1. change (num_val (NInt 100)) with 100%Q in H1.
    destruct (py_lt (NInt 0) s) eqn:H2.
    + apply py_lt_true in H2. change (num_val (NInt 0)) with 0%Q in H2. lra.
    + cbv [num_val inject_Z]. lra.
  - change (py_lt (NInt 0) (NInt 100)) with true.
    cbv [num_val inject_Z]. lra.
Qed.

Lemma sat_to_native_range (sat_percent : num) :
  exists v, sat_to_native sat_percent = Ok v /\ 0 <= v <= 254.
Proof.
  unfold sat_to_native.
  destruct (py_mul_between _ (NInt 254) 0 100 254
              ltac:(lia) ltac:(lia) ltac:(lia) ltac:(lia) ltac:(lia)
              (clamp_0_100_in sat_percent) (or_introl eq_refl))
    as (a & Ha & Har).
  rewrite Ha. simpl.
  destruct (py_truediv_between a (NFloat 100) (0 * 254) (100 * 254) 0 254 100)
    as (b & Hb & Hbr); try lia; [exact Har | right; reflexivity |].
  rewrite Hb. simpl.
  exists (round_half_even b). split; [reflexivity|].
  exact (py_round_between (NFloat b) 0 254 Hbr).
Qed.

(** ** Brightness conversions *)

Lemma bri_to_percent_range (bri_raw : num) :
  num_in 0 254 bri_raw ->
  exists p, bri_to_percent bri_raw = Ok p /\ 0 <= p <= 100.
Proof.
  intros Hin. unfold bri_to_percent.
  destruct (py_mul_between bri_raw (NInt 100) 0 254 100) as (a & Ha & Har);
    try lia; [exact Hin | left; reflexivity |].
  rewrite Ha. simpl.
  destruct (py_truediv_between a (NInt 254) (0 * 100) (254 * 100) 0 100 254)
    as (b & Hb & Hbr); try lia; [exact Har | left; reflexivity |].
  rewrite Hb. simpl.
  exists (round_half_even b). split; [reflexivity|].
  exact (py_round_between (NFloat b) 0 100 Hbr).
Qed.

Lemma clamp_percent_range (percent : num) : 0 <= clamp_percent percent <= 100.
Proof. unfold clamp_percent. lia. Qed.

Lemma zrange_forall (P : Z -> bool) (lo : Z) (n : nat) :
  List.forallb P (zrange lo n) = true ->
  forall z, lo <= z < lo + Z.of_nat n -> P z = true.
Proof.
  intros H z Hz. rewrite List.forallb_forall in H. apply H.
  unfold zrange. apply List.in_map_iff. exists (Z.to_nat (z - lo)).
  split; [lia|]. apply List.in_seq. lia.
Qed.

Lemma roundtrip_ok_all : forall p, 1 <= p <= 100 -> roundtrip_ok p = true.
Proof.
  intros p Hp. apply (zrange_forall roundtrip_ok 1 100); [| lia].
  vm_compute. reflexivity.
Qed.

Lemma percent_to_bri_total (p : Z) :
  1 <= p <= 100 ->
  exists bri p', percent_to_bri p = Ok bri /\ 1 <= bri <= 254
    /\ bri_to_percent (NInt bri) = Ok p' /\ Z.abs (p' - p) <= 1.
Proof.
  intros Hp. pose proof (roundtrip_ok_all p Hp) as H. unfold roundtrip_ok in H.
  destruct (percent_to_bri p) as [b|] eqn:E1; [| discriminate].
  destruct (bri_to_percent (NInt b)) as [p'|] eqn:E2; [| discriminate].
  apply andb_prop in H. destruct H as [H H3].
  apply andb_prop in H. destruct H as [H1 H2].
  apply Z.leb_le in H1, H2, H3.
  exists b, p'. repeat split; try assumption; lia.
Qed.

(** C2. Brightness round trip.  For an integer percentage [p] from 1 to
    100, the write path ([set_brightness]: the clamp leaves [p] as it is and
    the conversion gives a native value from 1 to 254) followed by the read
    path ([list_lights_detailed]: the conversion of a numeric [bri]) gives a
    percentage within one of [p]. *)
Theorem C2_brightness_roundtrip (p : Z) :
  1 <= p <= 100 ->
  exists b p',
    clamp_percent (NInt p) = p
    /\ percent_to_bri p = Ok b /\ 1 <= b <= 254
    /\ (forall on, read_bri (JNum (NInt b)) on = Ok p')
    /\ Z.abs (p' - p) <= 1.
Proof.
  intros Hp.
  destruct (percent_to_bri_total p Hp) as (b & p' & Hb & Hbr & Hp' & Habs).
  exists b, p'.
  split; [unfold clamp_percent; simpl; lia|].
  split; [exact Hb|]. split; [exact Hbr|].
  split; [intros on; exact Hp' | exact Habs].
Qed.

Lemma C2_brightness_roundtrip_witness :
  1 <= 25 <= 100 /\
  exists b p',
    clamp_percent (NInt 25) = 25
    /\ percent_to_bri 25 = Ok b /\ 1 <= b <= 254
    /\ (forall on, read_bri (JNum (NInt b)) on = Ok p')
    /\ Z.abs (p' - 25) <= 1.
Proof. split; [lia | apply (C2_brightness_roundtrip 25); lia]. Defined.

(** ** Text *)

Lemma append_nil (s : string) : EmptyString +:+ s = s.
Proof. reflexivity. Qed.

Lemma append_cons (c : ascii) (a s : string) :
  String c a +:+ s = String c (a +:+ s).
Proof. reflexivity. Qed.

Lemma prefix_app (x s : string) : String.prefix x (x +:+ s) = true.
Proof.
  induction x as [|c x IH].
  - rewrite append_nil. destruct s; reflexivity.
  - rewrite append_cons. simpl.
    destruct (ascii_dec c c) as [_|Hn]; [exact IH | congruence].
Qed.

Lemma is_infix_unfold (x s : string) :
  is_infix x s =
  String.prefix x s || match s with
                       | EmptyString => false
                       | String _ s' => is_infix x s'
                       end.
Proof. destruct s; reflexivity. Qed.

Lemma is_infix_here (x s : string) : is_infix x (x +:+ s) = true.
Proof. rewrite is_infix_unfold, prefix_app. reflexivity. Qed.

Lemma mentions_here (x s : string) : mentions (x +:+ s) x.
Proof. apply is_infix_here. Qed.

Lemma mentions_skip (a s x : string) : mentions s x -> mentions (a +:+ s) x.
Proof.
  unfold mentions. intros H. induction a as [|c a IH].
  - rewrite append_nil. exact H.
  - rewrite append_cons. simpl. rewrite IH. apply orb_true_r.
Qed.

(** ** Python dicts *)

Lemma key_eqb_str (s t : string) : key_eqb (JStr s) (JStr t) = String.eqb s t.
Proof. reflexivity. Qed.

Lemma key_eqb_str_inv (s : string) (k : json) :
  key_eqb (JStr s) k = true -> k = JStr s.
Proof.
  destruct k; simpl; try discriminate.
  intros H. apply String.eqb_eq in H. congruence.
Qed.

Lemma pydict_get_set_same (s : string) (v : json) (d : pydict) :
  pydict_get (JStr s) (pydict_set (JStr s) v d) = Some v.
Proof.
  induction d as [|[k' v'] d IH]; cbn [pydict_get pydict_set].
  - rewrite key_eqb_str, String.eqb_refl. reflexivity.
  - destruct (key_eqb (JStr s) k') eqn:E; cbn [pydict_get]; rewrite E;
      [reflexivity | exact IH].
Qed.

Lemma pydict_get_set_other (s t : string) (v : json) (d : pydict) :
  s <> t ->
  pydict_get (JStr s) (pydict_set (JStr t) v d) = pydict_get (JStr s) d.
Proof.
  intros Hst. apply String.eqb_neq in Hst.
  induction d as [|[k' v'] d IH]; cbn [pydict_get pydict_set].
  - rewrite key_eqb_str, Hst. reflexivity.
  - destruct (key_eqb (JStr t) k') eqn:E; cbn [pydict_get].
    + apply key_eqb_str_inv in E. subst k'.
      rewrite key_eqb_str, Hst. reflexivity.
    + rewrite IH. reflexivity.
Qed.

Lemma has_key_set (k k' v : json) (d : pydict) :
  has_key k d -> has_key k (pydict_set k' v d).
Proof.
  intros [x Hx]. induction d as [|[k0 v0] d IH];
    cbn [pydict_get pydict_set] in *; [discriminate|].
  destruct (key_eqb k' k0) eqn:E; unfold has_key; cbn [pydict_get].
  - destruct (key_eqb k k0); eauto.
  - destruct (key_eqb k k0); [eauto | apply IH, Hx].
Qed.

Lemma has_key_update_from_pairs (k : json) (items : list json) (d : pydict) :
  has_key k d -> has_key k (fst (update_from_pairs items d)).
Proof.
  revert d. induction items as [|item rest IH]; intros d Hd; simpl; [exact Hd|].
  destruct (py_iter item) as [[|a [|b [|c l]]]|e]; simpl; try exact Hd.
  destruct (hashable a); simpl; [| exact Hd].
  apply IH, has_key_set, Hd.
Qed.

Lemma has_key_update (k : json) (d : pydict) (other : json) :
  has_key k d -> has_key k (fst (pydict_update d other)).
Proof.
  intros Hd. destruct other; simpl; try exact Hd.
  - destruct (list_ascii_of_string s); simpl; exact Hd.
  - apply has_key_update_from_pairs, Hd.
  - revert d0 Hd. generalize dependent d.
    intros d0 d. revert d0.
    induction d as [|[key val] d IH]; intros d0 Hd; simpl; [exact Hd|].
    apply IH, has_key_set, Hd.
Qed.

(** ** [load_config] *)

Lemma env_fallback_bridge_ip (w : world) (cfg : pydict) :
  pydict_get (JStr "bridge_ip") (env_fallback w cfg) = Some (getenv w "HUE_BRIDGE_IP").
Proof.
  unfold env_fallback.
  rewrite pydict_get_set_other by discriminate.
  apply pydict_get_set_same.
Qed.

Lemma env_fallback_username (w : world) (cfg : pydict) :
  pydict_get (JStr "username") (env_fallback w cfg) = Some (getenv w "HUE_USERNAME").
Proof. unfold env_fallback. apply pydict_get_set_same. Qed.

Lemma load_config_total (w : world) :
  exists cfg, load_config w = (Ok cfg, w)
    /\ has_key (JStr "bridge_ip") cfg /\ has_key (JStr "username") cfg.
Proof.
  unfold load_config.
  set (cfg0 := [(JStr "bridge_ip", JStr EmptyString); (JStr "username", JStr EmptyString)]).
  assert (H1 : has_key (JStr "bridge_ip") cfg0) by (eexists; reflexivity).
  assert (H2 : has_key (JStr "username") cfg0) by (eexists; reflexivity).
  destruct (load_config_try w cfg0) as [cfg' [[]|e]] eqn:Htry.
  - exists cfg'. split; [reflexivity|].
    unfold load_config_try in Htry. destruct (file w).
    + inversion Htry; subst. split; eexists;
        [apply env_fallback_bridge_ip | apply env_fallback_username].
    + discriminate.
    + replace cfg' with (fst (pydict_update cfg0 content)) by (rewrite Htry; reflexivity).
      split; apply has_key_update; assumption.
  - exists (env_fallback w cfg'). split; [reflexivity|].
    split; eexists; [apply env_fallback_bridge_ip | apply env_fallback_username].
Qed.

(** C7. [load_config] never raises: whatever the state of the configuration
    file, it returns a dict that has the keys [bridge_ip] and [username] and
    leaves the world as it was; when the file is missing or cannot be
    parsed, both values are those of the environment variables
    [HUE_BRIDGE_IP] and [HUE_USERNAME], the empty string when a variable is
    not set. *)
Theorem C7_load_config_never_raises (w : world) :
  exists cfg,
    load_config w = (Ok cfg, w)
    /\ has_key (JStr "bridge_ip") cfg
    /\ has_key (JStr "username") cfg
    /\ (file w = NoFile \/ file w = BadFile ->
        pydict_get (JStr "bridge_ip") cfg
          = Some (JStr (default EmptyString (environ w "HUE_BRIDGE_IP")))
        /\ pydict_get (JStr "username") cfg
          = Some (JStr (default EmptyString (environ w "HUE_USERNAME")))).
Proof.
  destruct (load_config_total w) as (cfg & Hcfg & Hb & Hu).
  exists cfg. repeat split; try assumption.
  - unfold load_config, load_config_try in Hcfg.
    destruct H as [Hf | Hf]; rewrite Hf in Hcfg; inversion Hcfg; subst.
    + apply env_fallback_bridge_ip.
    + apply env_fallback_bridge_ip.
  - unfold load_config, load_config_try in Hcfg.
    destruct H as [Hf | Hf]; rewrite Hf in Hcfg; inversion Hcfg; subst.
    + apply env_fallback_username.
    + apply env_fallback_username.
Qed.

(** ** The two monads *)

Lemma result_bind_ok {A B} (m : result A) (f : A -> result B) (b : B) :
  (m ≫= f) = Ok b -> exists a, m = Ok a /\ f a = Ok b.
Proof. destruct m as [a|e]; [eauto | discriminate]. Qed.

Lemma M_bind_run {A B} (m : M A) (f : A -> M B) (w : world) :
  (m ≫= f) w =
  match m w with
  | (Ok a, w') => f a w'
  | (Raise e, w') => (Raise e, w')
  end.
Proof. reflexivity. Qed.

Lemma M_bind_ok {A B} (m : M A) (f : A -> M B) (w w' : world) (b : B) :
  (m ≫= f) w = (Ok b, w') ->
  exists a w1, m w = (Ok a, w1) /\ f a w1 = (Ok b, w').
Proof.
  rewrite M_bind_run. destruct (m w) as [[a|e] w1]; [eauto | discriminate].
Qed.

(** Inverting a successful run of binds, one step at a time. *)
Ltac inv_result H :=
  let a := fresh "x" in
  let H1 := fresh "Hx" in
  apply result_bind_ok in H; destruct H as (a & H1 & H).

Lemma http_run (m : method) (url : string) (body : option json) (w : world) :
  let rq := Request m url body in
  http m url body w =
    (match bridge w (sent w) rq with
     | Some j => Ok j
     | None => Raise TransportError
     end,
     World (file w) (disk w) (environ w) (bridge w) (sent w ++ [rq])).
Proof. unfold http. simpl. destruct (bridge w (sent w) _); reflexivity. Qed.

Section ClientProps.

Variable py_repr : json -> string.

Lemma api_url_total (parts : list json) (w : world) :
  exists url, _api_url py_repr parts w = (Ok url, w).
Proof.
  destruct (load_config_total w) as (cfg & Hcfg & [b Hb] & [u Hu]).
  unfold _api_url. rewrite M_bind_run, Hcfg.
  rewrite Hb, Hu. eexists. reflexivity.
Qed.

(** The shape shared by the six writes: build the URL, [PUT] the body,
    pass the answer through [_raise_if_error]. *)
Lemma put_run (parts : list json) (body : json) (w : world) (url : string) :
  _api_url py_repr parts w = (Ok url, w) ->
  (u ← _api_url py_repr parts; data ← http PUT u (Some body); lift (_raise_if_error py_repr data)) w
  = (match bridge w (sent w) (Request PUT url (Some body)) with
     | Some j => _raise_if_error py_repr j
     | None => Raise TransportError
     end,
     World (file w) (disk w) (environ w) (bridge w)
           (sent w ++ [Request PUT url (Some body)])).
Proof.
  intros Hurl. rewrite M_bind_run, Hurl, M_bind_run, http_run.
  destruct (bridge w (sent w) _); reflexivity.
Qed.

(** *** [_raise_if_error] *)

Lemma raise_hue_error_object {A} (o : list (string * json)) :
  raise_hue_error py_repr (JDict o) =
  @Raise A (RuntimeError (hue_error_message py_repr
                            (field o "type") (field o "description") (field o "address"))).
Proof. reflexivity. Qed.

Lemma raise_hue_error_raises {A} (err : json) :
  exists e, raise_hue_error py_repr err = @Raise A e.
Proof. destruct err; eexists; reflexivity. Qed.

Lemma raise_if_error_in_first (items : list json) :
  raise_if_error_in py_repr items =
  match first_error items with
  | Some err => raise_hue_error py_repr err
  | None => Ok ()
  end.
Proof.
  induction items as [|item rest IH]; [reflexivity|].
  destruct item; simpl; try exact IH.
  destruct (dict_lookup "error" d); [reflexivity | exact IH].
Qed.

Lemma raise_if_error_vendor (payload : json) :
  _raise_if_error py_repr payload =
  match vendor_error payload with
  | Some err => raise_hue_error py_repr err
  | None => Ok payload
  end.
Proof.
  destruct payload; try reflexivity.
  simpl. rewrite raise_if_error_in_first.
  destruct (first_error l) as [err|]; [| reflexivity].
  destruct err; reflexivity.
Qed.

Lemma first_error_in (items : list json) (d : list (string * json)) (err : json) :
  In (JDict d) items -> dict_lookup "error" d = Some err ->
  exists err', first_error items = Some err'.
Proof.
  intros Hin Herr. induction items as [|item rest IH]; [destruct Hin|].
  simpl. destruct (error_of item) eqn:E; [eauto|].
  destruct Hin as [-> | Hin]; [simpl in E; congruence | auto].
Qed.

Lemma has_error_vendor (payload : json) :
  has_error payload <-> exists err, vendor_error payload = Some err.
Proof.
  split.
  - intros [(items & d & err & -> & Hin & Herr) | (d & err & -> & Herr)]; simpl.
    + eapply first_error_in; eassumption.
    + eauto.
  - intros [err Herr]. destruct payload; simpl in Herr; try discriminate.
    + left. induction l as [|item rest IH]; [discriminate|].
      simpl in Herr. destruct (error_of item) as [e0|] eqn:E.
      * destruct item; simpl in E; try discriminate.
        exists (JDict d :: rest), d, e0. repeat split; [left; reflexivity | exact E].
      * destruct (IH Herr) as (items & d & e1 & Heq & Hin & He1).
        inversion Heq; subst items.
        exists (item :: rest), d, e1. repeat split; [right; exact Hin | exact He1].
    + right. eauto.
Qed.

Lemma message_mentions (ty description address : json) :
  let msg := hue_error_message py_repr ty description address in
  mentions msg (py_str py_repr ty)
  /\ mentions msg (py_str py_repr description)
  /\ mentions msg (py_str py_repr address).
Proof.
  unfold hue_error_message. repeat split;
    repeat first [apply mentions_here | apply mentions_skip].
Qed.

Lemma raise_hue_error_not_object {A} (err : json) :
  (forall o, err <> JDict o) -> raise_hue_error py_repr err = @Raise A AttributeError.
Proof. intros H. destruct err; try reflexivity. destruct (H d eq_refl). Qed.

(** C5. Error-envelope extraction.  When the payload carries a vendor
    error (it is a list that contains an object with an [error] key, or an
    object with an [error] key), [_raise_if_error] raises and returns no
    data; the error raised is that of the first such item.  When the error
    is an object the exception is a [RuntimeError] whose message is
    ["Hue error <type>: <description> (<address>)"], so that it contains the
    type, the description and the address the vendor sent; an error that is
    not an object has no such fields and the exception is the
    [AttributeError] of [err.get].  A payload without a vendor error is
    returned unchanged. *)
Theorem C5_raise_if_error_envelope (payload : json) :
  (has_error payload ->
   exists err e,
     vendor_error payload = Some err
     /\ _raise_if_error py_repr payload = Raise e
     /\ (forall o, err = JDict o ->
         exists msg,
           e = RuntimeError msg
           /\ msg = hue_error_message py_repr
                      (field o "type") (field o "description") (field o "address")
           /\ forall key v,
                In key ["type"; "description"; "address"]%string ->
                dict_lookup key o = Some v ->
                mentions msg (py_str py_repr v))
     /\ ((forall o, err <> JDict o) -> e = AttributeError))
  /\ (~ has_error payload -> _raise_if_error py_repr payload = Ok payload).
Proof.
  rewrite raise_if_error_vendor. split.
  - intros Herr. apply has_error_vendor in Herr. destruct Herr as [err Herr].
    rewrite Herr.
    destruct (raise_hue_error_raises (A := json) err) as [e He].
    exists err, e. split; [reflexivity|]. split; [exact He|]. split.
    + intros o ->. rewrite raise_hue_error_object in He. inversion He; subst e.
      eexists. split; [reflexivity|]. split; [reflexivity|].
      intros key v Hkey Hv.
      destruct (message_mentions (field o "type") (field o "description")
                  (field o "address")) as (Ht & Hd & Ha).
      unfold field in Ht, Hd, Ha |- *.
      destruct Hkey as [<- | [<- | [<- | []]]]; rewrite Hv in *; assumption.
    + intros Hno. rewrite (raise_hue_error_not_object err Hno) in He. congruence.
  - intros Hno. destruct (vendor_error payload) as [err|] eqn:E; [| reflexivity].
    exfalso. apply Hno, has_error_vendor. eauto.
Qed.

(** *** The reads, as functions of the payload *)

Lemma get_run {A} (parts : list json) (f : json -> result A) (w : world) (url : string) :
  _api_url py_repr parts w = (Ok url, w) ->
  (u ← _api_url py_repr parts; data ← http GET u None; lift (f data)) w
  = (match bridge w (sent w) (Request GET url None) with
     | Some data => f data
     | None => Raise TransportError
     end,
     World (file w) (disk w) (environ w) (bridge w)
           (sent w ++ [Request GET url None])).
Proof.
  intros Hurl. rewrite M_bind_run, Hurl, M_bind_run, http_run.
  destruct (bridge w (sent w) _); reflexivity.
Qed.

Lemma list_rooms_detailed_run (w : world) (url : string) :
  _api_url py_repr [JStr "groups"] w = (Ok url, w) ->
  fst (list_rooms_detailed py_repr w)
  = match bridge w (sent w) (Request GET url None) with
    | Some groups => rooms_of_payload py_repr groups
    | None => Raise TransportError
    end.
Proof.
  intros Hurl. unfold list_rooms_detailed. rewrite (get_run _ _ w url Hurl). reflexivity.
Qed.

Lemma room_is_on_run (group_id : Z) (w : world) (url : string) :
  _api_url py_repr [JStr "groups"; JNum (NInt group_id)] w = (Ok url, w) ->
  fst (room_is_on py_repr group_id w)
  = match bridge w (sent w) (Request GET url None) with
    | Some data => room_is_on_of_payload py_repr data
    | None => Raise TransportError
    end.
Proof.
  intros Hurl. unfold room_is_on. rewrite (get_run _ _ w url Hurl). reflexivity.
Qed.

Lemma out_set_In (k k0 : Z) (e e0 : entry) (out : outdict) :
  In (k, e) (out_set k0 e0 out) -> (k, e) = (k0, e0) \/ In (k, e) out
                                    \/ (e = e0 /\ exists e', In (k, e') out).
Proof.
  induction out as [|[k' e'] out IH]; simpl.
  - intros [H | []]. left. congruence.
  - destruct (k0 =? k') eqn:E.
    + intros [H | H].
      * injection H as <- <-. right. right. split; [reflexivity|]. eauto.
      * right. left. right. exact H.
    + intros [H | H]; [right; left; left; exact H|].
      destruct (IH H) as [H1 | [H1 | [H1 [e1 H2]]]]; eauto 6.
Qed.

Lemma out_set_last (k0 : Z) (e0 : entry) (out : outdict) :
  In (k0, e0) (out_set k0 e0 out).
Proof.
  induction out as [|[k' e'] out IH]; simpl; [left; reflexivity|].
  destruct (k0 =? k') eqn:E.
  - apply Z.eqb_eq in E. subst k'. left. reflexivity.
  - right. exact IH.
Qed.

Lemma out_set_other (k k0 : Z) (e e0 : entry) (out : outdict) :
  k <> k0 -> In (k, e) out -> In (k, e) (out_set k0 e0 out).
Proof.
  intros Hne. induction out as [|[k' e'] out IH]; simpl; [intros []|].
  destruct (k0 =? k') eqn:E.
  - apply Z.eqb_eq in E. subst k'. intros [H | H]; [congruence | right; exact H].
  - intros [H | H]; [left; exact H | right; auto].
Qed.

(** Every entry [list_rooms_detailed] returns was built by the loop body
    from a group of the payload whose type is Room. *)
Lemma rooms_loop_origin (items : list (string * json)) (out0 out : outdict)
    (k : Z) (e : entry) :
  rooms_loop items out0 = Ok out -> In (k, e) out ->
  (exists k', In (k', e) out0)
  \/ exists gid info,
       In (gid, info) items /\ is_room info = Ok true /\ room_entry gid info = Ok e.
Proof.
  revert out0. induction items as [|[gid info] rest IH]; intros out0 Hloop Hin;
    simpl in Hloop.
  - injection Hloop as <-. left. eauto.
  - inv_result Hloop. destruct x.
    + inv_result Hloop. inv_result Hloop.
      destruct (IH _ Hloop Hin) as [[k' Hk'] | (g & i & Hgi & Hroom & He)].
      * apply out_set_In in Hk'.
        destruct Hk' as [[= -> ->] | [Hold | [-> _]]].
        -- right. exists gid, info. repeat split; [left; reflexivity | assumption..].
        -- left. eauto.
        -- right. exists gid, info. repeat split; [left; reflexivity | assumption..].
      * right. exists g, i. repeat split; [right; exact Hgi | assumption..].
    + destruct (IH _ Hloop Hin) as [H | (g & i & Hgi & Hroom & He)]; [left; exact H|].
      right. exists g, i. repeat split; [right; exact Hgi | assumption..].
Qed.

Lemma rooms_of_payload_origin (groups : json) (out : outdict) (k : Z) (e : entry) :
  rooms_of_payload py_repr groups = Ok out -> In (k, e) out ->
  exists items gid info,
    groups = JDict items /\ In (gid, info) items
    /\ is_room info = Ok true /\ room_entry gid info = Ok e.
Proof.
  unfold rooms_of_payload. intros H Hin. inv_result H. inv_result H.
  destruct groups; try discriminate. injection Hx0 as <-.
  destruct (rooms_loop_origin d [] out k e H Hin) as [[k' []] | (gid & info & H1 & H2 & H3)].
  exists d, gid, info. auto.
Qed.

(** *** Rooms: the [on] state *)

Lemma room_entry_on (gid : string) (g : list (string * json)) (e : entry) :
  room_entry gid (JDict g) = Ok e -> room_on_of g = Ok (on e).
Proof.
  unfold room_entry, room_on_of. intros He. simpl in He.
  destruct (room_on _ _) as [b|]; [| discriminate]. simpl in He.
  repeat inv_result He. inversion He. reflexivity.
Qed.

Lemma room_on_any_on (g s : list (string * json)) (v : json) (b : bool) :
  dict_lookup "state" g = Some (JDict s) -> dict_lookup "any_on" s = Some v ->
  room_on_of g = Ok b -> b = py_bool v.
Proof.
  unfold room_on_of. intros -> Hany. simpl.
  destruct (py_get _ "on" _) as [act_on|]; [| discriminate].
  simpl. rewrite Hany. simpl. congruence.
Qed.

Lemma room_on_fallback (g : list (string * json)) :
  dict_lookup "state" g = None
  \/ (exists s, dict_lookup "state" g = Some (JDict s) /\ dict_lookup "any_on" s = None) ->
  action_object g ->
  room_on_of g = Ok (py_bool (action_on g))
  /\ exists s a,
       default (JDict []) (dict_lookup "state" g) = JDict s
       /\ dict_lookup "any_on" s = None
       /\ default (JDict []) (dict_lookup "action" g) = JDict a
       /\ action_on g = default (JBool false) (dict_lookup "on" a).
Proof.
  intros Hst Hact.
  assert (Hs : exists s, default (JDict []) (dict_lookup "state" g) = JDict s
                         /\ dict_lookup "any_on" s = None).
  { destruct Hst as [-> | (s & -> & Hs)]; eexists; split; simpl; eauto. }
  assert (Ha : exists a, default (JDict []) (dict_lookup "action" g) = JDict a
                         /\ action_on g = default (JBool false) (dict_lookup "on" a)).
  { unfold action_on. destruct Hact as [-> | [a ->]]; eexists; split; reflexivity. }
  destruct Hs as (s & Hsdef & Hany). destruct Ha as (a & Hadef & Hon).
  split; [| exists s, a; auto].
  unfold room_on_of. rewrite Hsdef, Hadef, Hon. simpl. rewrite Hany. reflexivity.
Qed.

Lemma rooms_loop_app (pre rest : list (string * json)) (out0 out : outdict) :
  rooms_loop (pre ++ rest) out0 = Ok out ->
  exists mid, rooms_loop pre out0 = Ok mid /\ rooms_loop rest mid = Ok out.
Proof.
  revert out0. induction pre as [|[gid info] pre IH]; intros out0 H; simpl in H.
  - exists out0. split; [reflexivity | exact H].
  - inv_result H. destruct x.
    + inv_result H. inv_result H. destruct (IH _ H) as (mid & Hpre & Hrest).
      exists mid. split; [| exact Hrest].
      simpl. rewrite Hx. simpl. rewrite Hx0. simpl. rewrite Hx1. exact Hpre.
    + destruct (IH _ H) as (mid & Hpre & Hrest).
      exists mid. split; [| exact Hrest]. simpl. rewrite Hx. exact Hpre.
Qed.

Lemma rooms_loop_keeps (items : list (string * json)) (out0 out : outdict)
    (k : Z) (e : entry) :
  rooms_loop items out0 = Ok out ->
  In (k, e) out0 ->
  (forall key info, In (key, info) items -> is_room info = Ok true ->
                    int_of_string key <> Ok k) ->
  In (k, e) out.
Proof.
  revert out0. induction items as [|[gid info] rest IH]; intros out0 H Hin Hno;
    simpl in H.
  - injection H as <-. exact Hin.
  - inv_result H. destruct x.
    + inv_result H. inv_result H. apply (IH _ H).
      * apply out_set_other; [| exact Hin].
        intros ->. exact (Hno gid info (or_introl eq_refl) Hx Hx1).
      * intros key i Hi. apply (Hno key i). right. exact Hi.
    + apply (IH _ H Hin). intros key i Hi. apply (Hno key i). right. exact Hi.
Qed.

(** From the loop body and the payload of [room_is_on] to the two calls. *)
Lemma reports_on_calls (gid : string) (g : list (string * json)) (b : bool) :
  (forall e, room_entry gid (JDict g) = Ok e -> on e = b) ->
  (dict_lookup "error" g = None -> room_is_on_of_payload py_repr (JDict g) = Ok b) ->
  reports_on py_repr gid g b.
Proof.
  intros Hentry Hpayload. split.
  - intros w url items k out w' Hurl Hb (pre & post & -> & Hty & Hk & Hlater) Hrun.
    unfold list_rooms_detailed in Hrun. rewrite (get_run _ _ w url Hurl), Hb in Hrun.
    injection Hrun as Hpay _. unfold rooms_of_payload in Hpay.
    inv_result Hpay. inv_result Hpay. injection Hx0 as <-.
    destruct (rooms_loop_app _ _ _ _ Hpay) as (mid & _ & Hrest).
    assert (Hroom : is_room (JDict g) = Ok true).
    { unfold is_room. simpl. rewrite Hty. reflexivity. }
    cbn [rooms_loop] in Hrest. rewrite Hroom in Hrest. cbn [mbind result_bind] in Hrest.
    destruct (room_entry gid (JDict g)) as [e|] eqn:He; [| discriminate].
    cbn [mbind result_bind] in Hrest. rewrite Hk in Hrest.
    cbn [mbind result_bind] in Hrest.
    exists e. split; [| exact (Hentry e eq_refl)].
    exact (rooms_loop_keeps _ _ _ k e Hrest (out_set_last k e mid) Hlater).
  - intros w group_id url Hurl Hb Hnoerr.
    rewrite (room_is_on_run group_id w url Hurl), Hb. exact (Hpayload Hnoerr).
Qed.

(** C4. The [on] state of a room.  When the [state] object of a group has
    the key [any_on], both [list_rooms_detailed] and [room_is_on] report the
    truth value of that member, whatever the [action] of the group holds
    (for a JSON boolean, the member itself: [any_on = true] with
    [action.on = false] is reported as on).  When [state] is absent, or is
    an object without [any_on], both report the truth value of
    [action.on], false when [action] or its [on] is absent. *)
Theorem C4_room_on_precedence (gid : string) (g : list (string * json)) :
  (forall s v,
      dict_lookup "state" g = Some (JDict s) -> dict_lookup "any_on" s = Some v ->
      reports_on py_repr gid g (py_bool v)
      /\ (action_object g -> room_on_of g = Ok (py_bool v)))
  /\ (dict_lookup "state" g = None
      \/ (exists s, dict_lookup "state" g = Some (JDict s) /\ dict_lookup "any_on" s = None) ->
      action_object g ->
      reports_on py_repr gid g (py_bool (action_on g))
      /\ room_on_of g = Ok (py_bool (action_on g))).
Proof.
  split.
  - intros s v Hst Hany. split; [apply reports_on_calls|].
    + intros e He. apply room_entry_on in He.
      exact (room_on_any_on g s v (on e) Hst Hany He).
    + intros Hnoerr. unfold room_is_on_of_payload. simpl.
      rewrite Hnoerr, Hst. simpl. unfold dict_mem. rewrite Hany. reflexivity.
    + intros [Ha | [a Ha]]; unfold room_on_of; rewrite Hst, Ha; simpl;
        rewrite Hany; reflexivity.
  - intros Hst Hact.
    destruct (room_on_fallback g Hst Hact) as (Hroom & s & a & Hsdef & Hany & Hadef & Hon).
    split; [apply reports_on_calls | exact Hroom].
    + intros e He. apply room_entry_on in He. congruence.
    + intros Hnoerr. unfold room_is_on_of_payload. simpl.
      rewrite Hnoerr. simpl. rewrite Hsdef. simpl. unfold dict_mem. rewrite Hany.
      simpl. rewrite Hadef, Hon. reflexivity.
Qed.

(** *** Reads: the brightness percentage *)

Lemma dict_lookup_In (k : string) (d : list (string * json)) (v : json) :
  dict_lookup k d = Some v -> In (k, v) d.
Proof.
  induction d as [|[k' v'] d IH]; simpl; [discriminate|].
  destruct (String.eqb k k') eqn:E.
  - apply String.eqb_eq in E. intros [= ->]. left. congruence.
  - intros H. right. auto.
Qed.

Lemma read_bri_native (obj bri_raw : json) (on : bool) (p : Z) :
  bri_native obj ->
  py_get obj "bri" (JNum (NInt 254)) = Ok bri_raw ->
  read_bri bri_raw on = Ok p ->
  0 <= p <= 100.
Proof.
  intros Hnat Hget Hread. destruct obj; simpl in Hget; try discriminate.
  injection Hget as <-. unfold read_bri in Hread.
  destruct (as_num (default (JNum (NInt 254)) (dict_lookup "bri" d))) as [n|] eqn:En.
  - assert (Hin : num_in 0 254 n).
    { destruct (dict_lookup "bri" d) as [v|] eqn:Ev; simpl in En.
      - exact (Hnat d v n eq_refl Ev En).
      - injection En as <-. split; simpl; unfold Qle; simpl; lia. }
    destruct (bri_to_percent_range n Hin) as (p0 & Hp0 & Hr). congruence.
  - injection Hread as <-. destruct on; lia.
Qed.

Lemma bri_native_empty : bri_native (JDict []).
Proof. intros d v n [= <-] Hv. discriminate. Qed.

Lemma light_entry_percent (label : string) (info : json) (e : entry) :
  member_native info -> light_entry label info = Ok e -> 0 <= bri e <= 100.
Proof.
  intros Hnat He. unfold light_entry in He.
  destruct info; simpl in He; try discriminate.
  assert (Hst : bri_native (default (JDict []) (dict_lookup "state" d))).
  { destruct (dict_lookup "state" d) as [st|] eqn:Est; simpl.
    - apply (Hnat d st eq_refl). left. exact Est.
    - apply bri_native_empty. }
  set (state := default (JDict []) (dict_lookup "state" d)) in *.
  inv_result He. destruct (py_get state "bri" (JNum (NInt 254))) as [bri_raw|] eqn:Hb;
    [| discriminate].
  simpl in He. destruct (read_bri bri_raw (py_bool x)) as [p|] eqn:Hp; [| discriminate].
  simpl in He. repeat inv_result He. injection He as <-. simpl.
  exact (read_bri_native state bri_raw _ p Hst Hb Hp).
Qed.

Lemma room_entry_percent (gid : string) (info : json) (e : entry) :
  member_native info -> room_entry gid info = Ok e -> 0 <= bri e <= 100.
Proof.
  intros Hnat He. unfold room_entry in He.
  destruct info; simpl in He; try discriminate.
  assert (Hact : bri_native (default (JDict []) (dict_lookup "action" d))).
  { destruct (dict_lookup "action" d) as [act|] eqn:Eact; simpl.
    - apply (Hnat d act eq_refl). right. exact Eact.
    - apply bri_native_empty. }
  set (act := default (JDict []) (dict_lookup "action" d)) in *.
  inv_result He. destruct (py_get act "bri" (JNum (NInt 254))) as [bri_raw|] eqn:Hb;
    [| discriminate].
  simpl in He. destruct (read_bri bri_raw x) as [p|] eqn:Hp; [| discriminate].
  simpl in He. repeat inv_result He. injection He as <-. simpl.
  exact (read_bri_native act bri_raw _ p Hact Hb Hp).
Qed.

Lemma out_set_percent (k : Z) (e : entry) (out : outdict) :
  0 <= bri e <= 100 -> percent_entries out -> percent_entries (out_set k e out).
Proof.
  intros He Hout. induction Hout as [|[k' e'] out Hx Hout IH]; simpl.
  - constructor; [exact He | constructor].
  - destruct (k =? k'); constructor; try assumption.
Qed.

Lemma lights_loop_percent (items : list (string * json)) (out0 out : outdict) :
  (forall lid info, In (lid, info) items -> member_native info) ->
  percent_entries out0 -> lights_loop items out0 = Ok out -> percent_entries out.
Proof.
  revert out0. induction items as [|[lid info] rest IH]; intros out0 Hnat H0 Hloop;
    simpl in Hloop.
  - injection Hloop as <-. exact H0.
  - inv_result Hloop. inv_result Hloop.
    apply (IH (out_set x0 x out0)); [| | exact Hloop].
    + intros l i Hin. apply (Hnat l i). right. exact Hin.
    + apply out_set_percent; [| exact H0].
      apply (light_entry_percent lid info); [| exact Hx].
      apply (Hnat lid info). left. reflexivity.
Qed.

Lemma rooms_loop_percent (items : list (string * json)) (out0 out : outdict) :
  (forall gid info, In (gid, info) items -> member_native info) ->
  percent_entries out0 -> rooms_loop items out0 = Ok out -> percent_entries out.
Proof.
  revert out0. induction items as [|[gid info] rest IH]; intros out0 Hnat H0 Hloop;
    simpl in Hloop.
  - injection Hloop as <-. exact H0.
  - inv_result Hloop.
    assert (Hrest : forall l i, In (l, i) rest -> member_native i).
    { intros l i Hin. apply (Hnat l i). right. exact Hin. }
    destruct x.
    + inv_result Hloop. inv_result Hloop.
      apply (IH (out_set x0 x out0)); [exact Hrest | | exact Hloop].
      apply out_set_percent; [| exact H0].
      apply (room_entry_percent gid info); [| exact Hx0].
      apply (Hnat gid info). left. reflexivity.
    + apply (IH out0); assumption.
Qed.

Lemma room_lights_loop_percent (all_lights : json) (ids : list Z) (out0 out : outdict) :
  payload_native all_lights ->
  percent_entries out0 -> room_lights_loop all_lights ids out0 = Ok out ->
  percent_entries out.
Proof.
  intros Hnat. revert out0. induction ids as [|lid rest IH]; intros out0 H0 Hloop;
    simpl in Hloop.
  - injection Hloop as <-. exact H0.
  - inv_result Hloop. destruct (py_bool x) eqn:Hb.
    + inv_result Hloop.
      apply (IH (out_set lid x0 out0)); [| exact Hloop].
      apply out_set_percent; [| exact H0].
      apply (light_entry_percent (string_of_Z lid) x); [| exact Hx0].
      destruct all_lights; simpl in Hx; try discriminate.
      injection Hx as <-.
      destruct (dict_lookup (string_of_Z lid) d) as [info|] eqn:El; simpl in *.
      * apply (Hnat d (string_of_Z lid) info eq_refl), dict_lookup_In, El.
      * discriminate.
    + apply (IH out0); assumption.
Qed.

Lemma payload_items_native (data : json) (items : list (string * json)) :
  payload_native data -> py_items data = Ok items ->
  forall k info, In (k, info) items -> member_native info.
Proof.
  intros Hnat Hitems k info Hin. destruct data; try discriminate.
  injection Hitems as <-. exact (Hnat d k info eq_refl Hin).
Qed.

Lemma http_ok (m : method) (url : string) (body : option json) (w w' : world)
    (data : json) :
  http m url body w = (Ok data, w') ->
  bridge w (sent w) (Request m url body) = Some data
  /\ bridge w' = bridge w.
Proof.
  rewrite http_run. cbv zeta.
  destruct (bridge w (sent w) _) as [j|]; [| discriminate].
  intros [= -> <-]. split; reflexivity.
Qed.

Lemma api_url_ok (parts : list json) (w w' : world) (url : string) :
  _api_url py_repr parts w = (Ok url, w') -> w' = w.
Proof.
  destruct (api_url_total parts w) as [u Hu]. rewrite Hu. congruence.
Qed.

Lemma clamp_percent_idem (percent : num) :
  clamp_percent (NInt (clamp_percent percent)) = clamp_percent percent.
Proof. unfold clamp_percent. simpl. lia. Qed.

(** C1. The brightness percentage lies in [[0, 100]].  Reads: for every
    numeric native [bri] the bridge sends, a number of the native range
    0..254, each entry returned by [list_lights_detailed],
    [list_rooms_detailed] and [list_lights_detailed_for_room] has a
    brightness percentage in [[0, 100]].  Writes: [set_brightness] and
    [set_room_brightness] depend on their percent argument only through its
    clamp, which lies in [[0, 100]]. *)
Theorem C1_brightness_percent_range (w : world) :
  bridge_native w ->
  (forall out w', list_lights_detailed py_repr w = (Ok out, w') -> percent_entries out)
  /\ (forall out w', list_rooms_detailed py_repr w = (Ok out, w') -> percent_entries out)
  /\ (forall room_id out w',
        list_lights_detailed_for_room py_repr room_id w = (Ok out, w') ->
        percent_entries out)
  /\ (forall id percent,
        0 <= clamp_percent percent <= 100
        /\ set_brightness py_repr id percent w
           = set_brightness py_repr id (NInt (clamp_percent percent)) w
        /\ set_room_brightness py_repr id percent w
           = set_room_brightness py_repr id (NInt (clamp_percent percent)) w).
Proof.
  intros Hnat. repeat split.
  - intros out w' Hrun. unfold list_lights_detailed in Hrun.
    apply M_bind_ok in Hrun. destruct Hrun as (url & w1 & Hurl & Hrun).
    apply api_url_ok in Hurl as ->.
    apply M_bind_ok in Hrun. destruct Hrun as (data & w2 & Hhttp & Hrun).
    apply http_ok in Hhttp. destruct Hhttp as [Hdata _].
    unfold lift in Hrun. injection Hrun as Hpay _.
    unfold lights_of_payload in Hpay. inv_result Hpay. inv_result Hpay.
    eapply lights_loop_percent; [| constructor | exact Hpay].
    eapply payload_items_native; [| exact Hx0]. eapply Hnat, Hdata.
  - intros out w' Hrun. unfold list_rooms_detailed in Hrun.
    apply M_bind_ok in Hrun. destruct Hrun as (url & w1 & Hurl & Hrun).
    apply api_url_ok in Hurl as ->.
    apply M_bind_ok in Hrun. destruct Hrun as (data & w2 & Hhttp & Hrun).
    apply http_ok in Hhttp. destruct Hhttp as [Hdata _].
    unfold lift in Hrun. injection Hrun as Hpay _.
    unfold rooms_of_payload in Hpay. inv_result Hpay. inv_result Hpay.
    eapply rooms_loop_percent; [| constructor | exact Hpay].
    eapply payload_items_native; [| exact Hx0]. eapply Hnat, Hdata.
  - intros room_id out w' Hrun. unfold list_lights_detailed_for_room in Hrun.
    apply M_bind_ok in Hrun. destruct Hrun as (url & w1 & Hurl & Hrun).
    apply api_url_ok in Hurl as ->.
    apply M_bind_ok in Hrun. destruct Hrun as (group & w2 & Hhttp & Hrun).
    apply http_ok in Hhttp. destruct Hhttp as [_ Hbridge].
    apply M_bind_ok in Hrun. destruct Hrun as (ids & w3 & Hids & Hrun).
    unfold lift in Hids. injection Hids as Hids <-.
    destruct ids as [|i ids].
    + injection Hrun as <- _. constructor.
    + apply M_bind_ok in Hrun. destruct Hrun as (url' & w4 & Hurl & Hrun).
      apply api_url_ok in Hurl as ->.
      apply M_bind_ok in Hrun. destruct Hrun as (all_lights & w5 & Hhttp & Hrun).
      apply http_ok in Hhttp. destruct Hhttp as [Hdata _].
      rewrite Hbridge in Hdata.
      unfold lift in Hrun. injection Hrun as Hpay _.
      unfold room_lights_of_payload in Hpay. inv_result Hpay.
      eapply room_lights_loop_percent; [| constructor | exact Hpay].
      eapply Hnat, Hdata.
  - apply clamp_percent_range.
  - apply clamp_percent_range.
  - unfold set_brightness. rewrite clamp_percent_idem. reflexivity.
  - unfold set_room_brightness. rewrite clamp_percent_idem. reflexivity.
Qed.

(** *** Pairing *)

Lemma create_user_run (bridge_ip devicetype : string) (w : world) :
  create_user py_repr bridge_ip devicetype w =
  (match bridge w (sent w) (pairing_request bridge_ip devicetype) with
   | Some resp => extract_username py_repr resp
   | None => Raise TransportError
   end,
   World (file w) (disk w) (environ w) (bridge w)
         (sent w ++ [pairing_request bridge_ip devicetype])).
Proof.
  unfold create_user. rewrite M_bind_run, http_run. cbv zeta.
  fold (pairing_request bridge_ip devicetype).
  destruct (bridge w (sent w) _); reflexivity.
Qed.

Lemma first_error_absent (items : list json) :
  (forall d, In (JDict d) items -> dict_lookup "error" d = None) ->
  first_error items = None.
Proof.
  intros H. induction items as [|item rest IH]; [reflexivity|].
  simpl. destruct (error_of item) as [err|] eqn:E.
  - destruct item; simpl in E; try discriminate.
    rewrite (H d) in E by (left; reflexivity). discriminate.
  - apply IH. intros d Hin. apply H. right. exact Hin.
Qed.

Lemma find_username_skip (pre rest : list json) :
  Forall skipped pre -> find_username (pre ++ rest) = find_username rest.
Proof.
  induction 1 as [|item pre (d & -> & Hskip) _ IH]; [reflexivity|].
  cbn -[py_bool py_contains]. fold (field d "success").
  destruct (py_bool (field d "success")) eqn:Hb; [| exact IH].
  destruct Hskip as [Hfalse | Hno]; [congruence|].
  rewrite Hno. exact IH.
Qed.

Lemma find_username_here (d s : list (string * json)) (u : json) (post : list json) :
  dict_lookup "success" d = Some (JDict s) -> dict_lookup "username" s = Some u ->
  find_username (JDict d :: post) = Ok (Some u).
Proof.
  intros Hs Hu.
  assert (Htruthy : py_bool (JDict s) = true) by (destruct s; [discriminate | reflexivity]).
  cbn -[dict_lookup py_bool]. rewrite Hs. cbn -[dict_lookup py_bool].
  rewrite Htruthy. unfold dict_mem. rewrite Hu. reflexivity.
Qed.

Lemma extract_username_list (pre post : list json) (d s : list (string * json))
    (u : json) :
  (forall d', In (JDict d') (pre ++ JDict d :: post) -> dict_lookup "error" d' = None) ->
  Forall skipped pre ->
  dict_lookup "success" d = Some (JDict s) -> dict_lookup "username" s = Some u ->
  extract_username py_repr (JList (pre ++ JDict d :: post)) = Ok u.
Proof.
  intros Hnoerr Hpre Hs Hu. unfold extract_username.
  rewrite raise_if_error_vendor. simpl.
  rewrite (first_error_absent _ Hnoerr). simpl.
  rewrite (find_username_skip pre _ Hpre), (find_username_here d s u post Hs Hu).
  reflexivity.
Qed.

Lemma extract_username_object (d : list (string * json)) :
  (exists e, extract_username py_repr (JDict d) = Raise e)
  /\ (dict_lookup "error" d = None ->
      extract_username py_repr (JDict d) = Raise unexpected_response).
Proof.
  unfold extract_username. rewrite raise_if_error_vendor. simpl.
  destruct (dict_lookup "error" d) as [err|].
  - split; [| discriminate].
    destruct (raise_hue_error_raises (A := json) err) as [e He].
    exists e. rewrite He. reflexivity.
  - split; [eexists |]; reflexivity.
Qed.

Lemma extract_username_error (d : list (string * json)) (err : json) :
  dict_lookup "error" d = Some err ->
  extract_username py_repr (JDict d) = raise_hue_error py_repr err.
Proof.
  intros Herr. unfold extract_username. rewrite raise_if_error_vendor. simpl.
  rewrite Herr. destruct (raise_hue_error_raises (A := json) err) as [e He].
  rewrite He. simpl.
  destruct (raise_hue_error_raises (A := json) err) as [e' He'].
  congruence.
Qed.

Lemma extract_username_shape (resp u : json) :
  extract_username py_repr resp = Ok u -> exists items, resp = JList items.
Proof.
  unfold extract_username. intros H. inv_result H.
  destruct resp; try discriminate. eauto.
Qed.

(** C9 (as amended).  For a pairing response that is a list with no error
    object in it, in which an object [{"success": {..., "username": u}}]
    comes after items that the loop passes over (objects whose [success] is
    absent, falsy, or holds no ["username"]): [create_user] returns [u] as
    it was received; and the pairing flow of the settings screen, started
    with a bridge address that is not blank and a blank username, stores
    [{"bridge_ip": ip, "username": u}] through [save_config] when [u] is a
    string and the file can be written. *)
Theorem C9_pairing_extracts_and_persists (w : world) (bridge_ip username : string)
    (pre post : list json) (d s : list (string * json)) (u : json) :
  bridge w (sent w) (pairing_request (strip bridge_ip) "kivy-warmup#pi")
    = Some (JList (pre ++ JDict d :: post)) ->
  (forall d', In (JDict d') (pre ++ JDict d :: post) -> dict_lookup "error" d' = None) ->
  Forall skipped pre ->
  dict_lookup "success" d = Some (JDict s) ->
  dict_lookup "username" s = Some u ->
  fst (create_user py_repr (strip bridge_ip) "kivy-warmup#pi" w) = Ok u
  /\ (forall uname,
        u = JStr uname -> strip bridge_ip <> EmptyString -> strip username = EmptyString ->
        fs_writable w = true ->
        exists w',
          settings_save py_repr bridge_ip username w = (Ok Saved, w')
          /\ file w' = JsonFile (JDict [("bridge_ip"%string, JStr (strip bridge_ip));
                                        ("username"%string, JStr uname)])).
Proof.
  intros Hresp Hnoerr Hpre Hs Hu.
  pose proof (extract_username_list pre post d s u Hnoerr Hpre Hs Hu) as Hext.
  split.
  - rewrite create_user_run, Hresp. exact Hext.
  - intros uname -> Hip Huser Hfs.
    assert (Hdisk : disk w = Writes).
    { unfold fs_writable in Hfs. destruct (disk w); [reflexivity | discriminate..]. }
    unfold settings_save. apply String.eqb_neq in Hip. rewrite Hip.
    unfold save_work. rewrite Huser. simpl String.eqb. cbv iota.
    rewrite !M_bind_run, create_user_run, Hresp, Hext.
    unfold mret, M_ret, save_config. simpl. rewrite Hdisk.
    eexists. split; reflexivity.
Qed.

(** C10. For a pairing response that is a single JSON object,
    [create_user] extracts no credential.  When the object is an envelope
    without an [error] key, whatever else it holds (a [success] with a
    [username] in particular), the call raises
    ["Unexpected Hue response creating user."]; an object with an [error]
    key raises the vendor error of [_raise_if_error] for it.  Whenever
    [create_user] returns a username, the response was a list. *)
Theorem C10_pairing_object_response (w : world) (bridge_ip devicetype : string) :
  (forall d,
      bridge w (sent w) (pairing_request bridge_ip devicetype) = Some (JDict d) ->
      dict_lookup "error" d = None ->
      fst (create_user py_repr bridge_ip devicetype w) = Raise unexpected_response)
  /\ (forall d err,
        bridge w (sent w) (pairing_request bridge_ip devicetype) = Some (JDict d) ->
        dict_lookup "error" d = Some err ->
        fst (create_user py_repr bridge_ip devicetype w) = raise_hue_error py_repr err)
  /\ (forall u,
        fst (create_user py_repr bridge_ip devicetype w) = Ok u ->
        exists items,
          bridge w (sent w) (pairing_request bridge_ip devicetype) = Some (JList items)).
Proof.
  rewrite create_user_run. simpl. split; [| split].
  - intros d -> Hnoerr. exact (proj2 (extract_username_object d) Hnoerr).
  - intros d err -> Herr. apply extract_username_error. exact Herr.
  - intros u Hu. destruct (bridge w (sent w) _) as [resp|]; [| discriminate].
    destruct (extract_username_shape resp u Hu) as [items ->]. eauto.
Qed.


(** C8. Colour writes.  For every hue in degrees, an int or a float of any
    sign, and every saturation percentage, [set_color_hs] and
    [set_room_color_hs] compute a native hue in [[0, 65535]] and a native
    saturation in [[0, 254]], and send them in their one PUT. *)
Theorem C8_hue_sat_native_range (light_id group_id : Z) (hue_degrees sat_percent : num)
    (w : world) :
  exists hue sat url_light url_room,
    hue_to_native hue_degrees = Ok hue /\ 0 <= hue <= 65535
    /\ sat_to_native sat_percent = Ok sat /\ 0 <= sat <= 254
    /\ sent (snd (set_color_hs py_repr light_id hue_degrees sat_percent w))
       = sent w ++ [Request PUT url_light
                      (Some (JDict [("on"%string, JBool true);
                                    ("hue"%string, JNum (NInt hue));
                                    ("sat"%string, JNum (NInt sat))]))]
    /\ sent (snd (set_room_color_hs py_repr group_id hue_degrees sat_percent w))
       = sent w ++ [Request PUT url_room
                      (Some (JDict [("on"%string, JBool true);
                                    ("hue"%string, JNum (NInt hue));
                                    ("sat"%string, JNum (NInt sat))]))].
Proof.
  destruct (hue_to_native_range hue_degrees) as (hue & Hh & Hhr).
  destruct (sat_to_native_range sat_percent) as (sat & Hs & Hsr).
  destruct (api_url_total [JStr "lights"; JNum (NInt light_id); JStr "state"] w)
    as [ul Hul].
  destruct (api_url_total [JStr "groups"; JNum (NInt group_id); JStr "action"] w)
    as [ur Hur].
  exists hue, sat, ul, ur.
  repeat (split; [assumption|]).
  unfold set_color_hs, set_room_color_hs.
  rewrite !M_bind_run. unfold lift at 1 4. rewrite Hh.
  rewrite !M_bind_run. unfold lift at 1 3. rewrite Hs.
  rewrite (put_run _ _ w ul Hul), (put_run _ _ w ur Hur). auto.
Qed.

End ClientProps.

(** ** Discovery *)

(** *** The order on strings *)

Lemma ascii_compare_lt_trans (a b c : ascii) :
  Ascii.compare a b = Lt -> Ascii.compare b c = Lt -> Ascii.compare a c = Lt.
Proof.
  unfold Ascii.compare. rewrite !N.compare_lt_iff. apply N.lt_trans.
Qed.

Lemma string_compare_lt_trans (a b c : string) :
  String.compare a b = Lt -> String.compare b c = Lt -> String.compare a c = Lt.
Proof.
  revert b c. induction a as [|x a IH]; intros [|y b] [|z c]; simpl;
    try discriminate; try reflexivity.
  destruct (Ascii.compare x y) eqn:Exy; try discriminate.
  - apply Ascii.compare_eq_iff in Exy. subst y.
    destruct (Ascii.compare x z); try discriminate; [apply IH | reflexivity].
  - intros _. destruct (Ascii.compare y z) eqn:Eyz; try discriminate.
    + apply Ascii.compare_eq_iff in Eyz. subst z. rewrite Exy. reflexivity.
    + rewrite (ascii_compare_lt_trans x y z Exy Eyz). reflexivity.
Qed.

Lemma leb_cases (a b : string) :
  String.leb a b = true <-> a = b \/ String.ltb a b = true.
Proof.
  unfold String.leb, String.ltb. destruct (String.compare a b) eqn:E; simpl.
  - apply String.compare_eq_iff in E. tauto.
  - tauto.
  - split; [discriminate | intros [-> | H]; [| discriminate H]].
    pose proof (String.compare_antisym b b) as Hanti.
    rewrite E in Hanti. discriminate Hanti.
Qed.

Lemma ltb_trans (a b c : string) :
  String.ltb a b = true -> String.ltb b c = true -> String.ltb a c = true.
Proof.
  unfold String.ltb.
  destruct (String.compare a b) eqn:E1; try discriminate.
  destruct (String.compare b c) eqn:E2; try discriminate.
  rewrite (string_compare_lt_trans a b c E1 E2). reflexivity.
Qed.

Lemma leb_trans (a b c : string) :
  String.leb a b = true -> String.leb b c = true -> String.leb a c = true.
Proof.
  rewrite !leb_cases. intros [-> | H1] [-> | H2]; auto.
  right. eapply ltb_trans; eassumption.
Qed.

(** *** [sorted] *)

Lemma insert_sorted_perm (x : string) (l : list string) :
  Permutation (insert_sorted x l) (x :: l).
Proof.
  induction l as [|y l IH]; simpl; [reflexivity|].
  destruct (String.leb x y); [reflexivity|].
  rewrite IH. apply perm_swap.
Qed.

Lemma py_sorted_perm (l : list string) : Permutation (py_sorted l) l.
Proof.
  induction l as [|x l IH]; simpl; [reflexivity|].
  rewrite insert_sorted_perm, IH. reflexivity.
Qed.

Lemma insert_sorted_sorted (x : string) (l : list string) :
  StronglySorted (fun a b => String.leb a b = true) l ->
  StronglySorted (fun a b => String.leb a b = true) (insert_sorted x l).
Proof.
  induction 1 as [|y l Hl IH Hy]; simpl.
  - repeat constructor.
  - destruct (String.leb x y) eqn:E.
    + constructor; [constructor; assumption|].
      constructor; [exact E|].
      eapply List.Forall_impl; [| exact Hy]. intros z Hz. simpl in Hz.
      eapply leb_trans; eassumption.
    + constructor; [exact IH|].
      assert (Hyx : String.leb y x = true).
      { destruct (String.leb_total x y); congruence. }
      rewrite List.Forall_forall. intros z Hz.
      apply (Permutation_in _ (insert_sorted_perm x l)) in Hz.
      destruct Hz as [<- | Hz]; [exact Hyx|].
      rewrite List.Forall_forall in Hy. apply Hy, Hz.
Qed.

Lemma py_sorted_sorted (l : list string) :
  StronglySorted (fun a b => String.leb a b = true) (py_sorted l).
Proof.
  induction l as [|x l IH]; simpl; [constructor | apply insert_sorted_sorted, IH].
Qed.

Lemma sorted_nodup_ascending (l : list string) :
  StronglySorted (fun a b => String.leb a b = true) l -> List.NoDup l -> ascending l.
Proof.
  induction 1 as [|x l Hl IH Hx]; intros Hnd; [constructor|].
  inversion Hnd as [|? ? Hnotin Hnd']; subst.
  constructor; [apply IH, Hnd'|].
  rewrite List.Forall_forall in Hx |- *. intros y Hy.
  destruct (proj1 (leb_cases x y) (Hx y Hy)) as [-> | Hlt]; [| exact Hlt].
  contradiction.
Qed.

(** *** The sweep *)

Lemma probe_some (net : string -> option response) (ip x : string) :
  probe net ip = Some x -> x = ip.
Proof.
  unfold probe. destruct (net _) as [r|]; [| discriminate].
  destruct (ok r); [| discriminate].
  destruct (_ && _); [congruence|].
  destruct (is_infix _ _); [congruence | discriminate].
Qed.

Lemma append_nonempty (p s : string) : s <> EmptyString -> p +:+ s <> EmptyString.
Proof.
  intros Hs. destruct p; [rewrite append_nil; exact Hs | rewrite append_cons; discriminate].
Qed.

Lemma candidates_nonempty (p ip : string) :
  In ip (candidates p) -> String.eqb ip EmptyString = false.
Proof.
  unfold candidates. rewrite List.in_map_iff. intros (i & <- & Hi).
  apply String.eqb_neq, append_nonempty.
  assert (Hall : List.forallb (fun i => negb (String.eqb (string_of_Z i) EmptyString))
                   (zrange 1 254) = true) by (vm_compute; reflexivity).
  rewrite List.forallb_forall in Hall. specialize (Hall i Hi).
  apply negb_true_iff, String.eqb_neq in Hall. exact Hall.
Qed.

Lemma collect_spec (results : list (option string)) (hits : gset string) (ip : string) :
  ip ∈ collect hits results <->
  ip ∈ hits \/ (In (Some ip) results /\ String.eqb ip EmptyString = false).
Proof.
  unfold collect. revert hits.
  induction results as [|r results IH]; intros hits; simpl.
  - tauto.
  - rewrite IH. destruct r as [x|].
    + destruct (String.eqb x EmptyString) eqn:Ex; simpl.
      * split; [tauto|].
        intros [H | [[[= ->] | H] Hne]]; first [tauto | congruence].
      * rewrite elem_of_union, elem_of_singleton.
        split.
        -- intros [[-> | H] | H]; [right; split; [left; reflexivity | exact Ex] | tauto | tauto].
        -- intros [H | [[[= ->] | H] Hne]]; tauto.
    + split; [tauto|]. intros [H | [[[=] | H] Hne]]; tauto.
Qed.

Lemma sweep_spec (net : string -> option response)
    (order : list (option string) -> list (option string))
    (hits : gset string) (p ip : string) :
  (forall futs, Permutation (order futs) futs) ->
  ip ∈ sweep net order hits p <->
  ip ∈ hits \/ (In ip (candidates p) /\ probe net ip = Some ip).
Proof.
  intros Hperm. unfold sweep. rewrite collect_spec.
  apply or_iff_compat_l. split.
  - intros [Hin _]. apply (Permutation_in _ (Hperm _)) in Hin.
    apply List.in_map_iff in Hin. destruct Hin as (c & Hc & Hin).
    pose proof (probe_some net c ip Hc) as ->. tauto.
  - intros [Hin Hp]. split; [| apply (candidates_nonempty p), Hin].
    apply (Permutation_in _ (Permutation_sym (Hperm _))).
    apply List.in_map_iff. eauto.
Qed.

Lemma sweep_all_spec (net : string -> option response)
    (sched : nat -> list (option string) -> list (option string))
    (round : nat) (prefixes : list string) (hits : gset string) (ip : string) :
  completion_order sched ->
  ip ∈ sweep_all net sched round prefixes hits <-> ip ∈ hits \/ matched net prefixes ip.
Proof.
  intros Hsched. revert round hits.
  induction prefixes as [|p rest IH]; intros round hits; simpl.
  - split; [tauto|]. intros [H | (p & [] & _)]. exact H.
  - rewrite IH, (sweep_spec net (sched round) hits p ip (Hsched round)).
    unfold matched. split.
    + intros [[H | H] | (q & Hq & H)].
      * left. exact H.
      * right. exists p. split; [left; reflexivity | exact H].
      * right. exists q. split; [right; exact Hq | exact H].
    + intros [H | (q & [<- | Hq] & H)].
      * left. left. exact H.
      * left. right. exact H.
      * right. exists q. split; assumption.
Qed.

(** C6. Discovery.  Whatever the probes answer and in whatever order they
    complete, [discover_bridges] returns exactly the candidate addresses
    whose probe matched, each once, in strictly ascending order; two runs
    that differ only in the completion order return the same list. *)
Theorem C6_discover_bridges_deterministic (sock : option string)
    (net : string -> option response)
    (sched sched' : nat -> list (option string) -> list (option string))
    (skip_cloud skip_cloud' : bool) :
  completion_order sched -> completion_order sched' ->
  (forall ip, In ip (discover_bridges sock net sched skip_cloud)
              <-> matched net (_primary_lan_prefixes sock) ip)
  /\ List.NoDup (discover_bridges sock net sched skip_cloud)
  /\ ascending (discover_bridges sock net sched skip_cloud)
  /\ discover_bridges sock net sched' skip_cloud'
     = discover_bridges sock net sched skip_cloud.
Proof.
  intros Hs Hs'. unfold discover_bridges.
  set (prefixes := _primary_lan_prefixes sock).
  assert (Hmem : forall sc, completion_order sc ->
            forall ip, ip ∈ sweep_all net sc 0 prefixes ∅ <-> matched net prefixes ip).
  { intros sc Hsc ip. rewrite (sweep_all_spec net sc 0 prefixes ∅ ip Hsc).
    rewrite elem_of_empty. tauto. }
  assert (Hnd : List.NoDup (py_sorted (elements (sweep_all net sched 0 prefixes ∅)))).
  { apply (Permutation_NoDup (Permutation_sym (py_sorted_perm _))).
    apply NoDup_ListNoDup, NoDup_elements. }
  repeat split.
  - intros Hin. apply (Permutation_in _ (py_sorted_perm _)) in Hin.
    apply list_elem_of_In, elem_of_elements in Hin. apply (Hmem sched Hs), Hin.
  - intros Hm. apply (Permutation_in _ (Permutation_sym (py_sorted_perm _))).
    apply list_elem_of_In, elem_of_elements, (Hmem sched Hs), Hm.
  - exact Hnd.
  - apply sorted_nodup_ascending; [apply py_sorted_sorted | exact Hnd].
  - f_equal. f_equal. apply set_eq. intros ip.
    rewrite (Hmem sched Hs), (Hmem sched' Hs'). reflexivity.
Qed.

(** ** The claims at concrete inputs *)

Lemma paired_world_native (payload : json) :
  payload_native payload -> bridge_native (paired_world payload).
Proof. intros Hp hist rq data [= <-]. exact Hp. Qed.

Lemma one_light_native (b : Z) : 0 <= b <= 254 -> payload_native (one_light b).
Proof.
  intros Hb d k info [= <-] [[= <- <-] | []] d' obj [= <-] [[= <-] | [=]].
  intros d'' v n [= <-] [= <-] [= <-].
  split; unfold Qle; simpl; lia.
Qed.

Lemma C1_brightness_percent_range_witness :
  bridge_native (paired_world (one_light 127))
  /\ fst (list_lights_detailed no_repr (paired_world (one_light 127)))
     = Ok [(1, Entry (JStr "Light 1") true 50 false)]
  /\ forall out w',
       list_lights_detailed no_repr (paired_world (one_light 127)) = (Ok out, w') ->
       percent_entries out.
Proof.
  assert (Hnat : bridge_native (paired_world (one_light 127))).
  { apply paired_world_native, one_light_native. lia. }
  split; [exact Hnat|]. split; [vm_compute; reflexivity|].
  exact (proj1 (C1_brightness_percent_range no_repr
                  (paired_world (one_light 127)) Hnat)).
Defined.

(** The conversion of a read is [round(bri * 100 / 254)] as it stands: a
    [bri] of 300, which is no native value, is reported as 118. *)
Example read_conversion_beyond_native :
  fst (list_lights_detailed no_repr (paired_world (one_light 300)))
    = Ok [(1, Entry (JStr "Light 1") true 118 false)].
Proof. vm_compute. reflexivity. Qed.

Lemma lit_room_listed : listed_room [("1"%string, JDict lit_room)] "1" lit_room 1.
Proof.
  exists [], []. split; [reflexivity|]. split; [reflexivity|].
  split; [reflexivity | intros ? ? []].
Qed.

(** The example of the specification: [state.any_on = true] with
    [action.on = false] is reported as on. *)
Lemma C4_room_on_precedence_witness :
  fst (list_rooms_detailed no_repr lit_room_world)
  = Ok [(1, Entry (JStr "Kitchen") true 50 false)]
  /\ (exists e, In (1, e) [(1, Entry (JStr "Kitchen") true 50 false)] /\ on e = true)
  /\ fst (room_is_on no_repr 1 lit_room_world) = Ok true.
Proof.
  pose proof (proj1 (proj1 (C4_room_on_precedence no_repr "1" lit_room)
                       _ (JBool true) eq_refl eq_refl)) as [Hlist Hone].
  split; [vm_compute; reflexivity|]. split.
  - refine (Hlist lit_room_world "http://10.0.0.5/api/u1/groups"%string
              [("1"%string, JDict lit_room)] 1
              [(1, Entry (JStr "Kitchen") true 50 false)]
              (snd (list_rooms_detailed no_repr lit_room_world))
              eq_refl eq_refl lit_room_listed _).
    vm_compute. reflexivity.
  - exact (Hone lit_room_world 1 "http://10.0.0.5/api/u1/groups/1"%string
             eq_refl eq_refl eq_refl).
Defined.

Lemma reversed_completion_order : completion_order reversed.
Proof. intros round futs. symmetry. apply Permutation_rev. Qed.

Lemma in_order_completion_order : completion_order in_order.
Proof. intros round futs. reflexivity. Qed.

Lemma C6_discover_bridges_deterministic_witness :
  completion_order reversed /\ completion_order in_order
  /\ List.NoDup (discover_bridges (Some "10.0.0.33") net_two_bridges reversed true)
  /\ ascending (discover_bridges (Some "10.0.0.33") net_two_bridges reversed true)
  /\ discover_bridges (Some "10.0.0.33") net_two_bridges in_order true
     = discover_bridges (Some "10.0.0.33") net_two_bridges reversed true.
Proof.
  split; [exact reversed_completion_order|].
  split; [exact in_order_completion_order|].
  exact (proj2 (C6_discover_bridges_deterministic (Some "10.0.0.33") net_two_bridges
                  reversed in_order true true
                  reversed_completion_order in_order_completion_order)).
Defined.

(** The example of the specification: matches at 10.0.0.5 and 10.0.0.9. *)
Example discover_two_bridges :
  discover_bridges (Some "10.0.0.33") net_two_bridges reversed true
    = ["10.0.0.5"; "10.0.0.9"]%string
  /\ discover_bridges (Some "10.0.0.33") net_two_bridges in_order true
    = ["10.0.0.5"; "10.0.0.9"]%string.
Proof. split; vm_compute; reflexivity. Qed.

Lemma C9_pairing_extracts_and_persists_witness :
  fst (create_user no_repr (strip " 192.168.1.2 ") "kivy-warmup#pi"
         (paired_world (JList [JDict success_abc]))) = Ok (JStr "abc")
  /\ exists w',
       settings_save no_repr " 192.168.1.2 " EmptyString
         (paired_world (JList [JDict success_abc])) = (Ok Saved, w')
       /\ file w' = JsonFile (JDict [("bridge_ip"%string, JStr (strip " 192.168.1.2 "));
                                     ("username"%string, JStr "abc")]).
Proof.
  assert (Hnoerr : forall d', In (JDict d') ([] ++ JDict success_abc :: []) ->
                              dict_lookup "error" d' = None).
  { intros d' [[= <-] | []]. reflexivity. }
  pose proof (C9_pairing_extracts_and_persists no_repr
                (paired_world (JList [JDict success_abc]))
                " 192.168.1.2 " EmptyString [] [] success_abc
                [("username"%string, JStr "abc")] (JStr "abc")
                eq_refl Hnoerr (List.Forall_nil skipped) eq_refl eq_refl) as [Hret Hflow].
  split; [exact Hret|].
  apply (Hflow "abc"%string eq_refl); [vm_compute; discriminate | reflexivity | reflexivity].
Defined.

(** C9, as stated, fails: the list below contains an object whose [success]
    has the username ["abc"], and [create_user] raises the vendor error of
    the item before it. *)
Lemma C9_error_item_comes_first :
  In (JDict success_abc) [JDict [("error"%string, link_button_error)]; JDict success_abc]
  /\ fst (create_user no_repr "192.168.1.2" "kivy-warmup#pi"
            (paired_world
               (JList [JDict [("error"%string, link_button_error)]; JDict success_abc])))
     = Raise (RuntimeError "Hue error 101: link button not pressed ()").
Proof. split; [right; left; reflexivity | vm_compute; reflexivity]. Qed.

(** A bare success envelope with the username ["abc"]: nothing is
    extracted. *)
Lemma C10_pairing_object_response_witness :
  dict_lookup "success" success_abc = Some (JDict [("username"%string, JStr "abc")])
  /\ fst (create_user no_repr "192.168.1.2" "kivy-warmup#pi"
            (paired_world (JDict success_abc)))
     = Raise unexpected_response.
Proof.
  split; [reflexivity|].
  exact (proj1 (C10_pairing_object_response no_repr (paired_world (JDict success_abc))
                  "192.168.1.2" "kivy-warmup#pi")
           success_abc eq_refl eq_refl).
Defined.

(** ** The examples of the specification *)

Example error_envelope_example :
  _raise_if_error no_repr
    (JList [JDict [("error"%string,
                    JDict [("type"%string, JNum (NInt 1));
                           ("description"%string, JStr "x");
                           ("address"%string, JStr "/lights/1")])]])
  = Raise (RuntimeError "Hue error 1: x (/lights/1)").
Proof. vm_compute. reflexivity. Qed.

Example color_capability_examples :
  read_supports (JDict [("hue"%string, JNum (NInt 8402))]) = Ok true
  /\ read_supports (JDict [("on"%string, JBool true)]) = Ok false
  /\ read_supports (JDict [("colormode"%string, JStr "xy")]) = Ok true
  /\ read_supports (JDict [("colormode"%string, JStr "ct")]) = Ok false.
Proof. repeat split. Qed.

Example room_member_resolution :
  fst (list_lights_detailed_for_room no_repr 5 room_with_missing_light)
    = Ok [(3, Entry (JStr "Desk") false 100 true)]
  /\ List.map rq_url
       (sent (snd (list_lights_detailed_for_room no_repr 5 room_with_missing_light)))
     = ["http://10.0.0.5/api/u1/groups/5"; "http://10.0.0.5/api/u1/lights"]%string.
Proof. split; vm_compute; reflexivity. Qed.

Example hue_wraps_around :
  hue_to_native (NFloat (- (1 # 1))) = Ok 65353
  /\ hue_to_native (NInt 720) = Ok 0
  /\ hue_to_native (NFloat (- (1 # 100000000000000000000))) = Ok 65535
  /\ sat_to_native (NFloat (1234 # 10)) = Ok 254
  /\ sat_to_native (NInt (-3)) = Ok 0.
Proof. repeat split; vm_compute; reflexivity. Qed.

(* ================================================================= *)
(** * Further properties of the bridge layer *)

(** ** Configuration *)

Lemma load_config_saved (w : world) (b u : json) :
  file w = JsonFile (JDict [("bridge_ip"%string, b); ("username"%string, u)]) ->
  load_config w = (Ok [(JStr "bridge_ip", b); (JStr "username", u)], w).
Proof. intros H. unfold load_config, load_config_try. rewrite H. reflexivity. Qed.

Lemma load_config_bad_file (w : world) :
  file w = BadFile ->
  load_config w
  = (Ok [(JStr "bridge_ip", getenv w "HUE_BRIDGE_IP");
         (JStr "username", getenv w "HUE_USERNAME")], w).
Proof. intros H. unfold load_config, load_config_try. rewrite H. reflexivity. Qed.

(** X1. What [save_config] writes is what [load_config] reads.  After a
    successful [save_config(b, u)] the next [load_config] returns exactly
    [{"bridge_ip": b, "username": u}], whatever the file held before and
    whatever the environment says.  A [save_config] that fails raises
    [OSError] and leaves no half-written configuration to be read: the next
    [load_config] returns what it returned before the call when the file
    could not be opened, and the values of the environment when the file
    was opened, which empties it, before the write failed. *)
Theorem save_config_load_config_roundtrip (b u : json) (w : world) :
  exists r w',
    save_config b u w = (r, w')
    /\ environ w' = environ w /\ sent w' = sent w
    /\ match r with
       | Ok _ =>
           disk w = Writes
           /\ load_config w' = (Ok [(JStr "bridge_ip", b); (JStr "username", u)], w')
       | Raise e =>
           e = OSError /\ disk w <> Writes
           /\ (fst (load_config w') = fst (load_config w)
               \/ (file w' = BadFile
                   /\ fst (load_config w')
                      = Ok [(JStr "bridge_ip", getenv w "HUE_BRIDGE_IP");
                            (JStr "username", getenv w "HUE_USERNAME")]))
       end.
Proof.
  unfold save_config. destruct (disk w) eqn:Hdisk; eexists _, _;
    (split; [reflexivity|]); (split; [reflexivity|]); (split; [reflexivity|]).
  - split; [reflexivity|]. apply load_config_saved. reflexivity.
  - split; [reflexivity|]. split; [discriminate|]. left. reflexivity.
  - split; [reflexivity|]. split; [discriminate|]. right. split; [reflexivity|].
    rewrite load_config_bad_file by reflexivity. reflexivity.
Qed.

Lemma fold_set_lookup (k : string) (d : list (string * json)) (cfg : pydict) :
  distinct_keys d ->
  pydict_get (JStr k)
    (fold_left (fun acc kv => pydict_set (JStr (fst kv)) (snd kv) acc) d cfg)
  = match dict_lookup k d with
    | Some v => Some v
    | None => pydict_get (JStr k) cfg
    end.
Proof.
  unfold distinct_keys. revert cfg.
  induction d as [|[k1 v1] d IH]; intros cfg Hnd; [reflexivity|].
  inversion Hnd as [|? ? Hnotin Hnd']; subst.
  cbn [fold_left fst snd dict_lookup]. rewrite (IH _ Hnd').
  destruct (String.eqb k k1) eqn:E.
  - apply String.eqb_eq in E. subst k1.
    assert (Hnone : dict_lookup k d = None).
    { destruct (dict_lookup k d) as [v|] eqn:El; [| reflexivity].
      exfalso. apply Hnotin. apply dict_lookup_In in El.
      apply (List.in_map fst) in El. exact El. }
    rewrite Hnone. apply pydict_get_set_same.
  - apply String.eqb_neq in E.
    rewrite (pydict_get_set_other k k1 v1 cfg E). reflexivity.
Qed.

(** X2. A configuration file that holds a JSON object is taken as it is
    and the environment is not consulted: each of the two fields is the
    value the file gives for it, and the empty string when the file has no
    such key, even if the environment variable is set. *)
Theorem load_config_file_object (w : world) (d : list (string * json)) :
  file w = JsonFile (JDict d) -> distinct_keys d ->
  exists cfg,
    load_config w = (Ok cfg, w)
    /\ pydict_get (JStr "bridge_ip") cfg
       = Some (default (JStr EmptyString) (dict_lookup "bridge_ip" d))
    /\ pydict_get (JStr "username") cfg
       = Some (default (JStr EmptyString) (dict_lookup "username" d)).
Proof.
  intros Hfile Hd. unfold load_config, load_config_try. rewrite Hfile.
  cbn [pydict_update]. eexists. split; [reflexivity|].
  rewrite !(fold_set_lookup _ d _ Hd).
  split.
  - destruct (dict_lookup "bridge_ip" d); reflexivity.
  - destruct (dict_lookup "username" d); reflexivity.
Qed.

Lemma load_config_file_object_witness :
  environ empty_file_with_env "HUE_BRIDGE_IP" = Some "10.0.0.5"%string
  /\ exists cfg,
       load_config empty_file_with_env = (Ok cfg, empty_file_with_env)
       /\ pydict_get (JStr "bridge_ip") cfg = Some (JStr EmptyString)
       /\ pydict_get (JStr "username") cfg = Some (JStr EmptyString).
Proof.
  split; [reflexivity|].
  exact (load_config_file_object empty_file_with_env [] eq_refl (List.NoDup_nil _)).
Defined.

Section MoreClientProps.

Variable py_repr : json -> string.

(** ** Addressing *)

Lemma api_url_configured (w : world) (ip user : string) (parts : list json) :
  configured w ip user ->
  _api_url py_repr parts w
  = (Ok (api ip user (join "/" (List.map (py_str py_repr) parts))), w).
Proof.
  intros Hcfg. unfold _api_url.
  rewrite M_bind_run, (load_config_saved w (JStr ip) (JStr user) Hcfg).
  reflexivity.
Qed.

(** X3. Switching a light or a room.  With the configuration
    [{bridge_ip: ip, username: user}], [set_on] sends exactly one request,
    a PUT of [{"on": on}] to [http://ip/api/user/lights/<id>/state], and
    [set_room_on] one PUT of the same body to
    [http://ip/api/user/groups/<id>/action]; neither reads the state first.
    The call returns the answer of the bridge unchanged, raises the vendor
    error the answer carries, or raises when the transport fails. *)
Theorem set_on_request (w : world) (ip user : string) (id : Z) (on : bool) :
  configured w ip user ->
  let light := Request PUT (api ip user ("lights/" +:+ string_of_Z id +:+ "/state"))
                 (Some (JDict [("on"%string, JBool on)])) in
  let room := Request PUT (api ip user ("groups/" +:+ string_of_Z id +:+ "/action"))
                (Some (JDict [("on"%string, JBool on)])) in
  sent (snd (set_on py_repr id on w)) = sent w ++ [light]
  /\ fst (set_on py_repr id on w) = answer_of py_repr w light
  /\ sent (snd (set_room_on py_repr id on w)) = sent w ++ [room]
  /\ fst (set_room_on py_repr id on w) = answer_of py_repr w room.
Proof.
  intros Hcfg light room.
  pose proof (api_url_configured w ip user
                [JStr "lights"; JNum (NInt id); JStr "state"] Hcfg) as Hl.
  pose proof (api_url_configured w ip user
                [JStr "groups"; JNum (NInt id); JStr "action"] Hcfg) as Hr.
  unfold set_on, set_room_on.
  rewrite (put_run py_repr _ _ w _ Hl), (put_run py_repr _ _ w _ Hr).
  repeat split.
Qed.

End MoreClientProps.

Lemma set_on_request_witness :
  configured (paired_world (JList [])) "10.0.0.5" "u1"
  /\ sent (snd (set_on no_repr 3 true (paired_world (JList []))))
     = [Request PUT "http://10.0.0.5/api/u1/lights/3/state"
          (Some (JDict [("on"%string, JBool true)]))]
  /\ fst (set_on no_repr 3 true (paired_world (JList []))) = Ok (JList []).
Proof.
  split; [reflexivity|].
  pose proof (set_on_request no_repr (paired_world (JList [])) "10.0.0.5" "u1" 3 true
                eq_refl) as (H1 & H2 & _).
  split; [exact H1 | exact H2].
Defined.

(** ** The returned dicts *)

Lemma out_set_elem (k k0 : Z) (e e0 : entry) (out : outdict) :
  In (k, e) (out_set k0 e0 out) -> (k, e) = (k0, e0) \/ In (k, e) out.
Proof.
  induction out as [|[k' e'] out IH]; simpl.
  - intros [H | []]. left. congruence.
  - destruct (k0 =? k') eqn:E.
    + apply Z.eqb_eq in E. subst k'. intros [H | H]; [left; congruence | right; right; exact H].
    + intros [H | H]; [right; left; exact H|].
      destruct (IH H) as [H1 | H1]; [left; exact H1 | right; right; exact H1].
Qed.

Lemma out_set_ids (k k0 : Z) (e0 : entry) (out : outdict) :
  In k (ids_of (out_set k0 e0 out)) <-> k = k0 \/ In k (ids_of out).
Proof.
  unfold ids_of. induction out as [|[k' e'] out IH]; simpl.
  - split; [intros [H | []]; left; congruence | intros [H | []]; left; congruence].
  - destruct (k0 =? k') eqn:E; simpl.
    + apply Z.eqb_eq in E. subst k'. split; [intros [H | H]; auto | intros [H | [H | H]]; auto].
    + rewrite IH. split; [intros [H | [H | H]]; auto | intros [H | [H | H]]; auto].
Qed.

Lemma out_set_nodup (k0 : Z) (e0 : entry) (out : outdict) :
  List.NoDup (ids_of out) -> List.NoDup (ids_of (out_set k0 e0 out)).
Proof.
  unfold ids_of. induction out as [|[k' e'] out IH]; simpl; intros Hnd.
  - constructor; [intros [] | constructor].
  - inversion Hnd as [|? ? Hnotin Hnd']; subst.
    destruct (k0 =? k') eqn:E; simpl.
    + constructor; assumption.
    + constructor; [| apply IH, Hnd'].
      intros Hin. apply (out_set_ids k' k0 e0 out) in Hin.
      destruct Hin as [-> | Hin]; [rewrite Z.eqb_refl in E; discriminate | contradiction].
Qed.

Lemma ids_of_In (k : Z) (e : entry) (out : outdict) :
  In (k, e) out -> In k (ids_of out).
Proof. intros H. apply (List.in_map fst) in H. exact H. Qed.

Lemma nodup_ids_functional (k : Z) (e e' : entry) (out : outdict) :
  List.NoDup (ids_of out) -> In (k, e) out -> In (k, e') out -> e = e'.
Proof.
  unfold ids_of. induction out as [|[k1 e1] out IH]; simpl; [intros _ []|].
  intros Hnd. inversion Hnd as [|? ? Hnotin Hnd']; subst.
  intros [H1 | H1] [H2 | H2].
  - congruence.
  - injection H1 as -> ->. exfalso. apply Hnotin. exact (ids_of_In _ _ _ H2).
  - injection H2 as -> ->. exfalso. apply Hnotin. exact (ids_of_In _ _ _ H1).
  - auto.
Qed.

Section ReadProps.

Variable py_repr : json -> string.

(** ** The loop over lights *)

Lemma lights_loop_ids (items : list (string * json)) (out0 out : outdict) (k : Z) :
  lights_loop items out0 = Ok out ->
  In k (ids_of out) <-> In k (ids_of out0) \/ id_in (fun _ => True) items k.
Proof.
  revert out0. induction items as [|[lid info] rest IH]; intros out0 H; simpl in H.
  - injection H as <-. split; [auto | intros [H | (key & info & [] & _)]; exact H].
  - inv_result H. inv_result H. rewrite (IH _ H), out_set_ids. split.
    + intros [[-> | Hin] | (key & i & Hin & Hk & _)].
      * right. exists lid, info. split; [left; reflexivity | auto].
      * left; exact Hin.
      * right. exists key, i. split; [right; exact Hin | auto].
    + intros [Hin | (key & i & [Heq | Hin] & Hk & _)].
      * left; right; exact Hin.
      * injection Heq as <- <-. left; left. congruence.
      * right. exists key, i. auto.
Qed.

Lemma lights_loop_nodup (items : list (string * json)) (out0 out : outdict) :
  lights_loop items out0 = Ok out ->
  List.NoDup (ids_of out0) -> List.NoDup (ids_of out).
Proof.
  revert out0. induction items as [|[lid info] rest IH]; intros out0 H Hnd; simpl in H.
  - injection H as <-. exact Hnd.
  - inv_result H. inv_result H. apply (IH _ H). apply out_set_nodup, Hnd.
Qed.

Lemma lights_loop_keeps (items : list (string * json)) (out0 out : outdict)
    (k : Z) (e : entry) :
  lights_loop items out0 = Ok out ->
  In (k, e) out0 ->
  (forall key info, In (key, info) items -> int_of_string key <> Ok k) ->
  In (k, e) out.
Proof.
  revert out0. induction items as [|[lid info] rest IH]; intros out0 H Hin Hno;
    simpl in H.
  - injection H as <-. exact Hin.
  - inv_result H. inv_result H. apply (IH _ H).
    + apply out_set_other; [| exact Hin].
      intros ->. exact (Hno lid info (or_introl eq_refl) Hx0).
    + intros key i Hi. apply (Hno key i). right. exact Hi.
Qed.

Lemma lights_loop_app (pre rest : list (string * json)) (out0 out : outdict) :
  lights_loop (pre ++ rest) out0 = Ok out ->
  exists mid, lights_loop pre out0 = Ok mid /\ lights_loop rest mid = Ok out.
Proof.
  revert out0. induction pre as [|[lid info] pre IH]; intros out0 H; simpl in H.
  - exists out0. split; [reflexivity | exact H].
  - inv_result H. inv_result H. destruct (IH _ H) as (mid & Hpre & Hrest).
    exists mid. split; [| exact Hrest]. simpl. rewrite Hx. simpl. rewrite Hx0. exact Hpre.
Qed.

Lemma lights_loop_last (items : list (string * json)) (out0 out : outdict)
    (k : Z) (key : string) (info : json) (e : entry) :
  lights_loop items out0 = Ok out ->
  last_with_id items k key info -> light_entry key info = Ok e ->
  In (k, e) out.
Proof.
  intros H (pre & post & -> & Hk & Hno) He.
  destruct (lights_loop_app _ _ _ _ H) as (mid & _ & Hrest).
  simpl in Hrest. rewrite He in Hrest. simpl in Hrest. rewrite Hk in Hrest.
  simpl in Hrest.
  exact (lights_loop_keeps _ _ _ k e Hrest (out_set_last k e mid) Hno).
Qed.

Lemma lights_loop_elem (items : list (string * json)) (out0 out : outdict)
    (k : Z) (e : entry) :
  lights_loop items out0 = Ok out -> List.NoDup (ids_of out0) -> In (k, e) out ->
  (In (k, e) out0
   /\ forall key info, In (key, info) items -> int_of_string key <> Ok k)
  \/ exists key info, last_with_id items k key info /\ light_entry key info = Ok e.
Proof.
  revert out0. induction items as [|[lid info] rest IH]; intros out0 H Hnd Hin;
    simpl in H.
  - injection H as <-. left. split; [exact Hin | intros ? ? []].
  - inv_result H. inv_result H.
    pose proof (out_set_nodup x0 x out0 Hnd) as Hnd'.
    destruct (IH _ H Hnd' Hin) as [[Hin' Hno] | (key & i & (pre & post & -> & Hk & Hpost) & He)].
    + assert (Hhere : (k, e) = (x0, x) -> 
                exists key i, last_with_id ((lid, info) :: rest) k key i
                              /\ light_entry key i = Ok e).
      { intros [= -> ->]. exists lid, info. split; [| exact Hx].
        exists [], rest. split; [reflexivity|]. split; [exact Hx0 | exact Hno]. }
      destruct (out_set_elem _ _ _ _ _ Hin') as [Heq | Hold]; [right; auto|].
      destruct (Z.eq_dec k x0) as [-> | Hne].
      * right. apply Hhere. f_equal.
        exact (nodup_ids_functional x0 e x _ Hnd' Hin' (out_set_last x0 x out0)).
      * left. split; [exact Hold|].
        intros key i [[= <- <-] | Hi]; [congruence | exact (Hno key i Hi)].
    + right. exists key, i. split; [| exact He].
      exists ((lid, info) :: pre), post. split; [reflexivity|]. split; assumption.
Qed.

(** ** Entries of well-formed members *)

Lemma read_bri_total (s : list (string * json)) (on : bool) :
  bri_native (JDict s) ->
  exists p, read_bri (default (JNum (NInt 254)) (dict_lookup "bri" s)) on = Ok p.
Proof.
  intros Hnat. unfold read_bri.
  destruct (as_num (default (JNum (NInt 254)) (dict_lookup "bri" s))) as [n|] eqn:En;
    [| eauto].
  assert (Hin : num_in 0 254 n).
  { destruct (dict_lookup "bri" s) as [v|] eqn:Ev; simpl in En.
    - exact (Hnat s v n eq_refl Ev En).
    - injection En as <-. split; simpl; unfold Qle; simpl; lia. }
  destruct (bri_to_percent_range n Hin) as (p & Hp & _). eauto.
Qed.

Lemma read_supports_total (s : list (string * json)) :
  exists b, read_supports (JDict s) = Ok b.
Proof.
  unfold read_supports. simpl. destruct (dict_mem "hue" s); simpl; eauto.
Qed.

Lemma member_object (key : string) (d : list (string * json)) :
  object_or_absent key d ->
  member_native (JDict d) -> key = "state"%string \/ key = "action"%string ->
  exists s, default (JDict []) (dict_lookup key d) = JDict s /\ bri_native (JDict s).
Proof.
  intros [Hnone | [s Hs]] Hnat Hkey.
  - rewrite Hnone. exists []. split; [reflexivity | apply bri_native_empty].
  - rewrite Hs. exists s. split; [reflexivity|].
    apply (Hnat d (JDict s) eq_refl). destruct Hkey as [-> | ->]; auto.
Qed.

Lemma light_entry_total (label : string) (info : json) :
  well_formed_light info -> exists e, light_entry label info = Ok e.
Proof.
  intros (d & -> & Hst & Hnat).
  destruct (member_object "state" d Hst Hnat (or_introl eq_refl)) as (s & Hs & Hbri).
  unfold light_entry. cbn [py_get]. rewrite Hs. cbn [mbind result_bind py_get].
  destruct (read_bri_total s (py_bool (default (JBool false) (dict_lookup "on" s))) Hbri)
    as (p & Hp).
  rewrite Hp. cbn [mbind result_bind].
  destruct (read_supports_total s) as (b & Hb). rewrite Hb. cbn [mbind result_bind].
  eauto.
Qed.

Lemma room_entry_total (gid : string) (info : json) :
  well_formed_group info -> exists e, room_entry gid info = Ok e.
Proof.
  intros (d & -> & Hst & Hact & Hnat).
  destruct (member_object "state" d Hst Hnat (or_introl eq_refl)) as (s & Hs & _).
  destruct (member_object "action" d Hact Hnat (or_intror eq_refl)) as (a & Ha & Hbri).
  unfold room_entry. cbn [py_get]. rewrite Hs, Ha. cbn [mbind result_bind py_get room_on].
  match goal with |- context [read_bri _ ?on] =>
    destruct (read_bri_total a on Hbri) as (p & Hp); rewrite Hp end.
  cbn [mbind result_bind].
  destruct (read_supports_total a) as (b & Hb). rewrite Hb. cbn [mbind result_bind].
  eauto.
Qed.

Lemma lights_loop_total (items : list (string * json)) (out0 : outdict) :
  (forall key info, In (key, info) items ->
     (exists k, int_of_string key = Ok k) /\ well_formed_light info) ->
  exists out, lights_loop items out0 = Ok out.
Proof.
  revert out0. induction items as [|[lid info] rest IH]; intros out0 Hwf; simpl.
  - eauto.
  - destruct (Hwf lid info (or_introl eq_refl)) as [[k Hk] Hinfo].
    destruct (light_entry_total lid info Hinfo) as [e He].
    rewrite He. simpl. rewrite Hk. simpl.
    apply IH. intros key i Hi. apply Hwf. right. exact Hi.
Qed.

(** ** The loop over groups *)

Lemma is_room_typed (info : json) : is_room info = Ok true <-> typed_room info.
Proof.
  unfold is_room, typed_room. destruct info as [| | | |l|d]; simpl;
    try (split; [discriminate | intros (g & Hg & _); discriminate]).
  split.
  - intros H. exists d. split; [reflexivity|].
    destruct (dict_lookup "type" d) as [[| | |s| |]|]; simpl in H; try discriminate.
    injection H as H. apply String.eqb_eq in H. subst s. reflexivity.
  - intros (g & [= <-] & Hty). rewrite Hty. reflexivity.
Qed.

Lemma rooms_loop_ids (items : list (string * json)) (out0 out : outdict) (k : Z) :
  rooms_loop items out0 = Ok out ->
  In k (ids_of out) <-> In k (ids_of out0) \/ id_in typed_room items k.
Proof.
  revert out0. induction items as [|[gid info] rest IH]; intros out0 H; simpl in H.
  - injection H as <-. split; [auto | intros [H | (key & info & [] & _)]; exact H].
  - inv_result H. destruct x.
    + apply is_room_typed in Hx. inv_result H. inv_result H.
      rewrite (IH _ H), out_set_ids. split.
      * intros [[-> | Hin] | (key & i & Hin & Hk & Hty)].
        -- right. exists gid, info. split; [left; reflexivity | auto].
        -- left; exact Hin.
        -- right. exists key, i. split; [right; exact Hin | auto].
      * intros [Hin | (key & i & [Heq | Hin] & Hk & Hty)].
        -- left; right; exact Hin.
        -- injection Heq as <- <-. left; left. congruence.
        -- right. exists key, i. auto.
    + rewrite (IH _ H). split.
      * intros [Hin | (key & i & Hin & Hk & Hty)]; [left; exact Hin|].
        right. exists key, i. split; [right; exact Hin | auto].
      * intros [Hin | (key & i & [Heq | Hin] & Hk & Hty)]; [left; exact Hin | |].
        -- injection Heq as <- <-. apply is_room_typed in Hty. congruence.
        -- right. exists key, i. auto.
Qed.

Lemma rooms_loop_nodup (items : list (string * json)) (out0 out : outdict) :
  rooms_loop items out0 = Ok out ->
  List.NoDup (ids_of out0) -> List.NoDup (ids_of out).
Proof.
  revert out0. induction items as [|[gid info] rest IH]; intros out0 H Hnd; simpl in H.
  - injection H as <-. exact Hnd.
  - inv_result H. destruct x.
    + inv_result H. inv_result H. apply (IH _ H). apply out_set_nodup, Hnd.
    + exact (IH _ H Hnd).
Qed.

Lemma rooms_loop_elem (items : list (string * json)) (out0 out : outdict)
    (k : Z) (e : entry) :
  rooms_loop items out0 = Ok out -> In (k, e) out ->
  In (k, e) out0
  \/ exists gid info,
       In (gid, info) items /\ typed_room info
       /\ int_of_string gid = Ok k /\ room_entry gid info = Ok e.
Proof.
  revert out0. induction items as [|[gid info] rest IH]; intros out0 H Hin; simpl in H.
  - injection H as <-. left. exact Hin.
  - inv_result H. destruct x.
    + apply is_room_typed in Hx. inv_result H. inv_result H.
      destruct (IH _ H Hin) as [Hin' | (g & i & Hgi & Hty & Hk & He)].
      * destruct (out_set_elem _ _ _ _ _ Hin') as [[= -> ->] | Hold]; [| left; exact Hold].
        right. exists gid, info. split; [left; reflexivity | auto].
      * right. exists g, i. split; [right; exact Hgi | auto].
    + destruct (IH _ H Hin) as [Hin' | (g & i & Hgi & Hty & Hk & He)]; [left; exact Hin'|].
      right. exists g, i. split; [right; exact Hgi | auto].
Qed.

Lemma rooms_loop_total (items : list (string * json)) (out0 : outdict) :
  (forall key info, In (key, info) items ->
     (exists k, int_of_string key = Ok k) /\ well_formed_group info) ->
  exists out, rooms_loop items out0 = Ok out.
Proof.
  revert out0. induction items as [|[gid info] rest IH]; intros out0 Hwf; simpl.
  - eauto.
  - destruct (Hwf gid info (or_introl eq_refl)) as [[k Hk] Hinfo].
    assert (Hrest : forall out1, exists out, rooms_loop rest out1 = Ok out).
    { intros out1. apply IH. intros key i Hi. apply Hwf. right. exact Hi. }
    destruct (room_entry_total gid info Hinfo) as [e He].
    destruct Hinfo as (d & -> & _). unfold is_room. cbn [py_get mbind result_bind].
    match goal with |- context [if ?b then _ else _] => destruct b end.
    + rewrite He. simpl. rewrite Hk. simpl. apply Hrest.
    + apply Hrest.
Qed.

(** ** The listings *)

Lemma listing_run {A} (parts : list json) (f : json -> result A) (w w' : world) (a : A) :
  (u ← _api_url py_repr parts; data ← http GET u None; lift (f data)) w = (Ok a, w') ->
  exists url data,
    _api_url py_repr parts w = (Ok url, w)
    /\ sent w' = sent w ++ [Request GET url None]
    /\ bridge w (sent w) (Request GET url None) = Some data
    /\ f data = Ok a.
Proof.
  intros Hrun. destruct (api_url_total py_repr parts w) as [url Hurl].
  rewrite (get_run py_repr _ _ w url Hurl) in Hrun.
  destruct (bridge w (sent w) _) as [data|] eqn:Hb.
  - injection Hrun as Hf <-. exists url, data. auto.
  - discriminate.
Qed.

Lemma payload_items {A} (data : json) (f : list (string * json) -> result A) (a : A) :
  (_ ← _raise_if_error py_repr data; items ← py_items data; f items) = Ok a ->
  exists items, data = JDict items /\ dict_lookup "error" items = None /\ f items = Ok a.
Proof.
  intros H. inv_result H. inv_result H.
  destruct data; try discriminate. injection Hx0 as <-.
  exists d. split; [reflexivity|]. split; [| exact H].
  simpl in Hx. destruct (dict_lookup "error" d) eqn:E; [| reflexivity].
  destruct (raise_hue_error_raises py_repr (A := json) j) as [e He]. congruence.
Qed.

(** X4. What [list_lights_detailed] returns.  A call that returns sent
    one request, a GET of [lights], and got an object without an [error]
    key; the returned dict has each id once, and its entry for the id [k] is
    the one built from the last member of the payload whose key denotes [k]
    (two keys such as ["1"] and [" 1"] denote the same id: the later one
    wins). *)
Theorem list_lights_detailed_entries (w w' : world) (out : outdict) :
  list_lights_detailed py_repr w = (Ok out, w') ->
  exists url items,
    _api_url py_repr [JStr "lights"] w = (Ok url, w)
    /\ sent w' = sent w ++ [Request GET url None]
    /\ bridge w (sent w) (Request GET url None) = Some (JDict items)
    /\ dict_lookup "error" items = None
    /\ List.NoDup (ids_of out)
    /\ forall k e,
         In (k, e) out <->
         exists key info, last_with_id items k key info /\ light_entry key info = Ok e.
Proof.
  intros Hrun. apply listing_run in Hrun.
  destruct Hrun as (url & data & Hurl & Hsent & Hb & Hpay).
  apply payload_items in Hpay. destruct Hpay as (items & -> & Herr & Hloop).
  exists url, items. repeat split; try assumption.
  - apply (lights_loop_nodup _ _ _ Hloop). constructor.
  - intros Hin.
    destruct (lights_loop_elem _ _ _ k e Hloop (List.NoDup_nil _) Hin) as [[[] _] | H].
    exact H.
  - intros (key & info & Hlast & He). exact (lights_loop_last _ _ _ _ _ _ _ Hloop Hlast He).
Qed.

(** X5. [list_lights_detailed] succeeds on every payload of the documented
    shape (an object without [error], decimal keys, each light an object
    whose [state] is absent or an object with a [bri] in the native range
    when it is a number), and returns an entry for every light of the
    payload and for nothing else. *)
Theorem list_lights_detailed_well_formed (w : world) (ip user : string)
    (data : json) (items : list (string * json)) :
  configured w ip user ->
  bridge w (sent w) (Request GET (api ip user "lights") None) = Some data ->
  well_formed_payload well_formed_light data items ->
  exists out,
    fst (list_lights_detailed py_repr w) = Ok out
    /\ forall k, In k (ids_of out) <-> id_in (fun _ => True) items k.
Proof.
  intros Hcfg Hb (-> & Herr & Hwf).
  unfold list_lights_detailed.
  rewrite (get_run py_repr _ _ w _ (api_url_configured py_repr w ip user _ Hcfg)).
  cbn [List.map join py_str]. 
  change (api ip user (join "/" ["lights"%string])) with (api ip user "lights").
  rewrite Hb. cbn [fst]. unfold lights_of_payload. cbn [_raise_if_error].
  rewrite Herr. cbn [mbind result_bind py_items].
  destruct (lights_loop_total items [] Hwf) as [out Hout].
  exists out. split; [exact Hout|].
  intros k. rewrite (lights_loop_ids _ _ _ k Hout). simpl. tauto.
Qed.

(** X6. What [list_rooms_detailed] returns.  A call that returns sent one
    request, a GET of [groups]; the returned dict has each id once, its ids
    are exactly those of the groups whose [type] is the string ["Room"]
    (a zone, or a group without a type, is left out), and every entry is
    built from such a group. *)
Theorem list_rooms_detailed_rooms_only (w w' : world) (out : outdict) :
  list_rooms_detailed py_repr w = (Ok out, w') ->
  exists url items,
    _api_url py_repr [JStr "groups"] w = (Ok url, w)
    /\ sent w' = sent w ++ [Request GET url None]
    /\ bridge w (sent w) (Request GET url None) = Some (JDict items)
    /\ List.NoDup (ids_of out)
    /\ (forall k, In k (ids_of out) <-> id_in typed_room items k)
    /\ forall k e,
         In (k, e) out ->
         exists gid info,
           In (gid, info) items /\ typed_room info
           /\ int_of_string gid = Ok k /\ room_entry gid info = Ok e.
Proof.
  intros Hrun. apply listing_run in Hrun.
  destruct Hrun as (url & data & Hurl & Hsent & Hb & Hpay).
  apply payload_items in Hpay. destruct Hpay as (items & -> & Herr & Hloop).
  exists url, items. split; [exact Hurl|]. split; [exact Hsent|].
  split; [exact Hb|]. split; [| split].
  - apply (rooms_loop_nodup _ _ _ Hloop). constructor.
  - intros k. rewrite (rooms_loop_ids _ _ _ k Hloop). simpl. tauto.
  - intros k e Hin. destruct (rooms_loop_elem _ _ _ k e Hloop Hin) as [[] | H]. exact H.
Qed.

(** X7. [list_rooms_detailed] succeeds on every payload of the documented
    shape: an object without [error] and with decimal keys, each group an
    object whose [state] and [action] are absent or objects, with a [bri] in
    the native range when it is a number. *)
Theorem list_rooms_detailed_well_formed (w : world) (ip user : string)
    (data : json) (items : list (string * json)) :
  configured w ip user ->
  bridge w (sent w) (Request GET (api ip user "groups") None) = Some data ->
  well_formed_payload well_formed_group data items ->
  exists out,
    fst (list_rooms_detailed py_repr w) = Ok out
    /\ forall k, In k (ids_of out) <-> id_in typed_room items k.
Proof.
  intros Hcfg Hb (-> & Herr & Hwf).
  unfold list_rooms_detailed.
  rewrite (get_run py_repr _ _ w _ (api_url_configured py_repr w ip user _ Hcfg)).
  cbn [List.map join py_str].
  change (api ip user (join "/" ["groups"%string])) with (api ip user "groups").
  rewrite Hb. cbn [fst]. unfold rooms_of_payload. cbn [_raise_if_error].
  rewrite Herr. cbn [mbind result_bind py_items].
  destruct (rooms_loop_total items [] Hwf) as [out Hout].
  exists out. split; [exact Hout|].
  intros k. rewrite (rooms_loop_ids _ _ _ k Hout). simpl. tauto.
Qed.

End ReadProps.

Lemma list_lights_detailed_entries_witness :
  fst (list_lights_detailed no_repr (paired_world twice_light_one))
  = Ok [(1, Entry (JStr "second") false 100 false);
        (2, Entry (JStr "other") false 100 false)]
  /\ exists url items,
       _api_url no_repr [JStr "lights"] (paired_world twice_light_one)
       = (Ok url, paired_world twice_light_one)
       /\ sent (snd (list_lights_detailed no_repr (paired_world twice_light_one)))
          = sent (paired_world twice_light_one) ++ [Request GET url None]
       /\ bridge (paired_world twice_light_one) (sent (paired_world twice_light_one))
            (Request GET url None) = Some (JDict items)
       /\ dict_lookup "error" items = None
       /\ List.NoDup (ids_of [(1, Entry (JStr "second") false 100 false);
                              (2, Entry (JStr "other") false 100 false)])
       /\ forall k e,
            In (k, e) [(1, Entry (JStr "second") false 100 false);
                       (2, Entry (JStr "other") false 100 false)] <->
            exists key info, last_with_id items k key info /\ light_entry key info = Ok e.
Proof.
  split; [vm_compute; reflexivity|].
  apply (list_lights_detailed_entries no_repr (paired_world twice_light_one)).
  vm_compute. reflexivity.
Defined.

Lemma one_light_well_formed (b : Z) :
  0 <= b <= 254 ->
  well_formed_payload well_formed_light (one_light b)
    [("1"%string,
      JDict [("state"%string,
              JDict [("on"%string, JBool true); ("bri"%string, JNum (NInt b))])])].
Proof.
  intros Hb. split; [reflexivity|]. split; [reflexivity|].
  intros key info [[= <- <-] | []]. split; [exists 1; reflexivity|].
  eexists. split; [reflexivity|]. split; [right; eexists; reflexivity|].
  exact (one_light_native b Hb _ "1"%string _ eq_refl (or_introl eq_refl)).
Qed.

Lemma list_lights_detailed_well_formed_witness :
  exists out,
    fst (list_lights_detailed no_repr (paired_world (one_light 127))) = Ok out
    /\ forall k, In k (ids_of out)
                 <-> id_in (fun _ => True)
                       [("1"%string,
                         JDict [("state"%string,
                                 JDict [("on"%string, JBool true);
                                        ("bri"%string, JNum (NInt 127))])])] k.
Proof.
  apply (list_lights_detailed_well_formed no_repr (paired_world (one_light 127))
           "10.0.0.5" "u1" (one_light 127)).
  - reflexivity.
  - reflexivity.
  - apply one_light_well_formed. lia.
Defined.

Lemma list_rooms_detailed_rooms_only_witness :
  fst (list_rooms_detailed no_repr (paired_world room_and_zone))
  = Ok [(1, Entry (JStr "Kitchen") false 100 false)]
  /\ exists url items,
       _api_url no_repr [JStr "groups"] (paired_world room_and_zone)
       = (Ok url, paired_world room_and_zone)
       /\ sent (snd (list_rooms_detailed no_repr (paired_world room_and_zone)))
          = sent (paired_world room_and_zone) ++ [Request GET url None]
       /\ bridge (paired_world room_and_zone) (sent (paired_world room_and_zone))
            (Request GET url None) = Some (JDict items)
       /\ List.NoDup (ids_of [(1, Entry (JStr "Kitchen") false 100 false)])
       /\ (forall k, In k (ids_of [(1, Entry (JStr "Kitchen") false 100 false)])
                     <-> id_in typed_room items k)
       /\ forall k e,
            In (k, e) [(1, Entry (JStr "Kitchen") false 100 false)] ->
            exists gid info,
              In (gid, info) items /\ typed_room info
              /\ int_of_string gid = Ok k /\ room_entry gid info = Ok e.
Proof.
  split; [vm_compute; reflexivity|].
  apply (list_rooms_detailed_rooms_only no_repr (paired_world room_and_zone)).
  vm_compute. reflexivity.
Defined.

Lemma lit_room_well_formed :
  well_formed_payload well_formed_group (JDict [("7"%string, JDict lit_room)])
    [("7"%string, JDict lit_room)].
Proof.
  split; [reflexivity|]. split; [reflexivity|].
  intros key info [[= <- <-] | []]. split; [exists 7; reflexivity|].
  exists lit_room. split; [reflexivity|].
  split; [right; eexists; reflexivity|]. split; [right; eexists; reflexivity|].
  intros d obj [= <-] [[= <-] | [= <-]] d' v n [= <-] Hv Hn.
  - discriminate Hv.
  - injection Hv as <-. injection Hn as <-. split; unfold Qle; simpl; lia.
Qed.

Lemma list_rooms_detailed_well_formed_witness :
  exists out,
    fst (list_rooms_detailed no_repr (paired_world (JDict [("7"%string, JDict lit_room)])))
    = Ok out
    /\ forall k, In k (ids_of out) <-> id_in typed_room [("7"%string, JDict lit_room)] k.
Proof.
  apply (list_rooms_detailed_well_formed no_repr
           (paired_world (JDict [("7"%string, JDict lit_room)])) "10.0.0.5" "u1"
           (JDict [("7"%string, JDict lit_room)])).
  - reflexivity.
  - reflexivity.
  - apply lit_room_well_formed.
Defined.

Section RoomMembers.

Variable py_repr : json -> string.

(** ** The lights of a room *)

Lemma load_config_after (w : world) (rqs : list request) :
  load_config (after w rqs) = (fst (load_config w), after w rqs).
Proof.
  unfold load_config, load_config_try, env_fallback, getenv, after. cbn [file environ].
  destruct (file w) as [| |content]; [reflexivity | reflexivity |].
  destruct (pydict_update _ content) as [cfg' [u|e]]; reflexivity.
Qed.

Lemma api_url_after (parts : list json) (w : world) (rqs : list request) (url : string) :
  _api_url py_repr parts w = (Ok url, w) ->
  _api_url py_repr parts (after w rqs) = (Ok url, after w rqs).
Proof.
  unfold _api_url. rewrite !M_bind_run, load_config_after.
  destruct (load_config_total w) as (cfg & Hcfg & _). rewrite Hcfg. cbn [fst].
  rewrite !M_bind_run. unfold lift.
  destruct (pydict_get (JStr "bridge_ip") cfg) as [b|]; [| discriminate].
  rewrite !M_bind_run. 
  destruct (pydict_get (JStr "username") cfg) as [u|]; [| discriminate].
  intros [= <-]. reflexivity.
Qed.

Lemma room_lights_loop_ids (all_lights : json) (ids : list Z) (out0 out : outdict) (k : Z) :
  room_lights_loop all_lights ids out0 = Ok out ->
  In k (ids_of out) <-> In k (ids_of out0) \/ (In k ids /\ known_light all_lights k).
Proof.
  revert out0. induction ids as [|lid rest IH]; intros out0 H; simpl in H.
  - injection H as <-. split; [auto | intros [H | [[] _]]; exact H].
  - inv_result H. destruct (py_bool x) eqn:Hb.
    + inv_result H. rewrite (IH _ H), out_set_ids. split.
      * intros [[-> | Hin] | [Hin Hk]].
        -- right. split; [left; reflexivity | exists x; auto].
        -- left; exact Hin.
        -- right. split; [right; exact Hin | exact Hk].
      * intros [Hin | [[<- | Hin] Hk]]; [left; right; exact Hin | left; left; reflexivity |].
        right. auto.
    + rewrite (IH _ H). split.
      * intros [Hin | [Hin Hk]]; [left; exact Hin | right; split; [right; exact Hin | exact Hk]].
      * intros [Hin | [[<- | Hin] Hk]]; [left; exact Hin | | right; auto].
        destruct Hk as (info & Hi & Hbi). congruence.
Qed.

Lemma room_lights_loop_nodup (all_lights : json) (ids : list Z) (out0 out : outdict) :
  room_lights_loop all_lights ids out0 = Ok out ->
  List.NoDup (ids_of out0) -> List.NoDup (ids_of out).
Proof.
  revert out0. induction ids as [|lid rest IH]; intros out0 H Hnd; simpl in H.
  - injection H as <-. exact Hnd.
  - inv_result H. destruct (py_bool x).
    + inv_result H. apply (IH _ H). apply out_set_nodup, Hnd.
    + exact (IH _ H Hnd).
Qed.

Lemma room_lights_loop_elem (all_lights : json) (ids : list Z) (out0 out : outdict)
    (k : Z) (e : entry) :
  room_lights_loop all_lights ids out0 = Ok out -> In (k, e) out ->
  In (k, e) out0 \/ (In k ids /\ entry_in all_lights k e).
Proof.
  revert out0. induction ids as [|lid rest IH]; intros out0 H Hin; simpl in H.
  - injection H as <-. left. exact Hin.
  - inv_result H. destruct (py_bool x) eqn:Hb.
    + inv_result H. destruct (IH _ H Hin) as [Hin' | [Hk He]].
      * destruct (out_set_elem _ _ _ _ _ Hin') as [[= -> ->] | Hold]; [| left; exact Hold].
        right. split; [left; reflexivity | exists x; auto].
      * right. split; [right; exact Hk | exact He].
    + destruct (IH _ H Hin) as [Hin' | [Hk He]]; [left; exact Hin'|].
      right. split; [right; exact Hk | exact He].
Qed.

Lemma for_room_nodup (room_id : Z) (w w' : world) (out : outdict) :
  list_lights_detailed_for_room py_repr room_id w = (Ok out, w') ->
  List.NoDup (ids_of out).
Proof.
  intros Hrun. unfold list_lights_detailed_for_room in Hrun.
  apply M_bind_ok in Hrun. destruct Hrun as (url & w1 & _ & Hrun).
  apply M_bind_ok in Hrun. destruct Hrun as (group & w2 & _ & Hrun).
  apply M_bind_ok in Hrun. destruct Hrun as (ids & w3 & _ & Hrun).
  destruct ids as [|i ids].
  - injection Hrun as <- _. constructor.
  - apply M_bind_ok in Hrun. destruct Hrun as (url' & w4 & _ & Hrun).
    apply M_bind_ok in Hrun. destruct Hrun as (all_lights & w5 & _ & Hrun).
    injection Hrun as Hpay _. unfold room_lights_of_payload in Hpay. inv_result Hpay.
    apply (room_lights_loop_nodup _ _ _ _ Hpay). constructor.
Qed.

(** X8. What [list_lights_detailed_for_room] returns.  The call first
    GETs the group.  When the group names no light ([lights] absent or
    empty) the result is the empty dict and no second request is sent.
    Otherwise it GETs all lights; the returned dict has each id once, its
    ids are exactly the ids of the room for which the lights payload has a
    truthy member under [str(id)] (a light the bridge does not list is
    left out, not an error), and each entry is built from that member. *)
Theorem list_lights_detailed_for_room_members (room_id : Z) (w w' : world)
    (out : outdict) :
  list_lights_detailed_for_room py_repr room_id w = (Ok out, w') ->
  exists url url' group ids,
    _api_url py_repr [JStr "groups"; JNum (NInt room_id)] w = (Ok url, w)
    /\ _api_url py_repr [JStr "lights"] w = (Ok url', w)
    /\ bridge w (sent w) (Request GET url None) = Some group
    /\ room_light_ids py_repr group = Ok ids
    /\ List.NoDup (ids_of out)
    /\ (ids = [] -> out = [] /\ sent w' = sent w ++ [Request GET url None])
    /\ (ids <> [] ->
        exists all_lights,
          sent w' = sent w ++ [Request GET url None; Request GET url' None]
          /\ bridge w (sent w ++ [Request GET url None]) (Request GET url' None)
             = Some all_lights
          /\ (forall k, In k (ids_of out) <-> In k ids /\ known_light all_lights k)
          /\ forall k e, In (k, e) out -> In k ids /\ entry_in all_lights k e).
Proof.
  intros Hrun. unfold list_lights_detailed_for_room in Hrun.
  destruct (api_url_total py_repr [JStr "groups"; JNum (NInt room_id)] w) as [url Hurl].
  destruct (api_url_total py_repr [JStr "lights"] w) as [url' Hurl'].
  rewrite M_bind_run, Hurl, M_bind_run, http_run in Hrun. cbv zeta in Hrun.
  destruct (bridge w (sent w) (Request GET url None)) as [group|] eqn:Hb; [| discriminate].
  rewrite M_bind_run in Hrun. unfold lift at 1 in Hrun.
  destruct (room_light_ids py_repr group) as [ids|] eqn:Hids; [| discriminate].
  exists url, url', group, ids.
  split; [exact Hurl|]. split; [exact Hurl'|]. split; [exact Hb|].
  split; [exact Hids|].
  fold (after w [Request GET url None]) in Hrun.
  destruct ids as [|i ids].
  - injection Hrun as <- <-. split; [constructor|]. split; [auto | congruence].
  - rewrite (get_run py_repr _ _ _ url' (api_url_after _ w _ url' Hurl')) in Hrun.
    cbn [after bridge sent file disk environ] in Hrun.
    destruct (bridge w (sent w ++ [Request GET url None]) (Request GET url' None))
      as [all_lights|] eqn:Hb'; [| discriminate].
    injection Hrun as Hpay <-. cbn [sent].
    unfold room_lights_of_payload in Hpay. inv_result Hpay.
    split; [apply (room_lights_loop_nodup _ _ _ _ Hpay); constructor|].
    split; [discriminate|]. intros _. exists all_lights.
    split; [rewrite <- app_assoc; reflexivity|]. split; [reflexivity|]. split.
    + intros k. rewrite (room_lights_loop_ids _ _ _ _ k Hpay). simpl. tauto.
    + intros k e Hin.
      destruct (room_lights_loop_elem _ _ _ _ k e Hpay Hin) as [[] | H]. exact H.
Qed.

End RoomMembers.

Lemma list_lights_detailed_for_room_members_witness :
  fst (list_lights_detailed_for_room no_repr 5 room_with_missing_light)
  = Ok [(3, Entry (JStr "Desk") false 100 true)]
  /\ exists url url' group ids,
       _api_url no_repr [JStr "groups"; JNum (NInt 5)] room_with_missing_light
       = (Ok url, room_with_missing_light)
       /\ _api_url no_repr [JStr "lights"] room_with_missing_light
          = (Ok url', room_with_missing_light)
       /\ bridge room_with_missing_light (sent room_with_missing_light)
            (Request GET url None) = Some group
       /\ room_light_ids no_repr group = Ok ids
       /\ List.NoDup (ids_of [(3, Entry (JStr "Desk") false 100 true)])
       /\ (ids = [] ->
           [(3, Entry (JStr "Desk") false 100 true)] = []
           /\ sent (snd (list_lights_detailed_for_room no_repr 5 room_with_missing_light))
              = sent room_with_missing_light ++ [Request GET url None])
       /\ (ids <> [] ->
           exists all_lights,
             sent (snd (list_lights_detailed_for_room no_repr 5 room_with_missing_light))
             = sent room_with_missing_light
               ++ [Request GET url None; Request GET url' None]
             /\ bridge room_with_missing_light
                  (sent room_with_missing_light ++ [Request GET url None])
                  (Request GET url' None) = Some all_lights
             /\ (forall k, In k (ids_of [(3, Entry (JStr "Desk") false 100 true)])
                           <-> In k ids /\ known_light all_lights k)
             /\ forall k e,
                  In (k, e) [(3, Entry (JStr "Desk") false 100 true)] ->
                  In k ids /\ entry_in all_lights k e).
Proof.
  split; [vm_compute; reflexivity|].
  apply (list_lights_detailed_for_room_members no_repr 5 room_with_missing_light).
  vm_compute. reflexivity.
Defined.

(** ** The conversions *)

Lemma roundtrip_exact_all (p : Z) : 1 <= p <= 100 -> roundtrip_exact p = true.
Proof.
  intros Hp. apply (zrange_forall roundtrip_exact 1 100); [| lia].
  vm_compute. reflexivity.
Qed.

(** X9. The brightness round trip is exact.  For every integer percentage
    [p] from 1 to 100, the native value [set_brightness] writes lies between
    3 and 254 (the lower clamp [max(1, ...)] never takes effect), and the
    read conversion of that value gives [p] itself back, not only a value
    within one of it. *)
Theorem brightness_roundtrip_exact (p : Z) :
  1 <= p <= 100 ->
  exists b,
    percent_to_bri (clamp_percent (NInt p)) = Ok b
    /\ 3 <= b <= 254
    /\ forall on, read_bri (JNum (NInt b)) on = Ok p.
Proof.
  intros Hp. pose proof (roundtrip_exact_all p Hp) as H. unfold roundtrip_exact in H.
  replace (clamp_percent (NInt p)) with p by (unfold clamp_percent; simpl; lia).
  destruct (percent_to_bri p) as [b|] eqn:E1; [| discriminate].
  destruct (bri_to_percent (NInt b)) as [p'|] eqn:E2; [| discriminate].
  apply andb_prop in H. destruct H as [H H3].
  apply andb_prop in H. destruct H as [H1 H2].
  apply Z.leb_le in H1, H2. apply Z.eqb_eq in H3. subst p'.
  exists b. split; [reflexivity|]. split; [lia|].
  intros on. exact E2.
Qed.

Lemma brightness_roundtrip_exact_witness :
  exists b,
    percent_to_bri (clamp_percent (NInt 50)) = Ok b
    /\ 3 <= b <= 254
    /\ forall on, read_bri (JNum (NInt b)) on = Ok 50.
Proof. apply (brightness_roundtrip_exact 50). lia. Defined.

Lemma write_step_all (p : Z) : 1 <= p < 100 -> write_step p = true.
Proof.
  intros Hp. apply (zrange_forall write_step 1 99); [| lia].
  vm_compute. reflexivity.
Qed.

Lemma percent_to_bri_steps (n : nat) (p : Z) :
  1 <= p -> p + Z.of_nat n <= 100 ->
  exists b c,
    percent_to_bri p = Ok b /\ percent_to_bri (p + Z.of_nat n) = Ok c
    /\ b + 2 * Z.of_nat n <= c <= b + 3 * Z.of_nat n.
Proof.
  intros Hp. induction n as [|n IH]; intros Hq.
  - destruct (percent_to_bri_total p) as (b & _ & Hb & _); [lia|].
    exists b, b. rewrite Z.add_0_r. split; [exact Hb|]. split; [exact Hb | lia].
  - destruct IH as (b & c & Hb & Hc & Hbc); [lia|].
    pose proof (write_step_all (p + Z.of_nat n)) as Hs. unfold write_step in Hs.
    rewrite Hc in Hs.
    replace (p + Z.of_nat (S n)) with (p + Z.of_nat n + 1) by lia.
    destruct (percent_to_bri (p + Z.of_nat n + 1)) as [c'|]; [| discriminate Hs; lia].
    specialize (Hs ltac:(lia)). apply andb_prop in Hs. destruct Hs as [H1 H2].
    apply Z.leb_le in H1, H2.
    exists b, c'. split; [exact Hb|]. split; [reflexivity | lia].
Qed.

(** X10. The write conversion is strictly increasing: of two integer
    percentages from 1 to 100 the larger is written as the larger native
    brightness, and the two native values differ by at least twice and at
    most three times the difference of the percentages, so that no two
    positions of the slider are written as the same value. *)
Theorem percent_to_bri_increasing (p q : Z) :
  1 <= p -> p < q -> q <= 100 ->
  exists b c,
    percent_to_bri p = Ok b /\ percent_to_bri q = Ok c
    /\ b < c /\ 2 * (q - p) <= c - b <= 3 * (q - p).
Proof.
  intros Hp Hpq Hq.
  destruct (percent_to_bri_steps (Z.to_nat (q - p)) p Hp) as (b & c & Hb & Hc & Hbc);
    [lia|].
  replace (p + Z.of_nat (Z.to_nat (q - p))) with q in Hc by lia.
  exists b, c. split; [exact Hb|]. split; [exact Hc|]. lia.
Qed.

Lemma percent_to_bri_increasing_witness :
  exists b c,
    percent_to_bri 1 = Ok b /\ percent_to_bri 100 = Ok c
    /\ b < c /\ 2 * (100 - 1) <= c - b <= 3 * (100 - 1).
Proof. apply (percent_to_bri_increasing 1 100); lia. Defined.

Lemma read_step_all (b : Z) : 0 <= b < 254 -> read_step b = true.
Proof.
  intros Hb. apply (zrange_forall read_step 0 254); [| lia].
  vm_compute. reflexivity.
Qed.

Lemma bri_to_percent_steps (n : nat) (a : Z) :
  0 <= a -> a + Z.of_nat n <= 254 ->
  exists p q,
    bri_to_percent (NInt a) = Ok p /\ bri_to_percent (NInt (a + Z.of_nat n)) = Ok q
    /\ p <= q <= p + Z.of_nat n.
Proof.
  intros Ha. induction n as [|n IH]; intros Hb.
  - destruct (bri_to_percent_range (NInt a)) as (p & Hp & _).
    { split; simpl; unfold Qle; simpl; lia. }
    exists p, p. rewrite Z.add_0_r. split; [exact Hp|]. split; [exact Hp | lia].
  - destruct IH as (p & q & Hp & Hq & Hpq); [lia|].
    pose proof (read_step_all (a + Z.of_nat n)) as Hs. unfold read_step in Hs.
    rewrite Hq in Hs.
    replace (a + Z.of_nat (S n)) with (a + Z.of_nat n + 1) by lia.
    destruct (bri_to_percent (NInt (a + Z.of_nat n + 1))) as [q'|].
    2:{ specialize (Hs ltac:(lia)). discriminate Hs. }
    specialize (Hs ltac:(lia)). apply andb_prop in Hs. destruct Hs as [H1 H2].
    apply Z.leb_le in H1, H2.
    exists p, q'. split; [exact Hp|]. split; [reflexivity | lia].
Qed.

(** X11. The read conversion is monotone on the native range: of two
    integer native values from 0 to 254 the larger is never reported as the
    smaller percentage; 0 is reported as 0 and 254 as 100. *)
Theorem bri_to_percent_monotone (a b : Z) :
  0 <= a -> a <= b -> b <= 254 ->
  exists p q,
    bri_to_percent (NInt a) = Ok p /\ bri_to_percent (NInt b) = Ok q
    /\ p <= q <= p + (b - a)
    /\ bri_to_percent (NInt 0) = Ok 0 /\ bri_to_percent (NInt 254) = Ok 100.
Proof.
  intros Ha Hab Hb.
  destruct (bri_to_percent_steps (Z.to_nat (b - a)) a Ha) as (p & q & Hp & Hq & Hpq);
    [lia|].
  replace (a + Z.of_nat (Z.to_nat (b - a))) with b in Hq by lia.
  exists p, q. split; [exact Hp|]. split; [exact Hq|]. split; [lia|].
  split; vm_compute; reflexivity.
Qed.

Lemma bri_to_percent_monotone_witness :
  exists p q,
    bri_to_percent (NInt 1) = Ok p /\ bri_to_percent (NInt 200) = Ok q
    /\ p <= q <= p + (200 - 1)
    /\ bri_to_percent (NInt 0) = Ok 0 /\ bri_to_percent (NInt 254) = Ok 100.
Proof. apply (bri_to_percent_monotone 1 200); lia. Defined.

Lemma py_lt_spec (a b : num) : py_lt a b = true <-> (num_val a < num_val b)%Q.
Proof.
  unfold py_lt. rewrite Bool.negb_true_iff.
  destruct (Qle_bool (num_val b) (num_val a)) eqn:E.
  - apply Qle_bool_iff in E. split; [discriminate | intros H; exfalso; lra].
  - split; [intros _ | reflexivity].
    apply Qnot_le_lt. intros H. apply Qle_bool_iff in H. congruence.
Qed.

Lemma py_int_below_one (percent : num) :
  py_int percent <= 0 <-> (num_val percent < 1)%Q.
Proof.
  destruct percent as [z | [n d]]; simpl.
  - unfold Qlt. simpl. lia.
  - unfold Qlt. simpl. rewrite Z.mul_1_r. split.
    + intros H. destruct (Z_lt_le_dec n (Z.pos d)) as [Hlt | Hge]; [exact Hlt|].
      exfalso. assert (1 <= Z.quot n (Z.pos d)); [| lia].
      apply Z.quot_le_lower_bound; lia.
    + intros H. destruct (Z_lt_le_dec n 0) as [Hneg | Hpos].
      * assert (Z.quot n (Z.pos d) <= 0); [| lia].
        apply Z.quot_le_upper_bound; lia.
      * rewrite Z.quot_small; lia.
Qed.

Section WriteProps.

Variable py_repr : json -> string.

(** X12. A brightness below one percent switches off.  [int(percent)]
    truncates, so every percentage below 1 (0.9 as well as 0 and every
    negative number) is clamped to 0, and [set_brightness] and
    [set_room_brightness] are then the on/off call with [False]; a
    percentage of at least 1 is clamped to at least 1. *)
Theorem set_brightness_below_one (id : Z) (percent : num) (w : world) :
  (clamp_percent percent <= 0 <-> (num_val percent < 1)%Q)
  /\ ((num_val percent < 1)%Q ->
      set_brightness py_repr id percent w = set_on py_repr id false w
      /\ set_room_brightness py_repr id percent w = set_room_on py_repr id false w).
Proof.
  assert (Hiff : clamp_percent percent <= 0 <-> (num_val percent < 1)%Q).
  { rewrite <- py_int_below_one. unfold clamp_percent. lia. }
  split; [exact Hiff|].
  intros Hlt. apply Hiff in Hlt. apply Z.leb_le in Hlt.
  unfold set_brightness, set_room_brightness. cbv zeta. rewrite Hlt. split; reflexivity.
Qed.

(** X13. The hue is periodic in whole turns.  For an integer number of
    degrees [d] and any integer [k], [d + 360 k] is converted to the same
    native hue as [d], and [set_color_hs] and [set_room_color_hs] do with it
    exactly what they do with [d]. *)
Theorem hue_to_native_periodic (id d k : Z) (sat_percent : num) (w : world) :
  hue_to_native (NInt (d + 360 * k)) = hue_to_native (NInt d)
  /\ set_color_hs py_repr id (NInt (d + 360 * k)) sat_percent w
     = set_color_hs py_repr id (NInt d) sat_percent w
  /\ set_room_color_hs py_repr id (NInt (d + 360 * k)) sat_percent w
     = set_room_color_hs py_repr id (NInt d) sat_percent w.
Proof.
  assert (H : hue_to_native (NInt (d + 360 * k)) = hue_to_native (NInt d)).
  { unfold hue_to_native, py_mod. cbn [num_is_zero]. cbn [Z.eqb].
    rewrite (Z.mul_comm 360 k), Z_mod_plus_full. reflexivity. }
  split; [exact H|]. unfold set_color_hs, set_room_color_hs. rewrite H.
  split; reflexivity.
Qed.

(** X14. The saturation saturates.  Every saturation percentage of 100
    or more, an int or a float, is written as the native value 254, and
    every percentage of 0 or less as 0. *)
Theorem sat_to_native_saturates (sat_percent : num) :
  ((100 <= num_val sat_percent)%Q -> sat_to_native sat_percent = Ok 254)
  /\ ((num_val sat_percent <= 0)%Q -> sat_to_native sat_percent = Ok 0).
Proof.
  unfold sat_to_native, py_min, py_max. split; intros H.
  - destruct (py_lt sat_percent (NInt 100)) eqn:E.
    + apply py_lt_spec in E. change (num_val (NInt 100)) with 100%Q in E. exfalso; lra.
    + vm_compute. reflexivity.
  - destruct (py_lt sat_percent (NInt 100)) eqn:E.
    + destruct (py_lt (NInt 0) sat_percent) eqn:E0.
      * apply py_lt_spec in E0. change (num_val (NInt 0)) with 0%Q in E0. exfalso; lra.
      * vm_compute. reflexivity.
    + assert (E' : ~ (num_val sat_percent < 100)%Q).
      { intros Hlt. apply (py_lt_spec sat_percent (NInt 100)) in Hlt. congruence. }
      exfalso. apply E'. change (num_val (NInt 100)) with 100%Q. lra.
Qed.

End WriteProps.

Lemma set_brightness_below_one_witness :
  set_brightness no_repr 3 (NFloat (9 # 10)) (paired_world (JList []))
  = set_on no_repr 3 false (paired_world (JList [])).
Proof.
  refine (proj1 (proj2 (set_brightness_below_one no_repr 3 (NFloat (9 # 10))
                          (paired_world (JList []))) _)).
  reflexivity.
Defined.

Lemma sat_to_native_saturates_witness :
  sat_to_native (NFloat (2501 # 10)) = Ok 254 /\ sat_to_native (NInt (-5)) = Ok 0.
Proof.
  split.
  - refine (proj1 (sat_to_native_saturates (NFloat (2501 # 10))) _).
    unfold Qle; simpl; lia.
  - refine (proj2 (sat_to_native_saturates (NInt (-5))) _).
    unfold Qle; simpl; lia.
Defined.

Lemma bri_to_percent_0 : bri_to_percent (NInt 0) = Ok 0.
Proof. vm_compute. reflexivity. Qed.

Lemma bri_to_percent_1 : bri_to_percent (NInt 1) = Ok 0.
Proof. vm_compute. reflexivity. Qed.

Lemma bri_to_percent_254 : bri_to_percent (NInt 254) = Ok 100.
Proof. vm_compute. reflexivity. Qed.

Section ReadEdges.

Variable py_repr : json -> string.

(** ** One light *)

Lemma light_entry_on (label : string) (d : list (string * json)) (e : entry) :
  light_entry label (JDict d) = Ok e ->
  exists s,
    default (JDict []) (dict_lookup "state" d) = JDict s
    /\ on e = py_bool (default (JBool false) (dict_lookup "on" s))
    /\ read_bri (default (JNum (NInt 254)) (dict_lookup "bri" s)) (on e) = Ok (bri e).
Proof.
  unfold light_entry. cbn [py_get mbind result_bind].
  destruct (default (JDict []) (dict_lookup "state" d)) as [| | | | |s]; try discriminate.
  cbn [py_get mbind result_bind]. intros H.
  destruct (read_bri _ _) as [p|] eqn:Hp; [| discriminate]. cbn [mbind result_bind] in H.
  destruct (read_supports (JDict s)) as [b|]; [| discriminate].
  cbn [mbind result_bind] in H. injection H as <-.
  exists s. split; [reflexivity|]. split; [reflexivity | exact Hp].
Qed.

(** X15. [light_is_on] agrees with the listing.  For the same light
    object, without an [error] key, [light_is_on] answers the [on] field of
    the entry that [list_lights_detailed] builds from it, with exactly
    one request, a GET of [lights/<id>]; a light without a [state] is
    reported off. *)
Theorem light_is_on_agrees (w : world) (ip user : string) (id : Z)
    (d : list (string * json)) :
  configured w ip user ->
  bridge w (sent w) (Request GET (api ip user ("lights/" +:+ string_of_Z id)) None)
    = Some (JDict d) ->
  dict_lookup "error" d = None ->
  sent (snd (light_is_on py_repr id w))
  = sent w ++ [Request GET (api ip user ("lights/" +:+ string_of_Z id)) None]
  /\ (forall label e,
        light_entry label (JDict d) = Ok e ->
        fst (light_is_on py_repr id w) = Ok (on e))
  /\ (dict_lookup "state" d = None -> fst (light_is_on py_repr id w) = Ok false).
Proof.
  intros Hcfg Hb Herr. unfold light_is_on.
  rewrite (get_run py_repr _ _ w _ (api_url_configured py_repr w ip user _ Hcfg)).
  cbn [List.map join py_str].
  change (api ip user ("lights" +:+ "/" +:+ string_of_Z id))
    with (api ip user ("lights/" +:+ string_of_Z id)).
  rewrite Hb. cbn [fst snd sent _raise_if_error]. rewrite Herr.
  cbn [mbind result_bind py_get].
  split; [reflexivity|]. split.
  - intros label e He. destruct (light_entry_on label d e He) as (s & Hs & Hon & _).
    rewrite Hs. cbn [py_get mbind result_bind]. rewrite Hon. reflexivity.
  - intros Hnone. rewrite Hnone. reflexivity.
Qed.

(** X16. The brightness of a member that sends no usable [bri].  In
    [list_lights_detailed] (and the loop of [list_lights_detailed_for_room])
    a light whose [state] has no [bri] is reported at 100 percent, on or
    off; a [bri] that is not a number (a string, null, a list, an object)
    gives 100 when the light is on and 0 when it is off; a JSON boolean
    counts as the number 1 or 0 and gives 0.  [list_rooms_detailed] does the
    same with the [action] of the group. *)
Theorem brightness_fallback (label : string) (d s : list (string * json)) (e : entry) :
  let fallback :=
    match dict_lookup "bri" s with
    | None => bri e = 100
    | Some (JNum n) => bri_to_percent n = Ok (bri e)
    | Some (JBool _) => bri e = 0
    | Some _ => bri e = if on e then 100 else 0
    end in
  (dict_lookup "state" d = Some (JDict s) -> light_entry label (JDict d) = Ok e -> fallback)
  /\ (dict_lookup "action" d = Some (JDict s) -> room_entry label (JDict d) = Ok e -> fallback).
Proof.
  assert (Hread : forall on0,
            read_bri (default (JNum (NInt 254)) (dict_lookup "bri" s)) on0 = Ok (bri e) ->
            on0 = on e ->
            match dict_lookup "bri" s with
            | None => bri e = 100
            | Some (JNum n) => bri_to_percent n = Ok (bri e)
            | Some (JBool _) => bri e = 0
            | Some _ => bri e = if on e then 100 else 0
            end).
  { intros on0 H ->. unfold read_bri in H.
    destruct (dict_lookup "bri" s) as [[|[|]|n|t|l|o]|].
    - change (Ok (if on e then 100 else 0) = Ok (bri e)) in H. congruence.
    - change (bri_to_percent (NInt 1) = Ok (bri e)) in H.
      rewrite bri_to_percent_1 in H. congruence.
    - change (bri_to_percent (NInt 0) = Ok (bri e)) in H.
      rewrite bri_to_percent_0 in H. congruence.
    - exact H.
    - change (Ok (if on e then 100 else 0) = Ok (bri e)) in H. congruence.
    - change (Ok (if on e then 100 else 0) = Ok (bri e)) in H. congruence.
    - change (Ok (if on e then 100 else 0) = Ok (bri e)) in H. congruence.
    - change (bri_to_percent (NInt 254) = Ok (bri e)) in H.
      rewrite bri_to_percent_254 in H. congruence. }
  cbv zeta. split.
  - intros Hst He. destruct (light_entry_on label d e He) as (s' & Hs & Hon & Hbri).
    rewrite Hst in Hs. injection Hs as <-. exact (Hread _ Hbri eq_refl).
  - intros Hact He. unfold room_entry in He. cbn [py_get mbind result_bind] in He.
    rewrite Hact in He.
    change (default (JDict []) (Some (JDict s))) with (JDict s) in He.
    destruct (room_on _ (JDict s)) as [on0|]; [| discriminate].
    cbn [py_get mbind result_bind] in He.
    destruct (read_bri _ on0) as [p|] eqn:Hp; [| discriminate].
    cbn [mbind result_bind] in He.
    destruct (read_supports (JDict s)) as [b|]; [| discriminate].
    cbn [mbind result_bind] in He. injection He as <-. exact (Hread on0 Hp eq_refl).
Qed.

End ReadEdges.

Lemma light_is_on_agrees_witness :
  fst (light_is_on no_repr 1
         (paired_world (JDict [("state"%string, JDict [("on"%string, JBool true)])])))
  = Ok true.
Proof.
  refine (proj1 (proj2 (light_is_on_agrees no_repr
            (paired_world (JDict [("state"%string, JDict [("on"%string, JBool true)])]))
            "10.0.0.5" "u1" 1 [("state"%string, JDict [("on"%string, JBool true)])]
            eq_refl eq_refl eq_refl)) "1"%string (Entry (JStr "Light 1") true 100 false) _).
  vm_compute. reflexivity.
Defined.

Lemma brightness_fallback_witness :
  bri (Entry (JStr "Light 1") false 100 false) = 100
  /\ bri (Entry (JStr "Light 1") false 0 false) = 0.
Proof.
  split.
  - refine (proj1 (brightness_fallback "1"
              [("state"%string, JDict [("on"%string, JBool false)])]
              [("on"%string, JBool false)]
              (Entry (JStr "Light 1") false 100 false)) eq_refl _).
    vm_compute. reflexivity.
  - refine (proj1 (brightness_fallback "1"
              [("state"%string, JDict [("on"%string, JBool false); ("bri"%string, JStr "dim")])]
              [("on"%string, JBool false); ("bri"%string, JStr "dim")]
              (Entry (JStr "Light 1") false 0 false)) eq_refl _).
    vm_compute. reflexivity.
Defined.

Section SettingsProps.

Variable py_repr : json -> string.

(** ** The settings screen *)

Lemma settings_save_saved (bridge_ip username : string) (w w' : world) :
  settings_save py_repr bridge_ip username w = (Ok Saved, w') ->
  exists u,
    file w' = JsonFile (JDict [("bridge_ip"%string, JStr (strip bridge_ip));
                               ("username"%string, JStr u)])
    /\ (if String.eqb (strip username) EmptyString
        then fst (create_user py_repr (strip bridge_ip) "kivy-warmup#pi" w) = Ok (JStr u)
        else u = strip username).
Proof.
  unfold settings_save. cbv zeta.
  destruct (String.eqb (strip bridge_ip) EmptyString); [discriminate|].
  destruct (save_work py_repr (strip bridge_ip) (strip username) w) as [[[]|e] w1] eqn:Hwork;
    [| discriminate].
  intros [= <-]. unfold save_work in Hwork.
  apply M_bind_ok in Hwork. destruct Hwork as (user_to_save & w2 & Huser & Hsave).
  unfold save_config in Hsave. destruct (disk w2); try discriminate.
  injection Hsave as <-. cbn [file].
  destruct (String.eqb (strip username) EmptyString) eqn:E.
  - apply M_bind_ok in Huser. destruct Huser as (new_user & w3 & Hcreate & Hnew).
    destruct new_user as [| | |u| |]; try discriminate.
    injection Hnew as <- _. exists u. split; [reflexivity|].
    rewrite Hcreate. reflexivity.
  - injection Huser as <- _. exists (strip username). split; reflexivity.
Qed.

(** X17. What [SettingsScreen.save] does.  A blank address ends it at
    once, with nothing sent and nothing written, and this is the only way to
    the outcome "Bridge IP is required".  Otherwise a request is sent only
    when the username is blank, and it is the one pairing POST.  When the
    work ends well the file holds the stripped address and a username that
    is a string, the stripped text of the field when that is not blank.
    Whatever the work raises is caught; the configuration file is then as
    it was, so that a pairing that fails stores nothing, unless it was the
    write of the file itself that broke off.  The label callback of the
    [except] clause raises [NameError]: the label never reads
    "Save error". *)
Theorem settings_save_outcome (bridge_ip username : string) (w : world) :
  exists o w',
    settings_save py_repr bridge_ip username w = (Ok o, w')
    /\ (o = IpRequired <-> strip bridge_ip = EmptyString)
    /\ (o = IpRequired -> w' = w)
    /\ (o = Saved ->
        exists u,
          file w' = JsonFile (JDict [("bridge_ip"%string, JStr (strip bridge_ip));
                                     ("username"%string, JStr u)])
          /\ (strip username <> EmptyString -> u = strip username))
    /\ (forall e,
          o = Caught e ->
          save_label o = Raise NameError
          /\ (file w' = file w
              \/ (e = OSError /\ disk w = Breaks /\ file w' = BadFile)))
    /\ sent w'
       = sent w ++
         (if String.eqb (strip bridge_ip) EmptyString
             || negb (String.eqb (strip username) EmptyString)
          then []
          else [pairing_request (strip bridge_ip) "kivy-warmup#pi"]).
Proof.
  unfold settings_save. cbv zeta.
  destruct (String.eqb (strip bridge_ip) EmptyString) eqn:Hip.
  - apply String.eqb_eq in Hip. exists IpRequired, w.
    split; [reflexivity|]. split; [tauto|]. split; [reflexivity|].
    split; [discriminate|]. split; [discriminate|].
    cbn [orb]. rewrite app_nil_r. reflexivity.
  - apply String.eqb_neq in Hip. unfold save_work.
    assert (Hcaught : forall e0 (w0 : world) l,
              file w0 = file w -> sent w0 = sent w ++ l ->
              exists o w',
                (Ok (Caught e0), w0) = (Ok o, w')
                /\ (o = IpRequired <-> strip bridge_ip = EmptyString)
                /\ (o = IpRequired -> w' = w)
                /\ (o = Saved ->
                    exists u,
                      file w' = JsonFile (JDict [("bridge_ip"%string, JStr (strip bridge_ip));
                                                 ("username"%string, JStr u)])
                      /\ (strip username <> EmptyString -> u = strip username))
                /\ (forall e,
                      o = Caught e ->
                      save_label o = Raise NameError
                      /\ (file w' = file w
                          \/ (e = OSError /\ disk w = Breaks /\ file w' = BadFile)))
                /\ sent w' = sent w ++ l).
    { intros e0 w0 l Hfile Hsent. exists (Caught e0), w0.
      split; [reflexivity|]. split; [split; [discriminate | contradiction]|].
      split; [discriminate|]. split; [discriminate|].
      split; [| exact Hsent]. intros e _. split; [reflexivity | left; exact Hfile]. }
    assert (Hwrite : forall (u : string) (w0 : world) l,
              file w0 = file w -> disk w0 = disk w -> sent w0 = sent w ++ l ->
              (strip username <> EmptyString -> u = strip username) ->
              exists o w',
                match save_config (JStr (strip bridge_ip)) (JStr u) w0 with
                | (Ok _, w1) => (Ok Saved, w1)
                | (Raise e, w1) => (Ok (Caught e), w1)
                end = (Ok o, w')
                /\ (o = IpRequired <-> strip bridge_ip = EmptyString)
                /\ (o = IpRequired -> w' = w)
                /\ (o = Saved ->
                    exists u,
                      file w' = JsonFile (JDict [("bridge_ip"%string, JStr (strip bridge_ip));
                                                 ("username"%string, JStr u)])
                      /\ (strip username <> EmptyString -> u = strip username))
                /\ (forall e,
                      o = Caught e ->
                      save_label o = Raise NameError
                      /\ (file w' = file w
                          \/ (e = OSError /\ disk w = Breaks /\ file w' = BadFile)))
                /\ sent w' = sent w ++ l).
    { intros u w0 l Hfile Hdisk Hsent Hu. unfold save_config. rewrite Hdisk.
      destruct (disk w) eqn:Hd.
      - eexists Saved, _. split; [reflexivity|].
        split; [split; [discriminate | contradiction]|].
        split; [discriminate|].
        split; [intros _; exists u; split; [reflexivity | exact Hu]|].
        split; [discriminate | exact Hsent].
      - eexists (Caught OSError), _. split; [reflexivity|].
        split; [split; [discriminate | contradiction]|].
        split; [discriminate|]. split; [discriminate|].
        split; [| exact Hsent]. intros e _. split; [reflexivity | left; exact Hfile].
      - eexists (Caught OSError), _. split; [reflexivity|].
        split; [split; [discriminate | contradiction]|].
        split; [discriminate|]. split; [discriminate|].
        split; [| exact Hsent]. intros e [= <-]. split; [reflexivity|].
        right. split; [reflexivity|]. split; reflexivity. }
    destruct (String.eqb (strip username) EmptyString) eqn:Huser; cbn [orb negb].
    + apply String.eqb_eq in Huser.
      rewrite !M_bind_run, create_user_run.
      destruct (match bridge w (sent w) _ with
                | Some resp => extract_username py_repr resp
                | None => Raise TransportError
                end) as [new_user|e].
      * destruct new_user as [| | |u| |];
          try (apply Hcaught; reflexivity).
        apply (Hwrite u); try reflexivity. intros H. contradiction.
      * apply Hcaught; reflexivity.
    + rewrite M_bind_run. apply (Hwrite (strip username) w []); try reflexivity.
      rewrite app_nil_r. reflexivity.
Qed.

End SettingsProps.

(** ** Discovery: the prefixes *)

Lemma append_assoc (a b c : string) : (a +:+ b) +:+ c = a +:+ (b +:+ c).
Proof.
  induction a as [|x a IH]; [reflexivity|].
  rewrite !append_cons, IH. reflexivity.
Qed.

Lemma split_on_nonempty (sep : ascii) (s : string) : split_on sep s <> [].
Proof.
  destruct s as [|c s]; simpl; [discriminate|].
  destruct (Ascii.eqb c sep); [discriminate|].
  destruct (split_on sep s); discriminate.
Qed.

Lemma join_cons (sep p : string) (rest : list string) :
  rest <> [] -> join sep (p :: rest) = p +:+ sep +:+ join sep rest.
Proof. destruct rest; [contradiction | reflexivity]. Qed.

Lemma join_split_on (sep : ascii) (s : string) :
  join (String sep EmptyString) (split_on sep s) = s.
Proof.
  induction s as [|c s IH]; [reflexivity|]. simpl split_on.
  destruct (Ascii.eqb c sep) eqn:E.
  - apply Ascii.eqb_eq in E. subst c.
    rewrite (join_cons _ _ _ (split_on_nonempty sep s)), IH. reflexivity.
  - destruct (split_on sep s) as [|w ws] eqn:Es.
    + exfalso. exact (split_on_nonempty sep s Es).
    + destruct ws as [|w' ws].
      * simpl in IH |- *. rewrite IH. reflexivity.
      * rewrite join_cons by discriminate. rewrite join_cons in IH by discriminate.
        rewrite append_cons, IH. reflexivity.
Qed.

Lemma split_on_dotless (sep : ascii) (s part : string) :
  In part (split_on sep s) -> ~ In sep (list_ascii_of_string part).
Proof.
  revert part. induction s as [|c s IH]; intros part; simpl.
  - intros [<- | []]. intros [].
  - destruct (Ascii.eqb c sep) eqn:E.
    + intros [<- | H]; [intros [] | exact (IH part H)].
    + apply Ascii.eqb_neq in E.
      destruct (split_on sep s) as [|w ws].
      * intros [<- | []]. simpl. intros [H | []]. congruence.
      * intros [<- | H]; [| apply IH; right; exact H].
        simpl. intros [H | H]; [congruence|]. exact (IH w (or_introl eq_refl) H).
Qed.

(** X18. The prefixes of the sweep.  [_primary_lan_prefixes] never
    returns an empty list.  When the socket reports an address of four
    dot-separated parts, the only prefix is that address without its last
    part (it ends with the dot, and the part taken off holds no dot; the
    parts are not checked to be numbers); in every other case, a socket
    error among them, the prefixes are the three defaults. *)
Theorem primary_lan_prefixes_shape (sock : option string) :
  _primary_lan_prefixes sock <> []
  /\ (forall ip,
        sock = Some ip -> length (split_on "." ip) = 4%nat ->
        exists body last,
          _primary_lan_prefixes sock = [body +:+ "."]
          /\ ip = (body +:+ ".") +:+ last
          /\ dotless last)
  /\ (sock = None \/ (exists ip, sock = Some ip /\ length (split_on "." ip) <> 4%nat) ->
      _primary_lan_prefixes sock = ["192.168.1."; "192.168.0."; "10.0.0."]%string).
Proof.
  split; [| split].
  - unfold _primary_lan_prefixes. destruct sock as [ip|]; [| discriminate].
    destruct (length (split_on "." ip) =? 4)%nat; discriminate.
  - intros ip -> Hlen. unfold _primary_lan_prefixes.
    rewrite Hlen. cbn [Nat.eqb].
    pose proof (join_split_on "." ip) as Hjoin.
    pose proof (split_on_dotless "." ip) as Hdot.
    destruct (split_on "." ip) as [|a [|b [|c [|d [|x rest]]]]]; try discriminate Hlen.
    exists (join "." [a; b; c]), d. split; [reflexivity|]. split.
    + rewrite <- Hjoin. cbn [join]. rewrite !append_assoc. reflexivity.
    + apply Hdot. right. right. right. left. reflexivity.
  - intros [-> | (ip & -> & Hlen)]; [reflexivity|].
    unfold _primary_lan_prefixes. apply Nat.eqb_neq in Hlen. rewrite Hlen. reflexivity.
Qed.

Lemma primary_lan_prefixes_shape_witness :
  exists body last,
    _primary_lan_prefixes (Some "192.168.178.23"%string) = [body +:+ "."]
    /\ "192.168.178.23"%string = (body +:+ ".") +:+ last
    /\ dotless last.
Proof.
  exact (proj1 (proj2 (primary_lan_prefixes_shape (Some "192.168.178.23"%string)))
           "192.168.178.23"%string eq_refl eq_refl).
Defined.

(** ** The settings screen: discovery *)

Lemma sorted_head_least (x : string) (l : list string) :
  StronglySorted (fun a b => String.leb a b = true) (x :: l) ->
  forall y, In y (x :: l) -> String.leb x y = true.
Proof.
  intros Hs y [<- | Hy].
  - apply leb_cases. left. reflexivity.
  - inversion Hs as [|? ? _ Hall]; subst.
    rewrite List.Forall_forall in Hall. exact (Hall y Hy).
Qed.

(** X19. Which bridge the settings screen picks.  After [discover], when
    no candidate matched the address field is as it was and the label
    reads "No Hue bridges found"; otherwise the field holds a matched
    address that is the least of all matched ones in the order of Python
    strings (so ["10.0.0.10"] goes before ["10.0.0.9"]), whatever the order in
    which the probes complete; the username field is never touched. *)
Theorem settings_discover_least (sock : option string)
    (net : string -> option response)
    (sched : nat -> list (option string) -> list (option string))
    (s : SettingsScreen.t) :
  completion_order sched ->
  let s' := SettingsScreen.discover sock net sched s in
  SettingsScreen.username s' = SettingsScreen.username s
  /\ ((forall ip, ~ matched net (_primary_lan_prefixes sock) ip) ->
      SettingsScreen.bridge_ip s' = SettingsScreen.bridge_ip s
      /\ SettingsScreen.status_lbl s' = "No Hue bridges found"%string)
  /\ (forall ip,
        matched net (_primary_lan_prefixes sock) ip ->
        matched net (_primary_lan_prefixes sock) (SettingsScreen.bridge_ip s')
        /\ String.leb (SettingsScreen.bridge_ip s') ip = true).
Proof.
  intros Hsched. cbv zeta. unfold SettingsScreen.discover, discover_bridges.
  set (prefixes := _primary_lan_prefixes sock).
  set (hits := sweep_all net sched 0 prefixes ∅).
  assert (Hmem : forall ip, In ip (py_sorted (elements hits)) <-> matched net prefixes ip).
  { intros ip. split.
    - intros Hin. apply (Permutation_in _ (py_sorted_perm _)) in Hin.
      apply list_elem_of_In, elem_of_elements in Hin.
      apply (sweep_all_spec net sched 0 prefixes ∅ ip Hsched) in Hin.
      destruct Hin as [Hin | Hin]; [| exact Hin]. apply elem_of_empty in Hin. contradiction.
    - intros Hm. apply (Permutation_in _ (Permutation_sym (py_sorted_perm _))).
      apply list_elem_of_In, elem_of_elements.
      apply (sweep_all_spec net sched 0 prefixes ∅ ip Hsched). right. exact Hm. }
  pose proof (py_sorted_sorted (elements hits)) as Hsorted.
  destruct (py_sorted (elements hits)) as [|ip0 ips] eqn:E; cbn [SettingsScreen.username
    SettingsScreen.bridge_ip SettingsScreen.status_lbl].
  - split; [reflexivity|]. split; [intros _; split; reflexivity|].
    intros ip Hm. apply Hmem in Hm. destruct Hm.
  - split; [reflexivity|]. split.
    + intros Hno. exfalso. apply (Hno ip0). apply Hmem. left. reflexivity.
    + intros ip Hm. split; [apply Hmem; left; reflexivity|].
      apply (sorted_head_least ip0 ips Hsorted). apply Hmem. exact Hm.
Qed.

Lemma settings_discover_least_witness :
  SettingsScreen.bridge_ip
    (SettingsScreen.discover (Some "10.0.0.77"%string) net_two_bridges reversed
       (SettingsScreen.Screen EmptyString "u1" EmptyString))
  = "10.0.0.5"%string
  /\ SettingsScreen.username
       (SettingsScreen.discover (Some "10.0.0.77"%string) net_two_bridges reversed
          (SettingsScreen.Screen EmptyString "u1" EmptyString))
     = "u1"%string.
Proof.
  split; [vm_compute; reflexivity|].
  exact (proj1 (settings_discover_least (Some "10.0.0.77"%string) net_two_bridges reversed
                  (SettingsScreen.Screen EmptyString "u1" EmptyString)
                  reversed_completion_order)).
Defined.

(** ** The order of the items *)

Lemma with_keys_spec (items : list item) (keyed : list (string * item)) :
  with_keys items = Ok keyed ->
  List.map snd keyed = items
  /\ forall kx, In kx keyed ->
       fst kx = key_of (snd kx) /\ exists s, item_name (snd kx) = JStr s.
Proof.
  revert keyed. induction items as [|x rest IH]; intros keyed H; simpl in H.
  - injection H as <-. split; [reflexivity | intros ? []].
  - inv_result H. inv_result H. injection H as <-.
    destruct (IH _ Hx0) as (Hmap & Hkeys).
    split; [simpl; rewrite Hmap; reflexivity|].
    intros kx [<- | Hin]; [| exact (Hkeys kx Hin)].
    unfold sort_key in Hx. unfold key_of. simpl.
    destruct (item_name x) as [| | |s| |]; try discriminate.
    injection Hx as <-. split; [reflexivity | eauto].
Qed.

Lemma with_keys_raises (items : list item) (e : exn) :
  with_keys items = Raise e ->
  e = AttributeError /\ exists x, In x items /\ forall s, item_name x <> JStr s.
Proof.
  induction items as [|x rest IH]; simpl; [discriminate|].
  unfold sort_key at 1. destruct (item_name x) as [| | |s| |] eqn:En;
    try (intros [= <-]; split; [reflexivity|]; exists x;
         split; [left; reflexivity | intros s; rewrite En; discriminate]).
  simpl. destruct (with_keys rest) as [ks|e'] eqn:Er; simpl; [discriminate|].
  intros [= ->]. destruct (IH eq_refl) as (He & y & Hy & Hname).
  split; [exact He|]. exists y. split; [right; exact Hy | exact Hname].
Qed.

Lemma insert_keyed_perm (kx : string * item) (l : list (string * item)) :
  Permutation (insert_keyed kx l) (kx :: l).
Proof.
  induction l as [|ky l IH]; simpl; [reflexivity|].
  destruct (String.leb (fst kx) (fst ky)); [reflexivity|].
  rewrite IH. apply perm_swap.
Qed.

Lemma leb_total (a b : string) : String.leb a b = false -> String.leb b a = true.
Proof.
  unfold String.leb. rewrite (String.compare_antisym b a).
  destruct (String.compare a b); simpl; congruence.
Qed.

Lemma insert_keyed_sorted (kx : string * item) (l : list (string * item)) :
  StronglySorted (fun a b => String.leb (fst a) (fst b) = true) l ->
  StronglySorted (fun a b => String.leb (fst a) (fst b) = true) (insert_keyed kx l).
Proof.
  induction 1 as [|ky l Hl IH Hy]; simpl.
  - constructor; constructor.
  - destruct (String.leb (fst kx) (fst ky)) eqn:E.
    + constructor; [constructor; assumption|].
      constructor; [exact E|].
      rewrite List.Forall_forall in Hy |- *. intros z Hz.
      exact (leb_trans _ _ _ E (Hy z Hz)).
    + constructor; [exact IH|].
      rewrite List.Forall_forall in Hy |- *. intros z Hz.
      apply (Permutation_in _ (insert_keyed_perm kx l)) in Hz.
      destruct Hz as [<- | Hz]; [exact (leb_total _ _ E) | exact (Hy z Hz)].
Qed.

Lemma insert_keyed_filter (k : string) (kx : string * item) (l : list (string * item)) :
  List.filter (fun a => String.eqb (fst a) k) (insert_keyed kx l)
  = List.filter (fun a => String.eqb (fst a) k) (kx :: l).
Proof.
  induction l as [|ky l IH]; [reflexivity|]. cbn [insert_keyed].
  destruct (String.leb (fst kx) (fst ky)) eqn:E; [reflexivity|].
  cbn [List.filter] in IH |- *. rewrite IH.
  destruct (String.eqb (fst kx) k) eqn:Ex; [| reflexivity].
  destruct (String.eqb (fst ky) k) eqn:Ey; [| reflexivity].
  apply String.eqb_eq in Ex, Ey. exfalso.
  assert (Hle : String.leb (fst kx) (fst ky) = true).
  { apply leb_cases. left. congruence. }
  congruence.
Qed.

Lemma sorted_keyed_spec (keyed : list (string * item)) :
  Permutation (fold_right insert_keyed [] keyed) keyed
  /\ StronglySorted (fun a b => String.leb (fst a) (fst b) = true)
       (fold_right insert_keyed [] keyed)
  /\ forall k,
       List.filter (fun a => String.eqb (fst a) k) (fold_right insert_keyed [] keyed)
       = List.filter (fun a => String.eqb (fst a) k) keyed.
Proof.
  induction keyed as [|kx l (IHp & IHs & IHf)]; simpl.
  - split; [reflexivity|]. split; [constructor | reflexivity].
  - split; [rewrite insert_keyed_perm, IHp; reflexivity|].
    split; [apply insert_keyed_sorted, IHs|].
    intros k. rewrite insert_keyed_filter. cbn [List.filter]. rewrite IHf. reflexivity.
Qed.

Lemma filter_map_keyed (k : string) (l : list (string * item)) :
  (forall kx, In kx l -> fst kx = key_of (snd kx)) ->
  List.filter (fun x => String.eqb (key_of x) k) (List.map snd l)
  = List.map snd (List.filter (fun a => String.eqb (fst a) k) l).
Proof.
  induction l as [|kx l IH]; intros H; [reflexivity|]. cbn [List.map List.filter].
  rewrite <- (H kx (or_introl eq_refl)).
  rewrite IH by (intros ky Hy; apply H; right; exact Hy).
  destruct (String.eqb (fst kx) k); reflexivity.
Qed.

Lemma sorted_map_keyed (l : list (string * item)) :
  (forall kx, In kx l -> fst kx = key_of (snd kx)) ->
  StronglySorted (fun a b => String.leb (fst a) (fst b) = true) l ->
  StronglySorted (fun x y => String.leb (key_of x) (key_of y) = true) (List.map snd l).
Proof.
  intros H Hs. induction Hs as [|kx l Hl IH Hx]; simpl; [constructor|].
  constructor.
  - apply IH. intros ky Hy. apply H. right. exact Hy.
  - rewrite List.Forall_forall in Hx |- *. intros y Hy.
    apply List.in_map_iff in Hy. destruct Hy as (ky & <- & Hky).
    rewrite <- (H kx (or_introl eq_refl)), <- (H ky (or_intror Hky)).
    exact (Hx ky Hky).
Qed.

(** X20. The order of the tiles.  [items.sort(key=lambda x:
    x["name"].lower())] keeps every item, each as often as it was there,
    puts them in the order of their lower-cased names (in the order of
    Python strings), and keeps items whose names agree up to case in the
    order of the listing.  It fails, with the [AttributeError] of
    [.lower()], exactly when the name of some item is not a string, whatever
    the other names are. *)
Theorem sort_items_stable (items : list item) :
  match sort_items items with
  | Ok sorted =>
      Permutation sorted items
      /\ StronglySorted (fun x y => String.leb (key_of x) (key_of y) = true) sorted
      /\ (forall k,
            List.filter (fun x => String.eqb (key_of x) k) sorted
            = List.filter (fun x => String.eqb (key_of x) k) items)
      /\ forall x, In x items -> exists s, item_name x = JStr s
  | Raise e =>
      e = AttributeError
      /\ exists x, In x items /\ forall s, item_name x <> JStr s
  end.
Proof.
  unfold sort_items. destruct (with_keys items) as [keyed|e] eqn:Hk; simpl.
  - destruct (with_keys_spec items keyed Hk) as (Hmap & Hkeys).
    destruct (sorted_keyed_spec keyed) as (Hperm & Hsorted & Hfilter).
    assert (Hkeys' : forall kx, In kx (fold_right insert_keyed [] keyed) ->
                                fst kx = key_of (snd kx)).
    { intros kx Hin. apply (Permutation_in _ Hperm) in Hin. apply (Hkeys kx Hin). }
    split; [rewrite <- Hmap; apply Permutation_map, Hperm|].
    split; [apply sorted_map_keyed; assumption|].
    split.
    + intros k. rewrite (filter_map_keyed k _ Hkeys'), Hfilter.
      rewrite <- (filter_map_keyed k keyed (fun kx H => proj1 (Hkeys kx H))), Hmap.
      reflexivity.
    + intros x Hx. rewrite <- Hmap in Hx. apply List.in_map_iff in Hx.
      destruct Hx as (kx & <- & Hin). exact (proj2 (Hkeys kx Hin)).
  - exact (with_keys_raises items e Hk).
Qed.

(** ** The pages of the room grid *)

Lemma total_pages_ok (s : MainScreen.t) :
  0 < MainScreen.PAGE_SIZE s ->
  exists total,
    MainScreen.total_pages s = Ok total
    /\ 1 <= total
    /\ Z.of_nat (length (MainScreen.rooms s)) <= total * MainScreen.PAGE_SIZE s
    /\ (MainScreen.rooms s <> [] ->
        (total - 1) * MainScreen.PAGE_SIZE s < Z.of_nat (length (MainScreen.rooms s))).
Proof.
  intros HP. unfold MainScreen.total_pages.
  destruct (MainScreen.PAGE_SIZE s =? 0) eqn:E; [apply Z.eqb_eq in E; lia|].
  set (n := Z.of_nat (length (MainScreen.rooms s))).
  set (P := MainScreen.PAGE_SIZE s) in *.
  eexists. split; [reflexivity|].
  assert (Hn : 0 <= n) by (unfold n; lia).
  pose proof (Z.div_mod (n + P - 1) P ltac:(lia)) as Hdm.
  pose proof (Z.mod_pos_bound (n + P - 1) P HP) as Hmod.
  set (q := (n + P - 1) / P) in *.
  split; [lia|]. split; [nia|].
  intros Hne. assert (1 <= n).
  { unfold n. destruct (MainScreen.rooms s); [contradiction | simpl; lia]. }
  assert (1 <= q) by nia.
  rewrite Z.max_r by lia. nia.
Qed.

Lemma py_slice_page {A} (l : list A) (a P : Z) :
  0 <= a -> 0 < P ->
  py_slice l a (a + P) = firstn (Z.to_nat P) (skipn (Z.to_nat a) l).
Proof.
  intros Ha HP. unfold py_slice, slice_index.
  destruct (a <? 0) eqn:E1; [apply Z.ltb_lt in E1; lia|].
  destruct (a + P <? 0) eqn:E2; [apply Z.ltb_lt in E2; lia|].
  set (n := Z.of_nat (length l)).
  destruct (Z_le_gt_dec n a) as [Hge | Hlt].
  - rewrite !Z.min_r by lia.
    rewrite !skipn_all2 by lia. rewrite !firstn_nil. reflexivity.
  - rewrite (Z.min_l a n) by lia.
    destruct (Z_le_gt_dec (a + P) n) as [Hfit | Hover].
    + rewrite Z.min_l by lia. f_equal. lia.
    + rewrite Z.min_r by lia.
      rewrite !firstn_all2; [reflexivity | |]; rewrite length_skipn; lia.
Qed.

Lemma firstn_plus {A} (a b : nat) (l : list A) :
  firstn (a + b) l = firstn a l ++ firstn b (skipn a l).
Proof.
  revert l. induction a as [|a IH]; intros l; [reflexivity|].
  destruct l as [|x l]; simpl; [rewrite firstn_nil; reflexivity|].
  rewrite IH. reflexivity.
Qed.

Lemma chunks_concat {A} (P : nat) (l : list A) (t : nat) :
  concat (List.map (fun i => firstn P (skipn (i * P) l)) (seq 0 t)) = firstn (t * P) l.
Proof.
  induction t as [|t IH]; [reflexivity|].
  rewrite seq_S, List.map_app, concat_app, IH. simpl.
  rewrite app_nil_r. rewrite (Nat.add_comm P (t * P)), firstn_plus. reflexivity.
Qed.

Lemma page_of_chunk (s : MainScreen.t) (i : Z) :
  0 < MainScreen.PAGE_SIZE s -> 0 <= i ->
  MainScreen.page_of s i
  = firstn (Z.to_nat (MainScreen.PAGE_SIZE s))
      (skipn (Z.to_nat i * Z.to_nat (MainScreen.PAGE_SIZE s)) (MainScreen.rooms s)).
Proof.
  intros HP Hi. unfold MainScreen.page_of. cbv zeta.
  rewrite py_slice_page by nia. f_equal. f_equal. nia.
Qed.

(** X21. The pages hold every room once.  With a positive page size,
    the pages [0 .. total_pages - 1], each the slice
    [rooms[page * PAGE_SIZE : page * PAGE_SIZE + PAGE_SIZE]] that
    [update_rooms_view] shows, put one after the other give the list of the
    rooms; every page but the last is full, and no page is empty unless
    there is no room at all. *)
Theorem pages_partition (s : MainScreen.t) :
  0 < MainScreen.PAGE_SIZE s ->
  exists total,
    MainScreen.total_pages s = Ok total
    /\ concat (List.map (MainScreen.page_of s) (zrange 0 (Z.to_nat total)))
       = MainScreen.rooms s
    /\ (forall page, 0 <= page < total - 1 ->
          Z.of_nat (length (MainScreen.page_of s page)) = MainScreen.PAGE_SIZE s)
    /\ (forall page, 0 <= page < total ->
          Z.of_nat (length (MainScreen.page_of s page)) <= MainScreen.PAGE_SIZE s
          /\ (MainScreen.rooms s <> [] -> MainScreen.page_of s page <> [])).
Proof.
  intros HP. destruct (total_pages_ok s HP) as (total & Ht & Hpos & Hcover & Hlast).
  exists total. split; [exact Ht|].
  set (P := MainScreen.PAGE_SIZE s) in *.
  set (n := Z.of_nat (length (MainScreen.rooms s))) in *.
  assert (Hlen : forall page, 0 <= page ->
            Z.of_nat (length (MainScreen.page_of s page)) = Z.min P (Z.max 0 (n - page * P))).
  { intros page Hp. rewrite (page_of_chunk s page HP Hp).
    rewrite length_firstn, length_skipn. fold P. unfold n. nia. }
  split; [| split].
  - unfold zrange. rewrite List.map_map.
    rewrite (List.map_ext_in _
               (fun i => firstn (Z.to_nat P) (skipn (i * Z.to_nat P) (MainScreen.rooms s)))).
    + rewrite chunks_concat. apply firstn_all2. unfold n in Hcover. nia.
    + intros i _. rewrite (page_of_chunk s (0 + Z.of_nat i) HP) by lia.
      fold P. f_equal. f_equal. lia.
  - intros page Hp. rewrite (Hlen page) by lia.
    assert (Hne : MainScreen.rooms s <> []).
    { intros Hnil. unfold n in Hcover, Hlen. destruct Hp as [Hp0 Hp1].
      assert (1 < total) by lia.
      unfold MainScreen.total_pages in Ht. rewrite Hnil in Ht. simpl length in Ht.
      destruct (MainScreen.PAGE_SIZE s =? 0); [discriminate|]. injection Ht as Ht.
      fold P in Ht. change (Z.of_nat 0) with 0 in Ht.
      rewrite (Z.div_small (0 + P - 1) P) in Ht by lia. lia. }
    specialize (Hlast Hne). nia.
  - intros page Hp. rewrite (Hlen page) by lia. split; [lia|].
    intros Hne. specialize (Hlast Hne).
    assert (Hl : 0 < Z.of_nat (length (MainScreen.page_of s page))).
    { rewrite (Hlen page) by lia. nia. }
    intros Hnil. rewrite Hnil in Hl. simpl in Hl. lia.
Qed.

Lemma pages_partition_witness :
  exists total,
    MainScreen.total_pages five_rooms = Ok total
    /\ concat (List.map (MainScreen.page_of five_rooms) (zrange 0 (Z.to_nat total)))
       = MainScreen.rooms five_rooms
    /\ (forall page, 0 <= page < total - 1 ->
          Z.of_nat (length (MainScreen.page_of five_rooms page))
          = MainScreen.PAGE_SIZE five_rooms)
    /\ (forall page, 0 <= page < total ->
          Z.of_nat (length (MainScreen.page_of five_rooms page))
          <= MainScreen.PAGE_SIZE five_rooms
          /\ (MainScreen.rooms five_rooms <> [] -> MainScreen.page_of five_rooms page <> [])).
Proof. apply (pages_partition five_rooms). reflexivity. Defined.

Lemma page_rooms_run (delta : Z) (s : MainScreen.t) (total : Z) :
  MainScreen.total_pages s = Ok total ->
  MainScreen.page_rooms delta s
  = (Ok (),
     MainScreen.Screen (MainScreen.rooms s) (MainScreen.PAGE_SIZE s)
       ((MainScreen.rooms_page s + delta) mod total)
       (match MainScreen.rooms_grid s with
        | Some _ =>
            string_of_Z (Z.min ((MainScreen.rooms_page s + delta) mod total + 1) total)
              +:+ "/" +:+ string_of_Z total
        | None => MainScreen.rooms_page_text s
        end)
       (MainScreen._gen_rooms s) (MainScreen.loading_rooms s)
       (match MainScreen.rooms_grid s with
        | Some _ => Some (MainScreen.page_of s ((MainScreen.rooms_page s + delta) mod total))
        | None => None
        end)).
Proof.
  intros Ht. unfold MainScreen.page_rooms. rewrite Ht.
  unfold MainScreen.update_rooms_view. cbn [MainScreen.rooms_grid].
  destruct (MainScreen.rooms_grid s) as [g|]; [| reflexivity].
  unfold MainScreen._refresh_page_label.
  assert (Ht' : forall p txt g',
            MainScreen.total_pages
              (MainScreen.Screen (MainScreen.rooms s) (MainScreen.PAGE_SIZE s) p txt
                 (MainScreen._gen_rooms s) (MainScreen.loading_rooms s) g') = Ok total).
  { intros. exact Ht. }
  rewrite Ht'. reflexivity.
Qed.

(** X22. Paging wraps around.  With a positive page size, [page_rooms]
    never raises and leaves the page index in [0 .. total_pages - 1],
    whatever the step and whatever the index was; one step forward from the
    last page shows the first, one step back from the first shows the last.
    When the screen has its grid, the grid then shows the slice of that
    page and the label reads [<page + 1>/<total_pages>]. *)
Theorem page_rooms_wraps (delta : Z) (s : MainScreen.t) :
  0 < MainScreen.PAGE_SIZE s ->
  exists total s',
    MainScreen.total_pages s = Ok total
    /\ MainScreen.page_rooms delta s = (Ok (), s')
    /\ MainScreen.rooms s' = MainScreen.rooms s
    /\ MainScreen.PAGE_SIZE s' = MainScreen.PAGE_SIZE s
    /\ 0 <= MainScreen.rooms_page s' < total
    /\ (MainScreen.rooms_page s = total - 1 -> delta = 1 -> MainScreen.rooms_page s' = 0)
    /\ (MainScreen.rooms_page s = 0 -> delta = -1 -> MainScreen.rooms_page s' = total - 1)
    /\ (MainScreen.rooms_grid s <> None ->
        MainScreen.rooms_grid s' = Some (MainScreen.page_of s' (MainScreen.rooms_page s'))
        /\ MainScreen.rooms_page_text s'
           = string_of_Z (MainScreen.rooms_page s' + 1) +:+ "/" +:+ string_of_Z total).
Proof.
  intros HP. destruct (total_pages_ok s HP) as (total & Ht & Hpos & _).
  exists total. eexists. split; [exact Ht|].
  split; [apply (page_rooms_run delta s total Ht)|].
  cbn [MainScreen.rooms MainScreen.PAGE_SIZE MainScreen.rooms_page MainScreen.rooms_grid
       MainScreen.rooms_page_text].
  pose proof (Z.mod_pos_bound (MainScreen.rooms_page s + delta) total ltac:(lia)) as Hmod.
  split; [reflexivity|]. split; [reflexivity|]. split; [exact Hmod|].
  split; [| split].
  - intros -> ->. replace (total - 1 + 1) with total by lia. apply Z.mod_same. lia.
  - intros -> ->. rewrite <- (Z.mod_add (0 + -1) 1 total) by lia.
    rewrite Z.mod_small by lia. lia.
  - intros Hgrid. destruct (MainScreen.rooms_grid s) as [g|]; [| contradiction].
    split; [reflexivity|]. rewrite Z.min_l by lia. reflexivity.
Qed.

Lemma page_rooms_wraps_witness :
  exists total s',
    MainScreen.total_pages five_rooms = Ok total
    /\ MainScreen.page_rooms (-1) five_rooms = (Ok (), s')
    /\ MainScreen.rooms s' = MainScreen.rooms five_rooms
    /\ MainScreen.PAGE_SIZE s' = MainScreen.PAGE_SIZE five_rooms
    /\ 0 <= MainScreen.rooms_page s' < total
    /\ (MainScreen.rooms_page five_rooms = total - 1 -> -1 = 1 ->
        MainScreen.rooms_page s' = 0)
    /\ (MainScreen.rooms_page five_rooms = 0 -> -1 = -1 ->
        MainScreen.rooms_page s' = total - 1)
    /\ (MainScreen.rooms_grid five_rooms <> None ->
        MainScreen.rooms_grid s' = Some (MainScreen.page_of s' (MainScreen.rooms_page s'))
        /\ MainScreen.rooms_page_text s'
           = string_of_Z (MainScreen.rooms_page s' + 1) +:+ "/" +:+ string_of_Z total).
Proof. apply (page_rooms_wraps (-1) five_rooms). reflexivity. Defined.

(** X23. Steps of paging add up.  With a positive page size, paging by
    [a] and then by [b] leaves the screen exactly as paging by [a + b]
    does; in particular paging by [a] and back by [-a] returns to the page
    one started from, when that page was one of the pages. *)
Theorem page_rooms_compose (a b : Z) (s : MainScreen.t) :
  0 < MainScreen.PAGE_SIZE s ->
  snd (MainScreen.page_rooms b (snd (MainScreen.page_rooms a s)))
  = snd (MainScreen.page_rooms (a + b) s)
  /\ (forall total,
        MainScreen.total_pages s = Ok total ->
        0 <= MainScreen.rooms_page s < total ->
        MainScreen.rooms_page
          (snd (MainScreen.page_rooms (- a) (snd (MainScreen.page_rooms a s))))
        = MainScreen.rooms_page s).
Proof.
  intros HP. destruct (total_pages_ok s HP) as (total & Ht & Hpos & _).
  assert (Hstep : forall d,
            MainScreen.total_pages (snd (MainScreen.page_rooms d s)) = Ok total).
  { intros d. rewrite (page_rooms_run d s total Ht). exact Ht. }
  assert (Hboth : forall c d,
            snd (MainScreen.page_rooms d (snd (MainScreen.page_rooms c s)))
            = snd (MainScreen.page_rooms (c + d) s)).
  { intros c d. rewrite (page_rooms_run d _ total (Hstep c)).
    rewrite (page_rooms_run c s total Ht), (page_rooms_run (c + d) s total Ht).
    cbn [snd MainScreen.rooms MainScreen.PAGE_SIZE MainScreen.rooms_page
         MainScreen.rooms_grid MainScreen.rooms_page_text MainScreen._gen_rooms
         MainScreen.loading_rooms].
    rewrite Z.add_mod_idemp_l by lia.
    replace (MainScreen.rooms_page s + c + d) with (MainScreen.rooms_page s + (c + d))
      by lia.
    destruct (MainScreen.rooms_grid s); reflexivity. }
  split; [apply Hboth|].
  intros total' Ht' Hin. rewrite Ht in Ht'. injection Ht' as <-.
  rewrite Hboth, (page_rooms_run (a + - a) s total Ht). cbn [snd MainScreen.rooms_page].
  replace (MainScreen.rooms_page s + (a + - a)) with (MainScreen.rooms_page s) by lia.
  apply Z.mod_small. exact Hin.
Qed.

Lemma page_rooms_compose_witness :
  snd (MainScreen.page_rooms 1 (snd (MainScreen.page_rooms 1 five_rooms)))
  = snd (MainScreen.page_rooms 2 five_rooms).
Proof.
  exact (proj1 (page_rooms_compose 1 1 five_rooms eq_refl)).
Defined.

(** X24. The page size and the label after a resize.
    [_tune_for_small_screen] never raises: it sets the page size to 6 from
    a window width of 760 and to 4 below, so that the page count is defined,
    and touches neither the page index nor the grid.  The label it writes
    is [k/n] with [n] the page count and [k = min(page + 1, n)], which is at
    most [n] even when the page index, kept from a smaller page size, is no
    longer one of the pages. *)
Theorem tune_for_small_screen_label (W : num) (s : MainScreen.t) :
  exists total s',
    MainScreen._tune_for_small_screen W s = (Ok (), s')
    /\ MainScreen.PAGE_SIZE s' = (if py_lt W (NInt 760) then 4 else 6)
    /\ MainScreen.total_pages s' = Ok total /\ 1 <= total
    /\ MainScreen.rooms s' = MainScreen.rooms s
    /\ MainScreen.rooms_page s' = MainScreen.rooms_page s
    /\ MainScreen.rooms_grid s' = MainScreen.rooms_grid s
    /\ MainScreen.rooms_page_text s'
       = string_of_Z (Z.min (MainScreen.rooms_page s + 1) total) +:+ "/"
           +:+ string_of_Z total
    /\ Z.min (MainScreen.rooms_page s + 1) total <= total.
Proof.
  unfold MainScreen._tune_for_small_screen. cbv zeta.
  set (P := (if py_lt W (NInt 760) then 2 else 3) * 2).
  assert (HP : P = if py_lt W (NInt 760) then 4 else 6).
  { unfold P. destruct (py_lt W (NInt 760)); reflexivity. }
  set (s0 := MainScreen.Screen (MainScreen.rooms s) P (MainScreen.rooms_page s)
               (MainScreen.rooms_page_text s) (MainScreen._gen_rooms s)
               (MainScreen.loading_rooms s) (MainScreen.rooms_grid s)).
  destruct (total_pages_ok s0) as (total & Ht & Hpos & _).
  { cbn [s0 MainScreen.PAGE_SIZE]. rewrite HP. destruct (py_lt W (NInt 760)); lia. }
  exists total. unfold MainScreen._refresh_page_label. rewrite Ht.
  eexists. split; [reflexivity|].
  cbn [MainScreen.rooms MainScreen.PAGE_SIZE MainScreen.rooms_page MainScreen.rooms_grid
       MainScreen.rooms_page_text s0].
  split; [exact HP|]. split; [exact Ht|]. split; [exact Hpos|].
  repeat (split; [reflexivity|]). lia.
Qed.

(** X25. Only the latest fetch of the rooms is shown.  Of two fetches
    started one after the other, the callback of the first does nothing once
    the second has started, and the callback of the second shows its items
    from page 0: whichever of the two callbacks runs first, the screen ends
    with the rooms of the second fetch. *)
Theorem assign_latest_generation (s : MainScreen.t) (items1 items2 : list item) :
  let first := MainScreen.fetch_rooms_async s in
  let second := MainScreen.fetch_rooms_async (snd first) in
  let s2 := snd second in
  snd (MainScreen.assign (fst first) items1 s2) = s2
  /\ MainScreen.rooms (snd (MainScreen.assign (fst second) items2 s2)) = items2
  /\ MainScreen.rooms_page (snd (MainScreen.assign (fst second) items2 s2)) = 0
  /\ snd (MainScreen.assign (fst second) items2
            (snd (MainScreen.assign (fst first) items1 s2)))
     = snd (MainScreen.assign (fst second) items2 s2)
  /\ snd (MainScreen.assign (fst first) items1
            (snd (MainScreen.assign (fst second) items2 s2)))
     = snd (MainScreen.assign (fst second) items2 s2).
Proof.
  intros first second s2.
  set (g := MainScreen._gen_rooms s).
  assert (Hg1 : fst first = g + 1) by reflexivity.
  assert (Hg2 : fst second = g + 1 + 1) by reflexivity.
  assert (H2 : MainScreen._gen_rooms s2 = g + 1 + 1) by reflexivity.
  rewrite Hg1, Hg2. clearbody s2. clear first second Hg1 Hg2.
  assert (Hstale : forall st, MainScreen._gen_rooms st = g + 1 + 1 ->
                              MainScreen.assign (g + 1) items1 st = (Ok (), st)).
  { intros st Hst. unfold MainScreen.assign. rewrite Hst.
    replace (g + 1 =? g + 1 + 1) with false by (symmetry; apply Z.eqb_neq; lia).
    reflexivity. }
  assert (Hgen : forall st, MainScreen._gen_rooms st = g + 1 + 1 ->
            MainScreen._gen_rooms (snd (MainScreen.assign (g + 1 + 1) items2 st)) = g + 1 + 1
            /\ MainScreen.rooms (snd (MainScreen.assign (g + 1 + 1) items2 st)) = items2
            /\ MainScreen.rooms_page (snd (MainScreen.assign (g + 1 + 1) items2 st)) = 0).
  { intros st Hst. unfold MainScreen.assign. rewrite Hst, Z.eqb_refl. cbn [negb].
    unfold MainScreen.update_rooms_view. cbn [MainScreen.rooms_grid].
    destruct (MainScreen.rooms_grid st); [| cbn; auto].
    unfold MainScreen._refresh_page_label.
    destruct (MainScreen.total_pages _); cbn; auto. }
  destruct (Hgen s2 H2) as (Hg & Hr & Hp).
  split; [rewrite (Hstale s2 H2); reflexivity|].
  split; [exact Hr|]. split; [exact Hp|]. split.
  - rewrite (Hstale s2 H2). reflexivity.
  - rewrite (Hstale _ Hg). reflexivity.
Qed.

Section SettingsRoundTrip.

Variable py_repr : json -> string.

(** X26. The settings screen shows what was saved.  When
    [SettingsScreen.save] ends with "Saved", the file holds the stripped
    address and a username, which is the stripped text of the username
    field when that was not blank and else the username that [create_user]
    returned; the next [on_pre_enter] of the screen fills the two fields
    with that address and that username, and leaves the status label as it
    is. *)
Theorem settings_shows_what_was_saved (bridge_ip username : string) (w w' : world)
    (s : SettingsScreen.t) :
  settings_save py_repr bridge_ip username w = (Ok Saved, w') ->
  exists u,
    file w' = JsonFile (JDict [("bridge_ip"%string, JStr (strip bridge_ip));
                               ("username"%string, JStr u)])
    /\ (if String.eqb (strip username) EmptyString
        then fst (create_user py_repr (strip bridge_ip) "kivy-warmup#pi" w) = Ok (JStr u)
        else u = strip username)
    /\ SettingsScreen.on_pre_enter s w'
       = (Ok (SettingsScreen.Screen (strip bridge_ip) u (SettingsScreen.status_lbl s)), w').
Proof.
  intros Hsave.
  destruct (settings_save_saved py_repr bridge_ip username w w' Hsave) as (u & Hfile & Hu).
  exists u. split; [exact Hfile|]. split; [exact Hu|].
  unfold SettingsScreen.on_pre_enter.
  rewrite (load_config_saved w' _ _ Hfile). reflexivity.
Qed.

End SettingsRoundTrip.

Lemma settings_shows_what_was_saved_witness :
  exists u,
    file (snd (settings_save no_repr " 10.0.0.5 " " " (paired_world (JList [JDict success_abc]))))
    = JsonFile (JDict [("bridge_ip"%string, JStr (strip " 10.0.0.5 "));
                       ("username"%string, JStr u)])
    /\ (if String.eqb (strip " ") EmptyString
        then fst (create_user no_repr (strip " 10.0.0.5 ") "kivy-warmup#pi"
                    (paired_world (JList [JDict success_abc]))) = Ok (JStr u)
        else u = strip " ")
    /\ SettingsScreen.on_pre_enter (SettingsScreen.Screen EmptyString EmptyString "Saved")
         (snd (settings_save no_repr " 10.0.0.5 " " " (paired_world (JList [JDict success_abc]))))
       = (Ok (SettingsScreen.Screen (strip " 10.0.0.5 ") u "Saved"),
          snd (settings_save no_repr " 10.0.0.5 " " " (paired_world (JList [JDict success_abc])))).
Proof.
  apply (settings_shows_what_was_saved no_repr " 10.0.0.5 " " "
           (paired_world (JList [JDict success_abc]))).
  vm_compute. reflexivity.
Defined.

(** X27. A configuration file with a value that is not text.  When the
    file holds an object whose [bridge_ip] is not a string (a number, say),
    [on_pre_enter] leaves both fields of the settings screen as they were:
    the assignment to the first field fails and the username of the file,
    valid or not, is not looked at.  When [bridge_ip] is a string and
    [username] is not, the address is taken and the username field is left. *)
Theorem on_pre_enter_not_text (w : world) (d : list (string * json))
    (s : SettingsScreen.t) :
  file w = JsonFile (JDict d) -> distinct_keys d ->
  (forall v, dict_lookup "bridge_ip" d = Some v -> (forall b, v <> JStr b) ->
             SettingsScreen.on_pre_enter s w = (Ok s, w))
  /\ (forall b v, dict_lookup "bridge_ip" d = Some (JStr b) ->
                  dict_lookup "username" d = Some v -> (forall u, v <> JStr u) ->
                  SettingsScreen.on_pre_enter s w
                  = (Ok (SettingsScreen.Screen b (SettingsScreen.username s)
                           (SettingsScreen.status_lbl s)), w)).
Proof.
  intros Hfile Hd.
  assert (Hload : exists cfg,
            load_config w = (Ok cfg, w)
            /\ pydict_get (JStr "bridge_ip") cfg
               = Some (default (JStr EmptyString) (dict_lookup "bridge_ip" d))
            /\ pydict_get (JStr "username") cfg
               = Some (default (JStr EmptyString) (dict_lookup "username" d))).
  { unfold load_config, load_config_try. rewrite Hfile.
    cbn [pydict_update]. eexists. split; [reflexivity|].
    rewrite !(fold_set_lookup _ d _ Hd).
    split; [destruct (dict_lookup "bridge_ip" d) | destruct (dict_lookup "username" d)];
      reflexivity. }
  destruct Hload as (cfg & Hcfg & Hb & Hu).
  unfold SettingsScreen.on_pre_enter. rewrite Hcfg, Hb, Hu. split.
  - intros v Hv Hnot. rewrite Hv.
    change (default (JStr EmptyString) (Some (default (JStr EmptyString) (Some v))))
      with v.
    destruct v; try reflexivity. exfalso. exact (Hnot _ eq_refl).
  - intros b v Hbv Hv Hnot. rewrite Hbv, Hv.
    change (default (JStr EmptyString) (Some (default (JStr EmptyString) (Some (JStr b)))))
      with (JStr b).
    change (default (JStr EmptyString) (Some (default (JStr EmptyString) (Some v))))
      with v.
    destruct v; try reflexivity. exfalso. exact (Hnot _ eq_refl).
Qed.

Lemma on_pre_enter_not_text_witness :
  SettingsScreen.on_pre_enter (SettingsScreen.Screen "old" "me" EmptyString)
    (World (JsonFile (JDict [("bridge_ip"%string, JNum (NInt 5));
                             ("username"%string, JStr "u1")]))
       Writes (fun _ => None) (fun _ _ => None) [])
  = (Ok (SettingsScreen.Screen "old" "me" EmptyString),
     World (JsonFile (JDict [("bridge_ip"%string, JNum (NInt 5));
                             ("username"%string, JStr "u1")]))
       Writes (fun _ => None) (fun _ _ => None) []).
Proof.
  refine (proj1 (on_pre_enter_not_text
            (World (JsonFile (JDict [("bridge_ip"%string, JNum (NInt 5));
                                     ("username"%string, JStr "u1")]))
               Writes (fun _ => None) (fun _ _ => None) [])
            [("bridge_ip"%string, JNum (NInt 5)); ("username"%string, JStr "u1")]
            (SettingsScreen.Screen "old" "me" EmptyString) eq_refl _)
            (JNum (NInt 5)) eq_refl _).
  - repeat constructor; simpl; intuition discriminate.
  - discriminate.
Defined.

Lemma sort_items_shown (out : outdict) (items : list item) :
  List.NoDup (ids_of out) -> sort_items (items_of out) = Ok items ->
  shown_sorted out items.
Proof.
  intros Hnd Hsort. unfold sort_items in Hsort. inv_result Hsort. injection Hsort as <-.
  destruct (with_keys_spec _ _ Hx) as (Hmap & Hkeys).
  destruct (sorted_keyed_spec x) as (Hperm & Hsorted & _).
  assert (Hp : Permutation (List.map snd (fold_right insert_keyed [] x)) (items_of out)).
  { rewrite <- Hmap. apply Permutation_map, Hperm. }
  split; [exact Hp|]. split.
  - apply (Permutation_NoDup (l := List.map item_id (items_of out))).
    + apply Permutation_sym, Permutation_map, Hp.
    + unfold items_of. rewrite List.map_map. exact Hnd.
  - apply sorted_map_keyed; [| exact Hsorted].
    intros kx Hin. apply (Permutation_in _ Hperm) in Hin. apply (Hkeys kx Hin).
Qed.

Section WorkProps.

Variable py_repr : json -> string.

(** X28. From the listing to the tiles.  When the thread of
    [fetch_rooms_async] or of [fetch_lights_async] gets its items, they are
    the entries that [list_rooms_detailed] (or
    [list_lights_detailed_for_room] for the room of the screen) returned,
    each with its id, name, state and brightness and each once, in the
    order of their lower-cased names; no further request is sent for
    them. *)
Theorem work_items (w : world) :
  (forall items w',
      rooms_work py_repr w = (Ok items, w') ->
      exists out,
        list_rooms_detailed py_repr w = (Ok out, w') /\ shown_sorted out items)
  /\ (forall room_id items w',
        lights_work py_repr room_id w = (Ok items, w') ->
        exists out,
          list_lights_detailed_for_room py_repr room_id w = (Ok out, w')
          /\ shown_sorted out items).
Proof.
  split.
  - intros items w' Hrun. unfold rooms_work in Hrun.
    apply M_bind_ok in Hrun. destruct Hrun as (out & w1 & Hlist & Hsort).
    unfold lift in Hsort. injection Hsort as Hsort <-.
    exists out. split; [exact Hlist|]. apply sort_items_shown; [| exact Hsort].
    apply (listing_run py_repr) in Hlist.
    destruct Hlist as (url & data & _ & _ & _ & Hpay).
    apply (payload_items py_repr) in Hpay. destruct Hpay as (its & _ & _ & Hloop).
    apply (rooms_loop_nodup _ _ _ Hloop). constructor.
  - intros room_id items w' Hrun. unfold lights_work in Hrun.
    apply M_bind_ok in Hrun. destruct Hrun as (out & w1 & Hlist & Hsort).
    unfold lift in Hsort. injection Hsort as Hsort <-.
    exists out. split; [exact Hlist|]. apply sort_items_shown; [| exact Hsort].
    exact (for_room_nodup py_repr room_id w w1 out Hlist).
Qed.

End WorkProps.

Lemma work_items_witness :
  exists out,
    list_rooms_detailed no_repr (paired_world room_and_zone)
    = (Ok out, snd (rooms_work no_repr (paired_world room_and_zone)))
    /\ shown_sorted out [Item 1 (JStr "Kitchen") false 100 false].
Proof.
  apply (proj1 (work_items no_repr (paired_world room_and_zone))).
  vm_compute. reflexivity.
Defined.

Section PairingEdges.

Variable py_repr : json -> string.

(** ** Pairing without a credential *)

(** X29. A pairing response that is a list without an error object and
    without a username.  When every item is passed over (the empty list
    among them) [create_user] raises ["Unexpected Hue response creating
    user."]; when the first item that is not passed over is not an object
    (a string, a number, null) the loop fails on [item.get] with
    [AttributeError], although [_raise_if_error] let the item pass.  In both
    cases the one POST has been sent and the configuration file is
    untouched. *)
Theorem create_user_no_credential (w : world) (bridge_ip devicetype : string)
    (pre rest : list json) :
  bridge w (sent w) (pairing_request bridge_ip devicetype) = Some (JList (pre ++ rest)) ->
  (forall d, In (JDict d) (pre ++ rest) -> dict_lookup "error" d = None) ->
  Forall skipped pre ->
  (rest = [] ->
   fst (create_user py_repr bridge_ip devicetype w) = Raise unexpected_response)
  /\ (forall x post,
        rest = x :: post -> (forall d, x <> JDict d) ->
        fst (create_user py_repr bridge_ip devicetype w) = Raise AttributeError)
  /\ snd (create_user py_repr bridge_ip devicetype w)
     = after w [pairing_request bridge_ip devicetype].
Proof.
  intros Hresp Hnoerr Hpre. rewrite create_user_run, Hresp. cbn [fst snd].
  unfold extract_username. rewrite raise_if_error_vendor. cbn [vendor_error].
  rewrite (first_error_absent _ Hnoerr). cbn [mbind result_bind].
  rewrite (find_username_skip pre rest Hpre).
  split; [| split].
  - intros ->. reflexivity.
  - intros x post -> Hx. cbn [find_username].
    destruct x as [| | | | |d]; try reflexivity.
    exfalso. exact (Hx d eq_refl).
  - reflexivity.
Qed.

End PairingEdges.

Lemma create_user_no_credential_witness :
  fst (create_user no_repr "10.0.0.5" "kivy-warmup#pi"
         (paired_world (JList [JDict [("success"%string, JDict [])]; JStr "ok"])))
  = Raise AttributeError.
Proof.
  refine (proj1 (proj2 (create_user_no_credential no_repr
            (paired_world (JList [JDict [("success"%string, JDict [])]; JStr "ok"]))
            "10.0.0.5" "kivy-warmup#pi"
            [JDict [("success"%string, JDict [])]] [JStr "ok"] eq_refl _ _))
            (JStr "ok") [] eq_refl _).
  - intros d [[= <-] | [[=] | []]]. reflexivity.
  - constructor; [| constructor]. eexists. split; [reflexivity|]. left. reflexivity.
  - discriminate.
Defined.
